(** * Nion Swift: data items, residency, change batching and symbolic nodes

    A shallow embedding of [model/DataItem.py] and [model/Symbolic.py].

    Conventions of the embedding.
    - Methods run sequentially: the re-entrant locks of the source
      ([__data_mutex], [__get_data_mutex], [__data_ref_count_mutex],
      [__data_item_change_mutex]) bracket code without changing its result
      in a single thread, so they do not appear.
    - A data item owns its (optional) data source, so an item together with
      its chain of sources is one value of type [DataItem]; a method that
      calls into the source returns the updated source inside the result.
    - Calls that leave the modelled classes (operations, processors,
      listeners, storage) are recorded in a list of [Event]s returned next to
      the new state.  The events are the only ghost part of the model.
    - A Python exception is the [Raise] case of [result]. *)

From stdpp Require Import base gmap strings list.
From Stdlib Require Import ZArith Lia.

Local Open Scope Z_scope.
Set Default Proof Using "Type".

(** ** Python values shared by both modules *)

Inductive exception :=
| AssertionError
| AttributeError
| IndexError
| KeyError
| TypeError.

Inductive result (A : Type) :=
| Ok (a : A)
| Raise (e : exception).
Arguments Ok {A} a.
Arguments Raise {A} e.

Global Instance result_ret : MRet result := fun A a => Ok a.

Global Instance result_bind : MBind result := fun A B k r =>
  match r with
  | Ok a => k a
  | Raise e => Raise e
  end.

(** ** numpy arrays

    An array is its shape, its dtype and its elements in row-major order.
    Element values stay integers: the functions embedded below move, index
    and compare arrays and never compute with their elements. *)

Inductive numpy_dtype :=
| int8 | int16 | int32 | int64
| uint8 | uint16 | uint32 | uint64
| float32 | float64
| complex64 | complex128.

Record ndarray := {
  shape : list Z;
  dtype : numpy_dtype;
  buffer : list Z
}.

(** [a[i]] on an axis of length [n]: negative indices count from the end and
    anything outside [-n, n) is an IndexError. *)
Definition normalize_index (n i : Z) : option Z :=
  if (0 <=? i) && (i <? n) then Some i
  else if (- n <=? i) && (i <? 0) then Some (i + n)
  else None.

Definition product (l : list Z) : Z := foldr Z.mul 1 l.

(** [a[i0, i1, ...]] with integer indices: one axis is consumed per index and
    the remaining axes form the result; [None] stands for IndexError (index
    out of bounds, or more indices than axes). *)
Fixpoint getitem_from (sh : list Z) (buf : list Z) (idx : list Z)
  : option (list Z * list Z) :=
  match idx with
  | [] => Some (sh, buf)
  | i :: idx' =>
      match sh with
      | [] => None
      | n :: sh' =>
          match normalize_index n i with
          | None => None
          | Some k =>
              let stride := Z.to_nat (product sh') in
              getitem_from sh' (take stride (drop (Z.to_nat k * stride) buf)) idx'
          end
      end
  end.

Definition getitem (a : ndarray) (idx : list Z) : option ndarray :=
  match getitem_from (shape a) (buffer a) idx with
  | Some (sh, buf) => Some {| shape := sh; dtype := dtype a; buffer := buf |}
  | None => None
  end.

(** ** Collaborators of a data item *)

(** [Calibration.Calibration]; [Calibration()] is the identity calibration. *)
Record Calibration := {
  offset : Z;
  scale : Z;
  units : string
}.

Definition Calibration_default : Calibration :=
  {| offset := 0; scale := 1; units := "" |}.

Global Instance Calibration_eq_dec : EqDecision Calibration.
Proof. solve_decision. Defined.

(** The part of [Operation.OperationItem] that a data item consumes: the
    enabled flag, the data-processing function and the shape/dtype transfer
    function.  [operation_uuid] names the operation in the event log. *)
Record Operation := {
  operation_uuid : Z;
  enabled : bool;
  process_data : ndarray -> ndarray;
  get_processed_data_shape_and_dtype :
    list Z -> option numpy_dtype -> list Z * option numpy_dtype
}.

(** The datastore of the storage layer, as far as [__load_master_data] uses
    it: the array that [load_data_reference] returns for this item. *)
Record Datastore := {
  load_data_reference : ndarray
}.

(** The functions of module [Image] used by [DataItem]; the module is not
    part of the sources, so they are parameters of the development. *)
Class ImageModule := {
  spatial_shape_from_shape_and_dtype :
    option (list Z) -> option numpy_dtype -> option (list Z);
  is_shape_and_dtype_1d : option (list Z) -> option numpy_dtype -> bool;
  is_shape_and_dtype_2d : option (list Z) -> option numpy_dtype -> bool;
  is_shape_and_dtype_3d : option (list Z) -> option numpy_dtype -> bool;
  is_shape_and_dtype_rgb : option (list Z) -> option numpy_dtype -> bool;
  is_shape_and_dtype_rgba : option (list Z) -> option numpy_dtype -> bool;
  is_shape_and_dtype_complex_type : option (list Z) -> option numpy_dtype -> bool;
  scalar_from_array : ndarray -> ndarray
}.

(** Kinds of change, [DataItem.py] lines 172-175. *)
Definition DATA : Z := 1.
Definition METADATA : Z := 2.
Definition DISPLAYS : Z := 3.
Definition SOURCE : Z := 4.

(** ** The data item *)

#[warnings="-register-all"]
Inductive DataItem := Build_DataItem {
  uuid : Z;
  closed : bool;
  master_data : option ndarray;
  master_data_shape : option (list Z);
  master_data_dtype : option numpy_dtype;
  has_master_data : bool;
  data_source : option DataItem;
  operations : list Operation;
  cached_data : option ndarray;
  cached_data_dirty : bool;
  data_ref_count : Z;
  data_item_change_count : Z;
  data_item_changes : gset Z;
  intrinsic_spatial_calibrations : list Calibration;
  datastore : option Datastore;
  transaction_count : Z;
  data_range : option (Z * Z)
}.

(** Calls that leave the data item. *)
Inductive Event :=
| ProcessData (operation : Z) (input : ndarray)
| LoadDataReference (item : Z)
| UnloadMasterData (item : Z) (unloaded : bool)
| ProcessorsDataItemChanged (item : Z)
| DataItemContentChanged (sender : DataItem) (changes : gset Z)
| DataItemCalibrationChanged (item : Z)
| NotifySetDataReference (item : Z)
| NotifySetProperty (item : Z) (key : string).

(** Assignment to one attribute. *)
Definition with_closed (v : bool) (d : DataItem) : DataItem :=
  Build_DataItem (uuid d) v (master_data d) (master_data_shape d)
    (master_data_dtype d) (has_master_data d) (data_source d) (operations d)
    (cached_data d) (cached_data_dirty d) (data_ref_count d)
    (data_item_change_count d) (data_item_changes d)
    (intrinsic_spatial_calibrations d) (datastore d) (transaction_count d)
    (data_range d).

Definition with_master_data (v : option ndarray) (d : DataItem) : DataItem :=
  Build_DataItem (uuid d) (closed d) v (master_data_shape d)
    (master_data_dtype d) (has_master_data d) (data_source d) (operations d)
    (cached_data d) (cached_data_dirty d) (data_ref_count d)
    (data_item_change_count d) (data_item_changes d)
    (intrinsic_spatial_calibrations d) (datastore d) (transaction_count d)
    (data_range d).

Definition with_master_data_shape (v : option (list Z)) (d : DataItem) : DataItem :=
  Build_DataItem (uuid d) (closed d) (master_data d) v
    (master_data_dtype d) (has_master_data d) (data_source d) (operations d)
    (cached_data d) (cached_data_dirty d) (data_ref_count d)
    (data_item_change_count d) (data_item_changes d)
    (intrinsic_spatial_calibrations d) (datastore d) (transaction_count d)
    (data_range d).

Definition with_master_data_dtype (v : option numpy_dtype) (d : DataItem) : DataItem :=
  Build_DataItem (uuid d) (closed d) (master_data d) (master_data_shape d)
    v (has_master_data d) (data_source d) (operations d)
    (cached_data d) (cached_data_dirty d) (data_ref_count d)
    (data_item_change_count d) (data_item_changes d)
    (intrinsic_spatial_calibrations d) (datastore d) (transaction_count d)
    (data_range d).

Definition with_has_master_data (v : bool) (d : DataItem) : DataItem :=
  Build_DataItem (uuid d) (closed d) (master_data d) (master_data_shape d)
    (master_data_dtype d) v (data_source d) (operations d)
    (cached_data d) (cached_data_dirty d) (data_ref_count d)
    (data_item_change_count d) (data_item_changes d)
    (intrinsic_spatial_calibrations d) (datastore d) (transaction_count d)
    (data_range d).

Definition with_data_source (v : option DataItem) (d : DataItem) : DataItem :=
  Build_DataItem (uuid d) (closed d) (master_data d) (master_data_shape d)
    (master_data_dtype d) (has_master_data d) v (operations d)
    (cached_data d) (cached_data_dirty d) (data_ref_count d)
    (data_item_change_count d) (data_item_changes d)
    (intrinsic_spatial_calibrations d) (datastore d) (transaction_count d)
    (data_range d).

Definition with_operations (v : list Operation) (d : DataItem) : DataItem :=
  Build_DataItem (uuid d) (closed d) (master_data d) (master_data_shape d)
    (master_data_dtype d) (has_master_data d) (data_source d) v
    (cached_data d) (cached_data_dirty d) (data_ref_count d)
    (data_item_change_count d) (data_item_changes d)
    (intrinsic_spatial_calibrations d) (datastore d) (transaction_count d)
    (data_range d).

Definition with_cached_data (v : option ndarray) (d : DataItem) : DataItem :=
  Build_DataItem (uuid d) (closed d) (master_data d) (master_data_shape d)
    (master_data_dtype d) (has_master_data d) (data_source d) (operations d)
    v (cached_data_dirty d) (data_ref_count d)
    (data_item_change_count d) (data_item_changes d)
    (intrinsic_spatial_calibrations d) (datastore d) (transaction_count d)
    (data_range d).

Definition with_cached_data_dirty (v : bool) (d : DataItem) : DataItem :=
  Build_DataItem (uuid d) (closed d) (master_data d) (master_data_shape d)
    (master_data_dtype d) (has_master_data d) (data_source d) (operations d)
    (cached_data d) v (data_ref_count d)
    (data_item_change_count d) (data_item_changes d)
    (intrinsic_spatial_calibrations d) (datastore d) (transaction_count d)
    (data_range d).

Definition with_data_ref_count (v : Z) (d : DataItem) : DataItem :=
  Build_DataItem (uuid d) (closed d) (master_data d) (master_data_shape d)
    (master_data_dtype d) (has_master_data d) (data_source d) (operations d)
    (cached_data d) (cached_data_dirty d) v
    (data_item_change_count d) (data_item_changes d)
    (intrinsic_spatial_calibrations d) (datastore d) (transaction_count d)
    (data_range d).

Definition with_data_item_change_count (v : Z) (d : DataItem) : DataItem :=
  Build_DataItem (uuid d) (closed d) (master_data d) (master_data_shape d)
    (master_data_dtype d) (has_master_data d) (data_source d) (operations d)
    (cached_data d) (cached_data_dirty d) (data_ref_count d)
    v (data_item_changes d)
    (intrinsic_spatial_calibrations d) (datastore d) (transaction_count d)
    (data_range d).

Definition with_data_item_changes (v : gset Z) (d : DataItem) : DataItem :=
  Build_DataItem (uuid d) (closed d) (master_data d) (master_data_shape d)
    (master_data_dtype d) (has_master_data d) (data_source d) (operations d)
    (cached_data d) (cached_data_dirty d) (data_ref_count d)
    (data_item_change_count d) v
    (intrinsic_spatial_calibrations d) (datastore d) (transaction_count d)
    (data_range d).

Definition with_intrinsic_spatial_calibrations (v : list Calibration) (d : DataItem)
  : DataItem :=
  Build_DataItem (uuid d) (closed d) (master_data d) (master_data_shape d)
    (master_data_dtype d) (has_master_data d) (data_source d) (operations d)
    (cached_data d) (cached_data_dirty d) (data_ref_count d)
    (data_item_change_count d) (data_item_changes d)
    v (datastore d) (transaction_count d)
    (data_range d).

Definition with_data_range (v : option (Z * Z)) (d : DataItem) : DataItem :=
  Build_DataItem (uuid d) (closed d) (master_data d) (master_data_shape d)
    (master_data_dtype d) (has_master_data d) (data_source d) (operations d)
    (cached_data d) (cached_data_dirty d) (data_ref_count d)
    (data_item_change_count d) (data_item_changes d)
    (intrinsic_spatial_calibrations d) (datastore d) (transaction_count d)
    v.

(** Length of the chain of data sources below an item. *)
Fixpoint depth (d : DataItem) : nat :=
  match data_source d with
  | Some s => S (depth s)
  | None => 0%nat
  end.

(** ** Change accumulator ([DataItem.py] lines 390-459) *)

Definition begin_data_item_changes (d : DataItem) : DataItem :=
  with_data_item_change_count (data_item_change_count d + 1) d.

(** [__clear_cached_data]: the cached array stays, it is only marked dirty.
    (The dirty mark of the stored ["data_range"] value is written here and
    read nowhere, so it is not a field.) *)
Definition clear_cached_data (d : DataItem) : DataItem :=
  with_cached_data_dirty true d.

(** [end_data_item_changes]: at depth 0 the pending set is swapped out, the
    processors are told, the data cache is marked dirty when [DATA] or
    [SOURCE] is pending, and the listeners receive the item and the set. *)
Definition end_data_item_changes (d : DataItem) : DataItem * list Event :=
  let d1 := with_data_item_change_count (data_item_change_count d - 1) d in
  if data_item_change_count d1 =? 0 then
    let changes := data_item_changes d1 in
    let d2 := with_data_item_changes ∅ d1 in
    let d3 :=
      if bool_decide (DATA ∈ changes) || bool_decide (SOURCE ∈ changes)
      then clear_cached_data d2 else d2 in
    (d3, [ProcessorsDataItemChanged (uuid d3); DataItemContentChanged d3 changes])
  else (d1, []).

(** [notify_data_item_content_changed]: record the kinds inside a
    begin/end pair of its own. *)
Definition notify_data_item_content_changed (changes : gset Z) (d : DataItem)
  : DataItem * list Event :=
  let d1 := begin_data_item_changes d in
  let d2 := with_data_item_changes (data_item_changes d1 ∪ changes) d1 in
  end_data_item_changes d2.

(** [notify_set_property]: the storage notification, then a [METADATA]
    change (lines 726-730). *)
Definition notify_set_property (key : string) (d : DataItem)
  : DataItem * list Event :=
  let '(d1, ev) := notify_data_item_content_changed {[METADATA]} d in
  (d1, NotifySetProperty (uuid d) key :: ev).

(** ** Shape and dtype without materialising data (lines 985-1086) *)

Definition apply_shape_operations (ops : list Operation)
    (sd : list Z * option numpy_dtype) : list Z * option numpy_dtype :=
  foldl (fun sd op =>
           if enabled op
           then get_processed_data_shape_and_dtype op (fst sd) (snd sd)
           else sd) sd ops.

Fixpoint data_shape_and_dtype (d : DataItem)
  : option (list Z) * option numpy_dtype :=
  let root :=
    if has_master_data d then (master_data_shape d, master_data_dtype d)
    else match data_source d with
         | Some s => data_shape_and_dtype s
         | None => (None, None)
         end in
  match fst root with
  | Some sh =>
      let sd := apply_shape_operations (operations d) (sh, snd root) in
      (Some (fst sd), snd sd)
  | None => root
  end.

Section WithImage.
Context `{Image : ImageModule}.

Definition spatial_shape (d : DataItem) : option (list Z) :=
  let sd := data_shape_and_dtype d in
  spatial_shape_from_shape_and_dtype (fst sd) (snd sd).

Definition is_data_1d (d : DataItem) : bool :=
  let sd := data_shape_and_dtype d in is_shape_and_dtype_1d (fst sd) (snd sd).

Definition is_data_2d (d : DataItem) : bool :=
  let sd := data_shape_and_dtype d in is_shape_and_dtype_2d (fst sd) (snd sd).

Definition is_data_3d (d : DataItem) : bool :=
  let sd := data_shape_and_dtype d in is_shape_and_dtype_3d (fst sd) (snd sd).

Definition is_data_rgb_type (d : DataItem) : bool :=
  let sd := data_shape_and_dtype d in
  is_shape_and_dtype_rgb (fst sd) (snd sd)
  || is_shape_and_dtype_rgba (fst sd) (snd sd).

(** ** Calibrations (lines 501-546) *)

(** Python's [list.remove(x)]: drop the first element equal to [x]
    (calibrations compare by value). *)
Fixpoint list_remove (x : Calibration) (l : list Calibration) : list Calibration :=
  match l with
  | [] => []
  | y :: l' => if decide (y = x) then l' else y :: list_remove x l'
  end.

(** [while len(l) > ndim: l.remove(l[-1])], unrolled [n] times. *)
Fixpoint remove_last_while (n : nat) (ndim : nat) (l : list Calibration)
  : list Calibration :=
  match n with
  | O => l
  | S n' =>
      if (ndim <? length l)%nat then
        match last l with
        | Some x => remove_last_while n' ndim (list_remove x l)
        | None => l
        end
      else l
  end.

(** [sync_intrinsic_spatial_calibrations]: pad with identity calibrations
    or remove trailing ones until the list is as long as the spatial shape;
    assigning the property fires its changed callback
    ([__intrinsic_spatial_calibrations_changed]). *)
Definition sync_intrinsic_spatial_calibrations (d : DataItem)
  : DataItem * list Event :=
  let ndim := match spatial_shape d with
              | Some sh => length sh
              | None => 0%nat
              end in
  let l := intrinsic_spatial_calibrations d in
  if negb (length l =? ndim)%nat && negb (closed d) then
    let l1 := l ++ replicate (ndim - length l) Calibration_default in
    let l2 := remove_last_while (length l1) ndim l1 in
    let d1 := with_intrinsic_spatial_calibrations l2 d in
    let '(d2, ev) := notify_data_item_content_changed {[METADATA]} d1 in
    (d2, ev ++ [DataItemCalibrationChanged (uuid d)])
  else (d, []).

(** ** Residency (lines 853-887) *)

(** [__load_master_data]. *)
Definition load_master_data (d : DataItem) : DataItem * list Event :=
  match datastore d, master_data d with
  | Some store, None =>
      if has_master_data d
      then (with_master_data (Some (load_data_reference store)) d,
            [LoadDataReference (uuid d)])
      else (d, [])
  | _, _ => (d, [])
  end.

(** [__unload_master_data]: every call is logged, with whether it dropped
    the arrays. *)
Definition unload_master_data (d : DataItem) : DataItem * list Event :=
  if (transaction_count d =? 0) && has_master_data d
     && bool_decide (datastore d <> None)
  then (with_cached_data None (with_master_data None d),
        [UnloadMasterData (uuid d) true])
  else (d, [UnloadMasterData (uuid d) false]).

(** [increment_data_ref_count]; the method returns the new count, which is
    [data_ref_count] of the result. *)
Fixpoint increment_data_ref_count (d : DataItem) : DataItem * list Event :=
  let initial_count := data_ref_count d in
  let d1 := with_data_ref_count (initial_count + 1) d in
  if initial_count =? 0 then
    match data_source d with
    | Some s =>
        let '(s', ev) := increment_data_ref_count s in
        (with_data_source (Some s') d1, ev)
    | None => load_master_data d1
    end
  else (d1, []).

(** [decrement_data_ref_count]; the method returns the new count. *)
Fixpoint decrement_data_ref_count (d : DataItem) : DataItem * list Event :=
  let d1 := with_data_ref_count (data_ref_count d - 1) d in
  let final_count := data_ref_count d1 in
  if final_count =? 0 then
    match data_source d with
    | Some s =>
        let '(s', ev) := decrement_data_ref_count s in
        (with_data_source (Some s') d1, ev)
    | None => unload_master_data d1
    end
  else (d1, []).

(** ** Derived data (lines 461-493 and 902-983) *)

(** [process_data] of each operation in list order, each on the result of
    the one before. *)
Fixpoint apply_operations (ops : list Operation) (data : ndarray)
  : ndarray * list Event :=
  match ops with
  | [] => (data, [])
  | op :: ops' =>
      let '(r, ev) := apply_operations ops' (process_data op data) in
      (r, ProcessData (operation_uuid op) data :: ev)
  end.

Definition array_min (a : ndarray) : Z :=
  match buffer a with
  | [] => 0
  | x :: l => foldl Z.min x l
  end.

Definition array_max (a : ndarray) : Z :=
  match buffer a with
  | [] => 0
  | x :: l => foldl Z.max x l
  end.

(** [__get_data_range_for_data]: compute the range and store or remove the
    cached ["data_range"] value. *)
Definition get_data_range_for_data (data : option ndarray) (d : DataItem)
  : option (Z * Z) * DataItem :=
  let r :=
    match data with
    | Some a =>
        if negb (product (shape a) =? 0) then
          if is_data_rgb_type d then Some (0, 255)
          else if is_shape_and_dtype_complex_type (Some (shape a)) (Some (dtype a))
          then Some (array_min (scalar_from_array a), array_max (scalar_from_array a))
          else Some (array_min a, array_max a)
        else None
    | None => None
    end in
  (r, with_data_range r d).

(** [with item.data_ref() as data_ref: data = data_ref.data]: acquire, read
    the data through [get], release. *)
Definition with_data_ref
    (get : DataItem -> option ndarray * DataItem * list Event) (s : DataItem)
  : option ndarray * DataItem * list Event :=
  let '(s1, ev1) := increment_data_ref_count s in
  let '(data, s2, ev2) := get s1 in
  let '(s3, ev3) := decrement_data_ref_count s2 in
  (data, s3, ev1 ++ ev2 ++ ev3).

(** The parts of [__get_data].  [root_data]: the master data when the item
    has it in memory, otherwise the data of the data source read under a
    data reference ([get_source_data] is that read), otherwise nothing. *)
Definition root_data
    (get_source_data : DataItem -> option ndarray * DataItem * list Event)
    (d : DataItem) : option ndarray * DataItem * list Event :=
  match (if has_master_data d then master_data d else None) with
  | Some a => (Some a, d, [])
  | None =>
      match data_source d with
      | Some s =>
          let '(data, s', ev) := with_data_ref get_source_data s in
          (data, with_data_source (Some s') d, ev)
      | None => (None, d, [])
      end
  end.

(** [for operation in reversed(operations): data = operation.process_data(data)],
    run when there is data. *)
Definition processed_data (ops : list Operation) (data : option ndarray)
  : option ndarray * list Event :=
  match data with
  | Some a =>
      let '(r, ev) := apply_operations (reverse ops) a in (Some r, ev)
  | None => (None, [])
  end.

(** The data range is stored, then the data is cached and marked clean. *)
Definition store_cached_data (data : option ndarray) (d : DataItem) : DataItem :=
  with_cached_data_dirty false
    (with_cached_data data (get_data_range_for_data data d).2).

(** The body of [__get_data]. *)
Definition get_data_body
    (get_source_data : DataItem -> option ndarray * DataItem * list Event)
    (d : DataItem) : option ndarray * DataItem * list Event :=
  if cached_data_dirty d || bool_decide (cached_data d = None) then
    let fetched := root_data get_source_data d in
    let processed := processed_data (operations fetched.1.2) fetched.1.1 in
    let d' := store_cached_data processed.1 fetched.1.2 in
    (cached_data d', d', fetched.2 ++ processed.2)
  else (cached_data d, d, []).

(** [__get_data]: the recursion follows the chain of data sources, one
    unit of fuel per item. *)
Fixpoint get_data_fuel (fuel : nat) (d : DataItem)
  : option ndarray * DataItem * list Event :=
  match fuel with
  | O => (None, d, [])
  | S fuel' => get_data_body (get_data_fuel fuel') d
  end.

Definition get_data (d : DataItem) : option ndarray * DataItem * list Event :=
  get_data_fuel (S (depth d)) d.

(** The [data] property ([__get_data_immediate]). *)
Definition data (d : DataItem) : option ndarray * DataItem * list Event :=
  with_data_ref get_data d.

(** The [data_range] property ([__get_data_range]): the stored value when
    there is one, otherwise computed from the data under a data reference. *)
Definition get_data_range (d : DataItem)
  : option (Z * Z) * DataItem * list Event :=
  match data_range d with
  | Some r => (Some r, d, [])
  | None =>
      let '(d1, ev1) := increment_data_ref_count d in
      let '(a, d2, ev2) := get_data d1 in
      let '(r, d3) := get_data_range_for_data a d2 in
      let '(d4, ev3) := decrement_data_ref_count d3 in
      (r, d4, ev1 ++ ev2 ++ ev3)
  end.

(** [get_data_value] (lines 1088-1103).  [pos[i]] on a short sequence and an
    array index out of bounds are IndexErrors. *)
Definition sequence_item (pos : list Z) (i : nat) : result Z :=
  match pos !! i with
  | Some p => Ok p
  | None => Raise IndexError
  end.

Definition array_item (a : ndarray) (idx : list Z) : result ndarray :=
  match getitem a idx with
  | Some v => Ok v
  | None => Raise IndexError
  end.

Definition get_data_value (pos : list Z) (d : DataItem)
  : result (option ndarray) * DataItem * list Event :=
  let r :=
    if is_data_1d d then
      match cached_data d with
      | Some a =>
          p0 ← sequence_item pos 0; v ← array_item a [p0]; Ok (Some v)
      | None => Ok None
      end
    else if is_data_2d d then
      match cached_data d with
      | Some a =>
          p0 ← sequence_item pos 0; p1 ← sequence_item pos 1;
          v ← array_item a [p0; p1]; Ok (Some v)
      | None => Ok None
      end
    else if is_data_3d d then
      match cached_data d with
      | Some a =>
          p0 ← sequence_item pos 0; p1 ← sequence_item pos 1;
          v ← array_item a [p0; p1]; Ok (Some v)
      | None => Ok None
      end
    else Ok None in
  (r, d, []).

(** ** Mutators (lines 646-851)

    A mutator returns its outcome, the item as the call leaves it (also when
    it raises) and the events.  [sync_operations] only calls into the
    operations ([update_data_shape_and_dtype]) and has no effect on the
    item. *)

(** [data_item_content_changed], the message a data source sends to the
    items derived from it; [sender] is the uuid of the sending item. *)
Definition data_item_content_changed (sender : Z) (changes : gset Z)
    (d : DataItem) : result () * DataItem * list Event :=
  let '(d1, ev1) := sync_intrinsic_spatial_calibrations d in
  if bool_decide (Some sender = uuid <$> data_source d1) then
    if bool_decide (DATA ∈ changes) then
      let '(d2, ev2) := notify_data_item_content_changed changes d1 in
      (Ok (), d2, ev1 ++ ev2)
    else (Ok (), d1, ev1)
  else (Raise AssertionError, d1, ev1).

(** [__set_data_source]. *)
Definition set_data_source (new_source : option DataItem) (d : DataItem)
  : result () * DataItem * list Event :=
  if bool_decide (new_source <> None) && has_master_data d
  then (Raise AssertionError, d, [])
  else
    let d1 := match data_source d with
              | Some _ => with_data_source None d
              | None => d
              end in
    match new_source with
    | Some s =>
        data_item_content_changed (uuid s) {[SOURCE]}
          (with_data_source (Some s) d1)
    | None => (Ok (), d1, [])
    end.

(** [__set_master_data].  The body runs inside [data_item_changes()], whose
    exit also runs when an assertion fails. *)
Definition set_master_data (new_data : option ndarray) (d : DataItem)
  : result () * DataItem * list Event :=
  let d0 := begin_data_item_changes d in
  if (closed d0 && bool_decide (new_data <> None))
     || (bool_decide (new_data <> None) && bool_decide (data_source d0 <> None))
  then
    let '(d1, ev) := end_data_item_changes d0 in
    (Raise AssertionError, d1, ev)
  else
    let d1 :=
      with_has_master_data (bool_decide (new_data <> None))
        (with_master_data_dtype (dtype <$> new_data)
           (with_master_data_shape (shape <$> new_data)
              (with_master_data new_data d0))) in
    let '(d2, ev1) := sync_intrinsic_spatial_calibrations d1 in
    let '(d3, ev2) :=
      match master_data d2 with
      | Some _ =>
          let '(_, d21, e1) := get_data_range d2 in
          let '(d22, e2) := notify_set_property "data_range" d21 in
          (d22, NotifySetDataReference (uuid d2) :: e1 ++ e2)
      | None => (d2, [])
      end in
    let '(d4, ev3) := notify_data_item_content_changed {[DATA]} d3 in
    let '(d5, ev4) := end_data_item_changes d4 in
    (Ok (), d5, ev1 ++ ev2 ++ ev3 ++ ev4).

(** [set_external_master_data]: the data stays in the file at
    [data_file_path], which exists; only shape and dtype are recorded. *)
Definition set_external_master_data (data_shape : list Z)
    (data_dtype : numpy_dtype) (d : DataItem) : DataItem * list Event :=
  let d1 :=
    with_has_master_data true
      (with_master_data_dtype (Some data_dtype)
         (with_master_data_shape (Some data_shape) d)) in
  let '(d2, ev1) := sync_intrinsic_spatial_calibrations d1 in
  let '(_, d3, ev2) := get_data_range d2 in
  let '(d4, ev3) := notify_set_property "data_range" d3 in
  let '(d5, ev4) := notify_data_item_content_changed {[DATA]} d4 in
  (d5, ev1 ++ NotifySetDataReference (uuid d2) :: ev2 ++ ev3 ++ ev4).

(** [add_operation]: the operation is appended to the relationship and
    [__insert_operation] records a [DATA] change. *)
Definition add_operation (op : Operation) (d : DataItem)
  : DataItem * list Event :=
  notify_data_item_content_changed {[DATA]}
    (with_operations (operations d ++ [op]) d).

End WithImage.

(** * Symbolic nodes ([model/Symbolic.py]) *)

(** Scalars and the values of argument and specifier dictionaries.  A float
    is kept as its bit pattern. *)
Inductive pyvalue :=
| PyNone
| PyBool (b : bool)
| PyInt (z : Z)
| PyFloat (bits : Z)
| PyComplex (re im : Z)
| PyStr (s : string).

Global Instance pyvalue_eq_dec : EqDecision pyvalue.
Proof. solve_decision. Defined.

(** An object specifier: a dictionary, or [None] (the constructors'
    default). *)
Definition specifier := option (gmap string pyvalue).

(** What a bound item is does not matter here; it is named by a number. *)
Definition BoundItem := Z.

(** The node classes.  Every node has [uuid] and [inputs]; [scalar_type] of
    a constant is [None] while the attribute [__scalar_type] is not set. *)
#[warnings="-register-all"]
Inductive DataNode :=
| ConstantDataNode (node_uuid : Z) (inputs : list DataNode)
    (scalar : pyvalue) (scalar_type : option string)
| ScalarOperationDataNode (node_uuid : Z) (inputs : list DataNode)
    (function_id : option string) (args : gmap string pyvalue)
| UnaryOperationDataNode (node_uuid : Z) (inputs : list DataNode)
    (function_id : option string) (args : gmap string pyvalue)
| BinaryOperationDataNode (node_uuid : Z) (inputs : list DataNode)
    (function_id : option string) (args : gmap string pyvalue)
| FunctionOperationDataNode (node_uuid : Z) (inputs : list DataNode)
    (function_id : option string) (args : gmap string pyvalue)
| DataItemDataNode (node_uuid : Z) (inputs : list DataNode)
    (object_specifier : specifier) (bound_item : option BoundItem)
| ReferenceDataNode (node_uuid : Z) (inputs : list DataNode)
    (object_specifier : specifier)
| PropertyDataNode (node_uuid : Z) (inputs : list DataNode)
    (object_specifier : specifier) (property : string)
    (bound_item : option BoundItem).

(** The dictionary a node is written to: one optional entry per key that
    [write] can set ([None]: the key is absent).  The uuid entry holds the
    uuid itself, that is [uuid.UUID(str(u)) = u] is built in. *)
#[warnings="-register-all"]
Inductive NodeDict := Build_NodeDict {
  d_uuid : option Z;
  d_inputs : option (list NodeDict);
  d_data_node_type : option string;
  d_scalar_type : option string;
  d_value : option pyvalue;
  d_function_id : option string;
  d_args : option (gmap string pyvalue);
  d_object_specifier : option specifier;
  d_property : option string
}.

(** Keys of [_function_map] and [_function2_map] (lines 640-684). *)
Definition function_map_keys : list string :=
  ["abs"; "neg"; "pos"; "add"; "sub"; "mul"; "div"; "truediv"; "floordiv";
   "mod"; "pow"; "slice"; "amin"; "amax"; "arange"; "median"; "average";
   "mean"; "std"; "var"; "log"; "log10"; "log2"].

Definition function2_map_keys : list string :=
  ["fft"; "ifft"; "autocorrelate"; "crosscorrelate"; "sobel"; "laplace";
   "gaussian_blur"; "median_filter"; "uniform_filter"; "transpose_flip";
   "crop"; "slice_sum"; "pick"; "project"; "resample_image"; "histogram";
   "line_profile"].

Definition in_keys (keys : list string) (k : option string) : bool :=
  match k with
  | Some s => bool_decide (s ∈ keys)
  | None => false
  end.

(** *** Construction *)

(** [ConstantDataNode(value)]: the scalar type follows the class of the
    value (a bool is Integral); no branch sets it for other values. *)
Definition scalar_type_of (value : pyvalue) : option string :=
  match value with
  | PyBool _ | PyInt _ => Some "integral"
  | PyFloat _ => Some "real"
  | PyComplex _ _ => Some "complex"
  | PyNone | PyStr _ => None
  end.

Definition new_ConstantDataNode (u : Z) (value : pyvalue) : DataNode :=
  ConstantDataNode u [] value (scalar_type_of value).

(** The node each class builds without arguments, as [factory] does; its
    random uuid is overwritten by [read]. *)
Definition default_node (data_node_type : string) : option DataNode :=
  if decide (data_node_type = "constant") then
    Some (ConstantDataNode 0 [] PyNone None)
  else if decide (data_node_type = "scalar") then
    Some (ScalarOperationDataNode 0 [] None ∅)
  else if decide (data_node_type = "unary") then
    Some (UnaryOperationDataNode 0 [] None ∅)
  else if decide (data_node_type = "binary") then
    Some (BinaryOperationDataNode 0 [] None ∅)
  else if decide (data_node_type = "function") then
    Some (FunctionOperationDataNode 0 [] None ∅)
  else if decide (data_node_type = "property") then
    Some (PropertyDataNode 0 [] None "None" None)
  else if decide (data_node_type = "reference") then
    Some (ReferenceDataNode 0 [] None)
  else if decide (data_node_type = "data") then
    Some (DataItemDataNode 0 [] None None)
  else None.

(** *** write *)

(** [int(value)], [float(value)] and [complex(...)] of a constant's scalar.
    The constructor stores an integral, real or complex scalar under the
    matching scalar type; other pairings are TypeErrors here. *)
Definition py_int (v : pyvalue) : result pyvalue :=
  match v with
  | PyInt z => Ok (PyInt z)
  | PyBool b => Ok (PyInt (if b then 1 else 0))
  | _ => Raise TypeError
  end.

Definition py_float (v : pyvalue) : result pyvalue :=
  match v with
  | PyFloat x => Ok (PyFloat x)
  | _ => Raise TypeError
  end.

Definition py_complex (v : pyvalue) : result pyvalue :=
  match v with
  | PyComplex re im => Ok (PyComplex re im)
  | _ => Raise TypeError
  end.

(** [DataNode.write]: the uuid, and the inputs when there are any. *)
Definition base_dict (u : Z) (input_dicts : list NodeDict) : NodeDict :=
  Build_NodeDict (Some u)
    (if bool_decide (input_dicts = []) then None else Some input_dicts)
    None None None None None None None.

Definition set_data_node_type (t : string) (d : NodeDict) : NodeDict :=
  Build_NodeDict (d_uuid d) (d_inputs d) (Some t) (d_scalar_type d) (d_value d)
    (d_function_id d) (d_args d) (d_object_specifier d) (d_property d).

Definition set_scalar_type (t : string) (d : NodeDict) : NodeDict :=
  Build_NodeDict (d_uuid d) (d_inputs d) (d_data_node_type d) (Some t) (d_value d)
    (d_function_id d) (d_args d) (d_object_specifier d) (d_property d).

Definition set_value (v : pyvalue) (d : NodeDict) : NodeDict :=
  Build_NodeDict (d_uuid d) (d_inputs d) (d_data_node_type d) (d_scalar_type d)
    (Some v) (d_function_id d) (d_args d) (d_object_specifier d) (d_property d).

(** [d["function_id"] = f]; storing [None] and leaving the key out read the
    same through [d.get]. *)
Definition set_function_id (f : option string) (d : NodeDict) : NodeDict :=
  Build_NodeDict (d_uuid d) (d_inputs d) (d_data_node_type d) (d_scalar_type d)
    (d_value d) f (d_args d) (d_object_specifier d) (d_property d).

(** [if self.__args: d["args"] = self.__args]. *)
Definition set_args (a : gmap string pyvalue) (d : NodeDict) : NodeDict :=
  Build_NodeDict (d_uuid d) (d_inputs d) (d_data_node_type d) (d_scalar_type d)
    (d_value d) (d_function_id d)
    (if bool_decide (a = ∅) then d_args d else Some a)
    (d_object_specifier d) (d_property d).

Definition set_object_specifier (o : specifier) (d : NodeDict) : NodeDict :=
  Build_NodeDict (d_uuid d) (d_inputs d) (d_data_node_type d) (d_scalar_type d)
    (d_value d) (d_function_id d) (d_args d) (Some o) (d_property d).

Definition set_property (p : string) (d : NodeDict) : NodeDict :=
  Build_NodeDict (d_uuid d) (d_inputs d) (d_data_node_type d) (d_scalar_type d)
    (d_value d) (d_function_id d) (d_args d) (d_object_specifier d) (Some p).

Definition operation_dict (t : string) (u : Z) (input_dicts : list NodeDict)
    (f : option string) (a : gmap string pyvalue) : NodeDict :=
  set_args a (set_function_id f (set_data_node_type t (base_dict u input_dicts))).

(** [ConstantDataNode.write] after the base class has written: the scalar
    type must be set; a value is stored for integral, real and complex. *)
Definition constant_dict (u : Z) (input_dicts : list NodeDict)
    (scalar : pyvalue) (scalar_type : option string) : result NodeDict :=
  match scalar_type with
  | None => Raise AttributeError
  | Some t =>
      let d := set_scalar_type t
                 (set_data_node_type "constant" (base_dict u input_dicts)) in
      if decide (t = "integral") then v ← py_int scalar; Ok (set_value v d)
      else if decide (t = "real") then v ← py_float scalar; Ok (set_value v d)
      else if decide (t = "complex") then v ← py_complex scalar; Ok (set_value v d)
      else Ok d
  end.

Fixpoint write (n : DataNode) : result NodeDict :=
  let write_inputs :=
    fix write_inputs (l : list DataNode) : result (list NodeDict) :=
      match l with
      | [] => Ok []
      | x :: l' => d ← write x; ds ← write_inputs l'; Ok (d :: ds)
      end in
  match n with
  | ConstantDataNode u ins scalar scalar_type =>
      ds ← write_inputs ins; constant_dict u ds scalar scalar_type
  | ScalarOperationDataNode u ins f a =>
      ds ← write_inputs ins; Ok (operation_dict "scalar" u ds f a)
  | UnaryOperationDataNode u ins f a =>
      ds ← write_inputs ins; Ok (operation_dict "unary" u ds f a)
  | BinaryOperationDataNode u ins f a =>
      ds ← write_inputs ins; Ok (operation_dict "binary" u ds f a)
  | FunctionOperationDataNode u ins f a =>
      ds ← write_inputs ins; Ok (operation_dict "function" u ds f a)
  | DataItemDataNode u ins o _ =>
      ds ← write_inputs ins;
      Ok (set_object_specifier o (set_data_node_type "data" (base_dict u ds)))
  | ReferenceDataNode _ _ _ => Raise TypeError
  | PropertyDataNode u ins o p _ =>
      ds ← write_inputs ins;
      Ok (set_property p
            (set_object_specifier o
               (set_data_node_type "property" (base_dict u ds))))
  end.

(** *** read *)

Definition dict_item {A} (entry : option A) : result A :=
  match entry with
  | Some v => Ok v
  | None => Raise KeyError
  end.

Definition node_inputs (n : DataNode) : list DataNode :=
  match n with
  | ConstantDataNode _ ins _ _ | ScalarOperationDataNode _ ins _ _
  | UnaryOperationDataNode _ ins _ _ | BinaryOperationDataNode _ ins _ _
  | FunctionOperationDataNode _ ins _ _ | DataItemDataNode _ ins _ _
  | ReferenceDataNode _ ins _ | PropertyDataNode _ ins _ _ _ => ins
  end.

(** The part of each class's [read] that follows the base class's: [u] and
    [ins] are the uuid and inputs the base class has just read.  A constant
    takes its scalar from the dictionary and nothing else; unpacking the
    stored value as the arguments of [complex] fails on every [pyvalue],
    none being iterable. *)
Definition read_fields (n : DataNode) (u : Z) (ins : list DataNode)
    (d : NodeDict) : result DataNode :=
  match n with
  | ConstantDataNode _ _ scalar scalar_type =>
      match d_scalar_type d with
      | Some t =>
          if decide (t = "integral") then
            v ← dict_item (d_value d); i ← py_int v;
            Ok (ConstantDataNode u ins i scalar_type)
          else if decide (t = "real") then
            v ← dict_item (d_value d); x ← py_float v;
            Ok (ConstantDataNode u ins x scalar_type)
          else if decide (t = "complex") then
            _ ← dict_item (d_value d); Raise TypeError
          else Ok (ConstantDataNode u ins scalar scalar_type)
      | None => Ok (ConstantDataNode u ins scalar scalar_type)
      end
  | ScalarOperationDataNode _ _ _ _ =>
      if in_keys function_map_keys (d_function_id d)
      then Ok (ScalarOperationDataNode u ins (d_function_id d) (default ∅ (d_args d)))
      else Raise AssertionError
  | UnaryOperationDataNode _ _ _ _ =>
      if in_keys function_map_keys (d_function_id d)
      then Ok (UnaryOperationDataNode u ins (d_function_id d) (default ∅ (d_args d)))
      else Raise AssertionError
  | BinaryOperationDataNode _ _ _ _ =>
      if in_keys function_map_keys (d_function_id d)
      then Ok (BinaryOperationDataNode u ins (d_function_id d) (default ∅ (d_args d)))
      else Raise AssertionError
  | FunctionOperationDataNode _ _ _ _ =>
      if in_keys function2_map_keys (d_function_id d)
      then Ok (FunctionOperationDataNode u ins (d_function_id d) (default ∅ (d_args d)))
      else Raise AssertionError
  | DataItemDataNode _ _ _ b =>
      o ← dict_item (d_object_specifier d); Ok (DataItemDataNode u ins o b)
  | ReferenceDataNode _ _ _ => Raise TypeError
  | PropertyDataNode _ _ _ _ b =>
      o ← dict_item (d_object_specifier d); p ← dict_item (d_property d);
      Ok (PropertyDataNode u ins o p b)
  end.

(** [DataNode.factory] over a given [read] method: the class is looked up
    in [_node_map], instantiated without arguments and reads [d]. *)
Definition factory_with (read : DataNode -> NodeDict -> result DataNode)
    (d : NodeDict) : result DataNode :=
  t ← dict_item (d_data_node_type d);
  match default_node t with
  | None => Raise AssertionError
  | Some n0 => read n0 d
  end.

(** [read_node n d] is [n.read(d)]: the base class reads the uuid, builds
    every input with [factory] and reads it once more, then the class reads
    its own entries ([ReferenceDataNode.read] raises at once). *)
Fixpoint read_node (n : DataNode) (d : NodeDict) {struct d} : result DataNode :=
  match n with
  | ReferenceDataNode _ _ _ => Raise TypeError
  | _ =>
      u ← dict_item (d_uuid d);
      ins ← match d_inputs d with
            | Some input_dicts =>
                (fix read_inputs (l : list NodeDict) : result (list DataNode) :=
                   match l with
                   | [] => Ok []
                   | x :: l' =>
                       m ← factory_with read_node x;
                       m' ← read_node m x;
                       ms ← read_inputs l';
                       Ok (m' :: ms)
                   end) input_dicts
            | None => Ok []
            end;
      read_fields n u ins d
  end.

Definition factory (d : NodeDict) : result DataNode :=
  factory_with read_node d.

(** *** Binding and the computation (lines 755-761, 1051-1057, 1117-1123,
    1141-1247) *)

Section WithContext.

(** [context.resolve_object_specifier(specifier, property)]. *)
Variable resolve_object_specifier : specifier -> option string -> option BoundItem.

(** [node.bind(context, bound_items)]: the base class binds the inputs; data
    and property nodes resolve their specifier, which must succeed, and
    enter the bound item under their uuid. *)
Fixpoint bind_node (n : DataNode) (bound_items : gmap Z BoundItem)
  : result (DataNode * gmap Z BoundItem) :=
  let bind_inputs :=
    fix bind_inputs (l : list DataNode) (b : gmap Z BoundItem)
      : result (list DataNode * gmap Z BoundItem) :=
      match l with
      | [] => Ok ([], b)
      | x :: l' =>
          '(x', b1) ← bind_node x b;
          '(l'', b2) ← bind_inputs l' b1;
          Ok (x' :: l'', b2)
      end in
  match n with
  | ConstantDataNode u ins scalar scalar_type =>
      '(ins', b) ← bind_inputs ins bound_items;
      Ok (ConstantDataNode u ins' scalar scalar_type, b)
  | ScalarOperationDataNode u ins f a =>
      '(ins', b) ← bind_inputs ins bound_items;
      Ok (ScalarOperationDataNode u ins' f a, b)
  | UnaryOperationDataNode u ins f a =>
      '(ins', b) ← bind_inputs ins bound_items;
      Ok (UnaryOperationDataNode u ins' f a, b)
  | BinaryOperationDataNode u ins f a =>
      '(ins', b) ← bind_inputs ins bound_items;
      Ok (BinaryOperationDataNode u ins' f a, b)
  | FunctionOperationDataNode u ins f a =>
      '(ins', b) ← bind_inputs ins bound_items;
      Ok (FunctionOperationDataNode u ins' f a, b)
  | DataItemDataNode u ins o _ =>
      match resolve_object_specifier o None with
      | Some item => Ok (DataItemDataNode u ins o (Some item), <[u := item]> bound_items)
      | None => Raise AssertionError
      end
  | ReferenceDataNode _ _ _ => Raise TypeError
  | PropertyDataNode u ins o p _ =>
      match resolve_object_specifier o (Some p) with
      | Some item => Ok (PropertyDataNode u ins o p (Some item), <[u := item]> bound_items)
      | None => Raise AssertionError
      end
  end.

(** What running ["result = <expression>"] in the host interpreter does:
    an exception, or a value bound to [result], taken to be a node. *)
Inductive exec_outcome :=
| ExecException
| ExecResult (result : DataNode).

(** The host interpreter: the code and the variable nodes among the
    globals (the function table of the globals is fixed). *)
Variable exec : string -> list (string * DataNode) -> exec_outcome.

(** Uuids drawn by [uuid.uuid4()] for the variable nodes, in order. *)
Variable uuid4 : nat -> Z.

(** The reference node of a variable (lines 1175-1180). *)
Definition reference_node (u : Z) (object_specifier : gmap string pyvalue)
  : result DataNode :=
  match object_specifier !! "type" with
  | None => Raise KeyError
  | Some t =>
      if bool_decide (t = PyStr "data_item")
      then Ok (DataItemDataNode u [] (Some object_specifier) None)
      else Ok (ReferenceDataNode u [] (Some object_specifier))
  end.

Fixpoint variable_nodes (i : nat) (variable_map : list (string * gmap string pyvalue))
  : result (list (string * DataNode)) :=
  match variable_map with
  | [] => Ok []
  | (name, o) :: rest =>
      n ← reference_node (uuid4 i) o;
      ns ← variable_nodes (S i) rest;
      Ok ((name, n) :: ns)
  end.

(** Module-level [parse_expression]: [None] when the interpreter raised. *)
Definition parse_expression (calculation_script : string)
    (variable_map : list (string * gmap string pyvalue))
  : result (option DataNode) :=
  g ← variable_nodes 0 variable_map;
  match exec ("result = " +:+ calculation_script) g with
  | ExecException => Ok None
  | ExecResult n => Ok (Some n)
  end.

(** [Computation]: the stored [node] property, the bound items and their
    listeners (keyed by node uuid) and the live data node. *)
Record Computation := {
  node : option NodeDict;
  bound_items : gmap Z BoundItem;
  bound_item_listeners : gmap Z BoundItem;
  data_node : option DataNode
}.

(** [Computation.bind].  (When binding raises part-way, the entries made so
    far stay in the dictionary; the computation is returned as it was, no
    statement below looks at a computation after a failed bind.) *)
Definition Computation_bind (c : Computation) : result () * Computation :=
  if bool_decide (bound_items c = ∅) then
    match data_node c with
    | None => (Raise AttributeError, c)
    | Some n =>
        match bind_node n (bound_items c) with
        | Ok (n', b) =>
            (Ok (), {| node := node c; bound_items := b;
                       bound_item_listeners := b ∪ bound_item_listeners c;
                       data_node := Some n' |})
        | Raise e => (Raise e, c)
        end
    end
  else (Raise AssertionError, c).

(** [Computation.parse_expression]: the parse result is stored first; a
    node is then written to the [node] property and bound. *)
Definition Computation_parse_expression (expression : string)
    (variable_map : list (string * gmap string pyvalue)) (c : Computation)
  : result () * Computation :=
  match parse_expression expression variable_map with
  | Raise e => (Raise e, c)
  | Ok parsed =>
      let c1 := {| node := node c; bound_items := bound_items c;
                   bound_item_listeners := bound_item_listeners c;
                   data_node := parsed |} in
      match parsed with
      | None => (Ok (), c1)
      | Some n =>
          match write n with
          | Raise e => (Raise e, c1)
          | Ok d =>
              Computation_bind
                {| node := Some d; bound_items := bound_items c1;
                   bound_item_listeners := bound_item_listeners c1;
                   data_node := data_node c1 |}
          end
      end
  end.

End WithContext.

(** * Vocabulary of the statements *)

(** An [Image] module in which no array is rgb(a) or complex: the spatial
    shape is the shape and an array is [k]-d when its shape has [k] axes.
    It instantiates the parameter in the closed examples. *)
Definition shape_has_length (k : nat) (s : option (list Z))
    (t : option numpy_dtype) : bool :=
  match s, t with
  | Some sh, Some _ => (length sh =? k)%nat
  | _, _ => false
  end.

Definition Image_plain : ImageModule := {|
  spatial_shape_from_shape_and_dtype s t :=
    match t with Some _ => s | None => None end;
  is_shape_and_dtype_1d := shape_has_length 1;
  is_shape_and_dtype_2d := shape_has_length 2;
  is_shape_and_dtype_3d := shape_has_length 3;
  is_shape_and_dtype_rgb _ _ := false;
  is_shape_and_dtype_rgba _ _ := false;
  is_shape_and_dtype_complex_type _ _ := false;
  scalar_from_array a := a
|}.

(** A data item as [DataItem.__init__] leaves it before master data is set
    (lines 207-232), with the given uuid. *)
Definition new_DataItem (u : Z) : DataItem := {|
  uuid := u;
  closed := false;
  master_data := None;
  master_data_shape := None;
  master_data_dtype := None;
  has_master_data := false;
  data_source := None;
  operations := [];
  cached_data := None;
  cached_data_dirty := true;
  data_ref_count := 0;
  data_item_change_count := 0;
  data_item_changes := ∅;
  intrinsic_spatial_calibrations := [];
  datastore := None;
  transaction_count := 0;
  data_range := None
|}.

(** Calls on the change accumulator of one item. *)
Inductive change_call :=
| Begin
| End
| Record (changes : gset Z).

Definition run_call (st : DataItem * list Event) (c : change_call)
  : DataItem * list Event :=
  match c with
  | Begin => (begin_data_item_changes st.1, st.2)
  | End =>
      let '(d, ev) := end_data_item_changes st.1 in (d, st.2 ++ ev)
  | Record changes =>
      let '(d, ev) := notify_data_item_content_changed changes st.1 in
      (d, st.2 ++ ev)
  end.

Definition run_calls (calls : list change_call) (d : DataItem)
  : DataItem * list Event :=
  foldl run_call (d, []) calls.

(** Depth after the calls, starting at depth [k]; [None] when an [End] has
    no [Begin] to close. *)
Fixpoint nesting (k : nat) (calls : list change_call) : option nat :=
  match calls with
  | [] => Some k
  | Begin :: calls' => nesting (S k) calls'
  | End :: calls' =>
      match k with
      | O => None
      | S k' => nesting k' calls'
      end
  | Record _ :: calls' => nesting k calls'
  end.

(** The union of the kinds recorded by the calls. *)
Fixpoint recorded (calls : list change_call) : gset Z :=
  match calls with
  | [] => ∅
  | Record changes :: calls' => changes ∪ recorded calls'
  | _ :: calls' => recorded calls'
  end.

(** The [data_item_content_changed] notifications in a log. *)
Definition is_content_changed (e : Event) : bool :=
  match e with
  | DataItemContentChanged _ _ => true
  | _ => false
  end.

Definition content_changed_events (log : list Event) : list Event :=
  filter (fun e => is_content_changed e = true) log.

(** [n] calls of a method, one after the other, with their events. *)
Fixpoint repeat_call (n : nat) (f : DataItem -> DataItem * list Event)
    (d : DataItem) : DataItem * list Event :=
  match n with
  | O => (d, [])
  | S n' =>
      let '(d1, ev1) := f d in
      let '(d2, ev2) := repeat_call n' f d1 in
      (d2, ev1 ++ ev2)
  end.

(** [n] acquires followed by [m] releases. *)
Definition acquire_release (n m : nat) (d : DataItem) : DataItem * list Event :=
  let '(d1, ev1) := repeat_call n increment_data_ref_count d in
  let '(d2, ev2) := repeat_call m decrement_data_ref_count d1 in
  (d2, ev1 ++ ev2).

(** The ref-counts of an item and of the items of its source chain. *)
Fixpoint ref_counts (d : DataItem) : list Z :=
  data_ref_count d ::
  match data_source d with
  | Some s => ref_counts s
  | None => []
  end.

Definition source_ref_count (d : DataItem) : option Z :=
  data_ref_count <$> data_source d.

(** Calls of [__unload_master_data] in a log. *)
Definition is_unload_attempt (e : Event) : bool :=
  match e with
  | UnloadMasterData _ _ => true
  | _ => false
  end.

Definition unload_attempts (log : list Event) : nat :=
  length (filter (fun e => is_unload_attempt e = true) log).

(** What an acquire and a release do to the ref-counts of a chain, and
    whether a release reaches the end of the chain. *)
Fixpoint incr_counts (l : list Z) : list Z :=
  match l with
  | [] => []
  | c :: r => (c + 1) :: (if c =? 0 then incr_counts r else r)
  end.

Fixpoint decr_counts (l : list Z) : list Z :=
  match l with
  | [] => []
  | c :: r => (c - 1) :: (if c - 1 =? 0 then decr_counts r else r)
  end.

Fixpoint release_reaches_root (l : list Z) : bool :=
  match l with
  | [] => false
  | c :: r =>
      (c - 1 =? 0) && match r with [] => true | _ => release_reaches_root r end
  end.

(** [g] applied [n] times. *)
Fixpoint iterate {A} (n : nat) (g : A -> A) (x : A) : A :=
  match n with
  | O => x
  | S n' => iterate n' g (g x)
  end.

(** Calls of [__unload_master_data] made by [m] releases of a chain with
    ref-counts [l]. *)
Fixpoint release_attempts (m : nat) (l : list Z) : nat :=
  match m with
  | O => 0
  | S m' =>
      ((if release_reaches_root l then 1 else 0)
       + release_attempts m' (decr_counts l))%nat
  end.

(** Items for the closed examples: a one-element array, a root item that
    holds it as master data, and an item derived from a root. *)
Definition array_of (x : Z) : ndarray :=
  {| shape := [1]; dtype := int32; buffer := [x] |}.

Definition root_item (u : Z) (a : ndarray) : DataItem :=
  with_has_master_data true
    (with_master_data_dtype (Some (dtype a))
       (with_master_data_shape (Some (shape a))
          (with_master_data (Some a) (new_DataItem u)))).

Definition derived_item (u : Z) (source : DataItem) : DataItem :=
  with_data_source (Some source) (new_DataItem u).

(** Operations for the closed examples: [f] applied to every element, the
    shape and dtype passed through. *)
Definition map_array (f : Z -> Z) (a : ndarray) : ndarray :=
  {| shape := shape a; dtype := dtype a; buffer := f <$> buffer a |}.

Definition operation_of (u : Z) (on : bool) (f : Z -> Z) : Operation :=
  {| operation_uuid := u;
     enabled := on;
     process_data := map_array f;
     get_processed_data_shape_and_dtype := fun s t => (s, t) |}.

(** The operation chain as the specification words it: the operations in
    definition order, only those whose [enabled] flag is set. *)
Definition spec_apply_operations (ops : list Operation) (a : ndarray) : ndarray :=
  foldl (fun a op => if enabled op then process_data op a else a) a ops.

(** An item whose master data [a] is in memory and is also held by a
    datastore, with one reference on it. *)
Definition stored_item (u : Z) (a : ndarray) : DataItem :=
  Build_DataItem u false (Some a) (Some (shape a)) (Some (dtype a)) true None []
    None true 1 0 ∅ [] (Some {| load_data_reference := a |}) 0 None.

(** A 0-d array: what indexing every axis of an array yields. *)
Definition scalar_array (t : numpy_dtype) (x : Z) : ndarray :=
  {| shape := []; dtype := t; buffer := [x] |}.

(** An operation that keeps the first row of its input: it removes the
    first axis of data and shape. *)
Definition first_row_operation (u : Z) : Operation :=
  {| operation_uuid := u;
     enabled := true;
     process_data := fun a =>
       {| shape := drop 1 (shape a);
          dtype := dtype a;
          buffer := take (Z.to_nat (product (drop 1 (shape a)))) (buffer a) |};
     get_processed_data_shape_and_dtype := fun s t => (drop 1 s, t) |}.

Definition array_2x2 : ndarray :=
  {| shape := [2; 2]; dtype := float64; buffer := [1; 2; 3; 4] |}.

(** An item and its sources with empty, clean caches: the state a chain is
    in after [__get_data] found no data anywhere along it. *)
Fixpoint settle (d : DataItem) : DataItem :=
  Build_DataItem (uuid d) (closed d) (master_data d) (master_data_shape d)
    (master_data_dtype d) (has_master_data d)
    (match data_source d with
     | Some s => Some (settle s)
     | None => None
     end)
    (operations d) None false (data_ref_count d)
    (data_item_change_count d) (data_item_changes d)
    (intrinsic_spatial_calibrations d) (datastore d) (transaction_count d)
    None.

(** Calls of an operation's [process_data] in a log. *)
Definition is_process_data (e : Event) : bool :=
  match e with
  | ProcessData _ _ => true
  | _ => false
  end.

Definition process_data_calls (log : list Event) : list Event :=
  filter (fun e => is_process_data e = true) log.

(** Examples for the symbolic nodes: the specifier of a data item, the tree
    of ["a + 2"], a host interpreter that raises on every input, and a
    computation established on a node. *)
Definition data_item_specifier (u : Z) : gmap string pyvalue :=
  {[ "type" := PyStr "data_item"; "uuid" := PyInt u ]}.

Definition a_plus_2 : DataNode :=
  BinaryOperationDataNode 1
    [DataItemDataNode 2 [] (Some (data_item_specifier 100)) None;
     new_ConstantDataNode 3 (PyInt 2)]
    (Some "add") ∅.


Definition resolve_nothing : specifier -> option string -> option BoundItem :=
  fun _ _ => None.

Definition established (n : DataNode) (d : NodeDict) : Computation :=
  {| node := Some d;
     bound_items := {[ 2 := 100 ]};
     bound_item_listeners := {[ 2 := 100 ]};
     data_node := Some n |}.

(** The part of a chain that residency, caching and change batching never
    touch: everything but the arrays in memory, the caches, the ref-counts
    and the change accumulator, which are blanked. *)
Fixpoint skeleton (d : DataItem) : DataItem :=
  Build_DataItem (uuid d) (closed d) None (master_data_shape d)
    (master_data_dtype d) (has_master_data d)
    (match data_source d with
     | Some s => Some (skeleton s)
     | None => None
     end)
    (operations d) None false 0 0 ∅
    (intrinsic_spatial_calibrations d) (datastore d) (transaction_count d)
    None.

(** Number of spatial axes, as [sync_intrinsic_spatial_calibrations] counts
    them. *)
Definition spatial_ndim `{ImageModule} (d : DataItem) : nat :=
  match spatial_shape d with
  | Some sh => length sh
  | None => 0%nat
  end.

(** Master data and data source exclude each other. *)
Definition exclusive (d : DataItem) : Prop :=
  has_master_data d = true -> data_source d = None.

(** [write] and [factory]-then-[read] over a list of inputs, as the loops of
    [DataNode.write] and [DataNode.read] run them. *)
Fixpoint write_list (l : list DataNode) : result (list NodeDict) :=
  match l with
  | [] => Ok []
  | x :: l' => d ← write x; ds ← write_list l'; Ok (d :: ds)
  end.

Fixpoint read_list (l : list NodeDict) : result (list DataNode) :=
  match l with
  | [] => Ok []
  | x :: l' =>
      m ← factory x; m' ← read_node m x; ms ← read_list l'; Ok (m' :: ms)
  end.

(** Trees that [write] and [read] are meant for: operation, data and
    property nodes that are not bound, with function ids from the
    registries; no constant and no reference node. *)
Fixpoint operations_only (n : DataNode) : bool :=
  match n with
  | ConstantDataNode _ _ _ _ => false
  | ScalarOperationDataNode _ ins f _
  | UnaryOperationDataNode _ ins f _
  | BinaryOperationDataNode _ ins f _ =>
      in_keys function_map_keys f && forallb operations_only ins
  | FunctionOperationDataNode _ ins f _ =>
      in_keys function2_map_keys f && forallb operations_only ins
  | DataItemDataNode _ ins _ b =>
      bool_decide (b = None) && forallb operations_only ins
  | ReferenceDataNode _ _ _ => false
  | PropertyDataNode _ ins _ _ b =>
      bool_decide (b = None) && forallb operations_only ins
  end.

(** A node and its record: the node is written to the record, and [read] on
    a fresh node of the class or on the node itself gives the node back. *)
Definition round_trips (n : DataNode) : Prop :=
  exists d, write n = Ok d /\ factory d = Ok n /\ read_node n d = Ok n.

(** * Further functions of [DataItem.py] *)

(** [encode] inside [_get_data_file_path] (lines 246-253): the digits of the
    uuid's integer in the base given by the alphabet, least significant
    first, each written as its letter.  (Named [uuid_encode]: [encode] is
    taken by the library.)  The loop stops when the integer is 0; the fuel
    is the bit length of the integer, which is enough for an alphabet of two
    letters or more (with fewer the source divides by zero or does not
    stop; that is not modelled). *)
Definition uuid_alphabet : string := "ABCDEFGHIJKLMNOPQRSTUVWXYZ1234567890".

Fixpoint uuid_encode_fuel (fuel : nat) (alphabet : string) (uuid_int : N)
  : string :=
  match fuel with
  | O => ""
  | S fuel' =>
      if (uuid_int =? 0)%N then ""
      else
        let '(q, digit) :=
          N.div_eucl uuid_int (N.of_nat (String.length alphabet)) in
        match String.get (N.to_nat digit) alphabet with
        | Some c => String c (uuid_encode_fuel fuel' alphabet q)
        | None => ""
        end
  end.

Definition uuid_encode (alphabet : string) (uuid_int : N) : string :=
  uuid_encode_fuel (N.to_nat (N.size uuid_int)) alphabet uuid_int.

(** Reading an encoded name back: the position of each letter in the
    alphabet is a digit. *)
Fixpoint char_index (c : Ascii.ascii) (alphabet : string) : nat :=
  match alphabet with
  | EmptyString => 0
  | String c' rest =>
      if Ascii.eqb c c' then 0%nat else S (char_index c rest)
  end.

Fixpoint uuid_decode (alphabet : string) (s : string) : N :=
  match s with
  | EmptyString => 0%N
  | String c rest =>
      (N.of_nat (char_index c alphabet)
       + N.of_nat (String.length alphabet) * uuid_decode alphabet rest)%N
  end.

(** [__validate_flag] and [__validate_rating] (lines 430-434), on an
    integer. *)
Definition validate_flag (value : Z) : Z := Z.max (Z.min value 1) (-1).

Definition validate_rating (value : Z) : Z := Z.min (Z.max value 0) 5.

(** [set_spatial_calibration] (lines 501-506): the list is padded with
    identity calibrations up to index [dimension], the entry is assigned
    (a negative index counts from the end; outside the list it is an
    IndexError, raised before anything is changed) and the assignment of the
    property fires its changed callback. *)
Definition set_spatial_calibration (dimension : Z) (calibration : Calibration)
    (d : DataItem) : result () * DataItem * list Event :=
  let l := intrinsic_spatial_calibrations d in
  let l1 := l ++ replicate (Z.to_nat (dimension + 1) - length l)
                   Calibration_default in
  match normalize_index (Z.of_nat (length l1)) dimension with
  | Some i =>
      let d1 := with_intrinsic_spatial_calibrations
                  (<[Z.to_nat i := calibration]> l1) d in
      let '(d2, ev) := notify_data_item_content_changed {[METADATA]} d1 in
      (Ok (), d2, ev ++ [DataItemCalibrationChanged (uuid d)])
  | None => (Raise IndexError, d, [])
  end.

(** [__get_root_data_shape_and_dtype] (lines 937-943). *)
Definition root_data_shape_and_dtype (d : DataItem)
  : option (list Z) * option numpy_dtype :=
  if has_master_data d then (master_data_shape d, master_data_dtype d)
  else match data_source d with
       | Some s => data_shape_and_dtype s
       | None => (None, None)
       end.

(** [is_data_loaded] (lines 890-892). *)
Definition is_data_loaded (d : DataItem) : bool :=
  has_master_data d && bool_decide (master_data d <> None).

Section CalculatedCalibrations.

(** [operation.get_processed_calibrations(shape, dtype, calibrations)], the
    calibration transfer function of an operation. *)
Variable get_processed_calibrations :
  Operation -> list Z -> option numpy_dtype -> list Calibration -> list Calibration.

(** The loop of [__get_calculated_calibrations]: calibrations and
    shape/dtype advance together through the enabled operations. *)
Definition apply_calibration_operations (ops : list Operation)
    (st : list Calibration * (list Z * option numpy_dtype))
  : list Calibration * (list Z * option numpy_dtype) :=
  foldl (fun st op =>
           if enabled op
           then (get_processed_calibrations op st.2.1 st.2.2 st.1,
                 get_processed_data_shape_and_dtype op st.2.1 st.2.2)
           else st) st ops.

(** [calculated_calibrations] (lines 551-564): the calibrations of the data
    source when there is one, otherwise the item's own, put through the
    enabled operations when the root shape and dtype are known. *)
Fixpoint calculated_calibrations (d : DataItem) : list Calibration :=
  let calibrations :=
    match data_source d with
    | Some s => calculated_calibrations s
    | None => intrinsic_spatial_calibrations d
    end in
  match root_data_shape_and_dtype d with
  | (Some sh, Some dt) =>
      (apply_calibration_operations (operations d) (calibrations, (sh, Some dt))).1
  | _ => calibrations
  end.

End CalculatedCalibrations.

(** * Further functions of [Symbolic.py] *)

(** [size = max(min(int(size), 999), 1)] of [function_median_filter] and
    [function_uniform_filter] (lines 260 and 289). *)
Definition filter_size (size : Z) : Z := Z.max (Z.min size 999) 1.

(** The slice of [function_slice_sum] (lines 409-413): the bounds computed
    from centre and width, and the rows that [data[slice_start:slice_end]]
    selects from [n] rows, as Python resolves the bounds of a slice. *)
Definition slice_bounds (n slice_center slice_width : Z) : Z * Z :=
  let slice_start := slice_center + 1 - slice_width in
  let slice_start := Z.max slice_start 0 in
  let slice_end := slice_start + slice_width in
  let slice_end := Z.min n slice_end in
  (slice_start, slice_end).

Definition py_slice_index (n i : Z) : Z :=
  if i <? 0 then Z.max (i + n) 0 else Z.min i n.

Definition slice_rows (n slice_center slice_width : Z) : Z * Z :=
  let '(slice_start, slice_end) := slice_bounds n slice_center slice_width in
  (py_slice_index n slice_start, py_slice_index n slice_end).

(** [DataNode.make] (lines 728-743): a node is returned as it is, a number
    becomes a constant node (with a fresh uuid [u]), anything else fails the
    assertion. *)
Inductive operand :=
| OperandNode (n : DataNode)
| OperandValue (v : pyvalue).

Definition DataNode_make (u : Z) (value : operand) : result DataNode :=
  match value with
  | OperandNode n => Ok n
  | OperandValue v =>
      match v with
      | PyBool _ | PyInt _ | PyFloat _ | PyComplex _ _ =>
          Ok (new_ConstantDataNode u v)
      | PyNone | PyStr _ => Raise AssertionError
      end
  end.

(** The arithmetic operators of [DataNode] (lines 767-822).  [u] is the
    uuid of the node that is built and [u_const] the uuid of the constant
    that [make] may build; [reflected] tells the [__r...__] method, which
    puts the other operand first. *)
Inductive unary_operator := op_abs | op_neg | op_pos.

Inductive binary_operator :=
| op_add | op_sub | op_mul | op_div | op_truediv | op_floordiv | op_mod
| op_pow.

Definition unary_function_id (o : unary_operator) : string :=
  match o with
  | op_abs => "abs"
  | op_neg => "neg"
  | op_pos => "pos"
  end.

Definition binary_function_id (o : binary_operator) : string :=
  match o with
  | op_add => "add"
  | op_sub => "sub"
  | op_mul => "mul"
  | op_div => "div"
  | op_truediv => "truediv"
  | op_floordiv => "floordiv"
  | op_mod => "mod"
  | op_pow => "pow"
  end.

Definition DataNode_unary (u : Z) (o : unary_operator) (self : DataNode)
  : DataNode :=
  UnaryOperationDataNode u [self] (Some (unary_function_id o)) ∅.

Definition DataNode_binary (u u_const : Z) (o : binary_operator)
    (reflected : bool) (self : DataNode) (other : operand) : result DataNode :=
  n ← DataNode_make u_const other;
  Ok (BinaryOperationDataNode u (if reflected then [n; self] else [self; n])
        (Some (binary_function_id o)) ∅).

(** The functions that [parse_expression] puts among the globals (lines
    1144-1173) and take nodes only: the name, the node class and the number
    of node arguments. *)
Inductive node_class := ScalarClass | UnaryClass | FunctionClass.

Definition expression_functions : list (string * (node_class * nat)) :=
  [("amin", (ScalarClass, 1%nat)); ("amax", (ScalarClass, 1%nat));
   ("arange", (ScalarClass, 1%nat)); ("median", (ScalarClass, 1%nat));
   ("average", (ScalarClass, 1%nat)); ("mean", (ScalarClass, 1%nat));
   ("std", (ScalarClass, 1%nat)); ("var", (ScalarClass, 1%nat));
   ("log", (UnaryClass, 1%nat)); ("log10", (UnaryClass, 1%nat));
   ("log2", (UnaryClass, 1%nat));
   ("fft", (FunctionClass, 1%nat)); ("ifft", (FunctionClass, 1%nat));
   ("autocorrelate", (FunctionClass, 1%nat));
   ("crosscorrelate", (FunctionClass, 2%nat));
   ("sobel", (FunctionClass, 1%nat)); ("laplace", (FunctionClass, 1%nat));
   ("crop", (FunctionClass, 2%nat)); ("pick", (FunctionClass, 2%nat));
   ("project", (FunctionClass, 2%nat));
   ("resample_image", (FunctionClass, 2%nat));
   ("histogram", (FunctionClass, 2%nat));
   ("line_profile", (FunctionClass, 2%nat))].

(** A call [name(arguments)] of one of them; a wrong number of arguments is
    a TypeError of the lambda. *)
Definition expression_call (u : Z) (name : string) (arguments : list DataNode)
  : option (result DataNode) :=
  match list_find (fun e => e.1 = name) expression_functions with
  | Some (_, (_, (c, arity))) =>
      Some (if bool_decide (length arguments = arity) then
              Ok (match c with
                  | ScalarClass => ScalarOperationDataNode u arguments (Some name) ∅
                  | UnaryClass => UnaryOperationDataNode u arguments (Some name) ∅
                  | FunctionClass => FunctionOperationDataNode u arguments (Some name) ∅
                  end)
            else Raise TypeError)
  | None => None
  end.

(** [node.unbind()] (lines 759-761, 1056-1057, 1081-1082, 1122-1123): the
    base class unbinds the inputs, data and property nodes forget their
    bound item, a reference node raises. *)
Fixpoint unbind_node (n : DataNode) : result DataNode :=
  let unbind_inputs :=
    fix unbind_inputs (l : list DataNode) : result (list DataNode) :=
      match l with
      | [] => Ok []
      | x :: l' =>
          x' ← unbind_node x; l'' ← unbind_inputs l'; Ok (x' :: l'')
      end in
  match n with
  | ConstantDataNode u ins scalar scalar_type =>
      ins' ← unbind_inputs ins; Ok (ConstantDataNode u ins' scalar scalar_type)
  | ScalarOperationDataNode u ins f a =>
      ins' ← unbind_inputs ins; Ok (ScalarOperationDataNode u ins' f a)
  | UnaryOperationDataNode u ins f a =>
      ins' ← unbind_inputs ins; Ok (UnaryOperationDataNode u ins' f a)
  | BinaryOperationDataNode u ins f a =>
      ins' ← unbind_inputs ins; Ok (BinaryOperationDataNode u ins' f a)
  | FunctionOperationDataNode u ins f a =>
      ins' ← unbind_inputs ins; Ok (FunctionOperationDataNode u ins' f a)
  | DataItemDataNode u ins o _ => Ok (DataItemDataNode u ins o None)
  | ReferenceDataNode _ _ _ => Raise TypeError
  | PropertyDataNode u ins o p _ => Ok (PropertyDataNode u ins o p None)
  end.

Fixpoint unbind_list (l : list DataNode) : result (list DataNode) :=
  match l with
  | [] => Ok []
  | x :: l' => x' ← unbind_node x; l'' ← unbind_list l'; Ok (x' :: l'')
  end.

(** [Computation.unbind] (lines 1242-1247): the bound items and their
    listeners are closed and both dictionaries are replaced by empty ones;
    the data node is not told. *)
Definition Computation_unbind (c : Computation) : Computation :=
  {| node := node c; bound_items := ∅; bound_item_listeners := ∅;
     data_node := data_node c |}.

(** [Computation.read_from_dict] (lines 1216-1218): the stored [node]
    property is read and the data node is built from it; subscripting a
    missing ([None]) property is a TypeError. *)
Definition Computation_read_from_dict (stored : option NodeDict)
    (c : Computation) : result () * Computation :=
  let c1 := {| node := stored; bound_items := bound_items c;
               bound_item_listeners := bound_item_listeners c;
               data_node := data_node c |} in
  match stored with
  | None => (Raise TypeError, c1)
  | Some d =>
      match factory d with
      | Ok n => (Ok (), {| node := stored; bound_items := bound_items c;
                           bound_item_listeners := bound_item_listeners c;
                           data_node := Some n |})
      | Raise e => (Raise e, c1)
      end
  end.

Section WithResolver.

Variable resolve_object_specifier : specifier -> option string -> option BoundItem.

(** The loop of the base class's [bind] over the inputs. *)
Fixpoint bind_list (l : list DataNode) (b : gmap Z BoundItem)
  : result (list DataNode * gmap Z BoundItem) :=
  match l with
  | [] => Ok ([], b)
  | x :: l' =>
      '(x', b1) ← bind_node resolve_object_specifier x b;
      '(l'', b2) ← bind_list l' b1;
      Ok (x' :: l'', b2)
  end.

(** What binding a tree preserves, node by node: the written record, and
    the tree that [unbind] gives; and binding the bound tree again, from
    the same dictionary, changes nothing. *)
Definition bind_stable (n : DataNode) : Prop :=
  forall b n' b',
    bind_node resolve_object_specifier n b = Ok (n', b') ->
    write n' = write n
    /\ unbind_node n' = unbind_node n
    /\ bind_node resolve_object_specifier n' b = Ok (n', b')
    /\ exists m, unbind_node n = Ok m /\ unbind_node m = Ok m
                 /\ bind_node resolve_object_specifier m b = Ok (n', b')
                 /\ write m = write n.

End WithResolver.

(** * Change batching *)

Section ChangeBatching.

Lemma notify_inside (changes : gset Z) (d : DataItem) :
  0 < data_item_change_count d ->
  notify_data_item_content_changed changes d =
    (with_data_item_change_count (data_item_change_count d + 1 - 1)
       (with_data_item_changes (data_item_changes d ∪ changes)
          (begin_data_item_changes d)), []).
Proof.
  intros Hpos. unfold notify_data_item_content_changed, end_data_item_changes.
  cbn [data_item_change_count with_data_item_change_count
       with_data_item_changes begin_data_item_changes].
  destruct (Z.eqb_spec (data_item_change_count d + 1 - 1) 0) as [Heq|Hne];
    [lia | reflexivity].
Qed.

(** Inside a transaction the calls of a well-nested span notify nobody:
    they only move the depth and grow the pending set. *)
Lemma run_calls_inside (calls : list change_call) :
  forall (k k' : nat) (d : DataItem) (log : list Event),
    data_item_change_count d = Z.of_nat (S k) ->
    nesting k calls = Some k' ->
    exists d',
      foldl run_call (d, log) calls = (d', log)
      /\ data_item_change_count d' = Z.of_nat (S k')
      /\ data_item_changes d' = data_item_changes d ∪ recorded calls
      /\ uuid d' = uuid d.
Proof.
  induction calls as [|c calls IH]; intros k k' d log Hcount Hnest.
  - cbn in *. injection Hnest as <-. exists d. repeat split; auto. set_solver.
  - destruct c as [| |changes]; cbn [foldl run_call nesting recorded] in *.
    + destruct (IH (S k) k' (begin_data_item_changes d) log) as (d' & Hrun & Hc & Hs & Hu);
        [cbn; lia | exact Hnest |].
      exists d'. cbn [fst snd]. repeat split; auto.
    + destruct k as [|k]; [discriminate|].
      cbn [fst snd]. unfold end_data_item_changes.
      cbn [data_item_change_count with_data_item_change_count].
      destruct (Z.eqb_spec (data_item_change_count d - 1) 0) as [Heq|Hne]; [lia|].
      rewrite app_nil_r.
      destruct (IH k k' (with_data_item_change_count (data_item_change_count d - 1) d) log)
        as (d' & Hrun & Hc & Hs & Hu); [cbn; lia | exact Hnest |].
      exists d'. repeat split; auto.
    + cbn [fst snd]. rewrite notify_inside by lia. rewrite app_nil_r.
      edestruct (IH k k') as (d' & Hrun & Hc & Hs & Hu); [| exact Hnest |].
      2:{ exists d'. split; [exact Hrun|]. split; [exact Hc|]. split; [|exact Hu].
          rewrite Hs. cbn. set_solver. }
      cbn. lia.
Qed.

(** C2. Starting outside any transaction with nothing pending, a span
    [begin(); calls; end()] whose calls are well nested delivers nothing
    before its last [end()], and that [end()] delivers exactly one
    [data_item_content_changed] notification: it carries the union of the
    kinds recorded in the span, and the item it hands to the listeners
    already has its data cache marked dirty when [DATA] or [SOURCE] is among
    them. *)
Theorem C2_one_notification_per_outermost_transaction
    (d : DataItem) (calls : list change_call) :
  data_item_change_count d = 0 ->
  data_item_changes d = ∅ ->
  nesting 0 calls = Some 0%nat ->
  (run_calls (Begin :: calls) d).2 = []
  /\ exists sender,
      run_calls (Begin :: calls ++ [End]) d =
        (sender, [ProcessorsDataItemChanged (uuid d);
                  DataItemContentChanged sender (recorded calls)])
      /\ content_changed_events (run_calls (Begin :: calls ++ [End]) d).2 =
           [DataItemContentChanged sender (recorded calls)]
      /\ data_item_change_count sender = 0
      /\ data_item_changes sender = ∅
      /\ (DATA ∈ recorded calls \/ SOURCE ∈ recorded calls ->
          cached_data_dirty sender = true).
Proof.
  intros Hcount Hpending Hnest.
  destruct (run_calls_inside calls 0 0 (begin_data_item_changes d) [])
    as (d' & Hrun & Hc & Hs & Hu); [cbn; lia | exact Hnest |].
  unfold run_calls. cbn [foldl run_call fst snd].
  split; [rewrite Hrun; reflexivity|].
  rewrite foldl_app, Hrun. cbn [foldl run_call fst snd app].
  unfold end_data_item_changes.
  cbn [data_item_change_count with_data_item_change_count
       with_data_item_changes data_item_changes].
  destruct (Z.eqb_spec (data_item_change_count d' - 1) 0) as [_|Hne]; [|lia].
  cbn [begin_data_item_changes data_item_changes with_data_item_change_count] in Hs.
  rewrite Hpending in Hs.
  assert (Hrec : data_item_changes d' = recorded calls) by (rewrite Hs; set_solver).
  rewrite Hrec.
  eexists. split; [|split; [|split; [|split]]].
  - f_equal. f_equal. f_equal. destruct (_ || _); exact Hu.
  - reflexivity.
  - destruct (_ || _); cbn; lia.
  - destruct (_ || _); reflexivity.
  - intros Hin.
    assert (Hb : bool_decide (DATA ∈ recorded calls)
                 || bool_decide (SOURCE ∈ recorded calls) = true).
    { apply orb_true_iff. destruct Hin; [left|right]; apply bool_decide_eq_true; auto. }
    rewrite Hb. reflexivity.
Qed.

Lemma C2_witness :
  let d := new_DataItem 1 in
  let calls := [Begin; Record {[DATA]}; End; Record {[METADATA]}] in
  data_item_change_count d = 0
  /\ data_item_changes d = ∅
  /\ nesting 0 calls = Some 0%nat
  /\ (run_calls (Begin :: calls) d).2 = [].
Proof.
  split; [reflexivity|]. split; [reflexivity|]. split; [reflexivity|].
  exact (proj1 (C2_one_notification_per_outermost_transaction
                  (new_DataItem 1)
                  [Begin; Record {[DATA]}; End; Record {[METADATA]}]
                  eq_refl eq_refl eq_refl)).
Defined.

End ChangeBatching.

(** * Residency *)

Section Residency.

(** Induction along the chain of data sources. *)
Lemma DataItem_chain_ind (P : DataItem -> Prop) :
  (forall d, data_source d = None -> P d) ->
  (forall d s, data_source d = Some s -> P s -> P d) ->
  forall d, P d.
Proof.
  intros Hroot Hstep. fix IH 1. intros d.
  destruct (data_source d) as [s|] eqn:Hs.
  - apply (Hstep d s Hs). destruct d; cbn in Hs; subst. apply IH.
  - apply Hroot, Hs.
Qed.

Lemma increment_unfold (d : DataItem) :
  increment_data_ref_count d =
    let d1 := with_data_ref_count (data_ref_count d + 1) d in
    if data_ref_count d =? 0 then
      match data_source d with
      | Some s =>
          let '(s', ev) := increment_data_ref_count s in
          (with_data_source (Some s') d1, ev)
      | None => load_master_data d1
      end
    else (d1, []).
Proof. destruct d; reflexivity. Qed.

Lemma decrement_unfold (d : DataItem) :
  decrement_data_ref_count d =
    let d1 := with_data_ref_count (data_ref_count d - 1) d in
    if data_ref_count d - 1 =? 0 then
      match data_source d with
      | Some s =>
          let '(s', ev) := decrement_data_ref_count s in
          (with_data_source (Some s') d1, ev)
      | None => unload_master_data d1
      end
    else (d1, []).
Proof. destruct d; reflexivity. Qed.

Lemma ref_counts_unfold (d : DataItem) :
  ref_counts d =
    data_ref_count d ::
    match data_source d with Some s => ref_counts s | None => [] end.
Proof. destruct d; reflexivity. Qed.

Lemma load_master_data_frame (d : DataItem) :
  data_ref_count (load_master_data d).1 = data_ref_count d
  /\ data_source (load_master_data d).1 = data_source d
  /\ unload_attempts (load_master_data d).2 = 0%nat.
Proof.
  unfold load_master_data.
  destruct (datastore d), (master_data d), (has_master_data d); cbn; auto.
Qed.

Lemma unload_master_data_frame (d : DataItem) :
  data_ref_count (unload_master_data d).1 = data_ref_count d
  /\ data_source (unload_master_data d).1 = data_source d
  /\ unload_attempts (unload_master_data d).2 = 1%nat.
Proof.
  unfold unload_master_data. destruct (_ && _); cbn; auto.
Qed.

Lemma unload_attempts_app (l1 l2 : list Event) :
  unload_attempts (l1 ++ l2) = (unload_attempts l1 + unload_attempts l2)%nat.
Proof. unfold unload_attempts. rewrite filter_app, length_app. reflexivity. Qed.

(** An acquire moves the ref-counts as [incr_counts] says and never calls
    [__unload_master_data]. *)
Lemma increment_counts (d : DataItem) :
  ref_counts (increment_data_ref_count d).1 = incr_counts (ref_counts d)
  /\ unload_attempts (increment_data_ref_count d).2 = 0%nat.
Proof.
  induction d as [d Hs|d s Hs [IHc IHu]] using DataItem_chain_ind;
    rewrite increment_unfold, (ref_counts_unfold d), Hs; cbn zeta;
    cbn [incr_counts]; destruct (data_ref_count d =? 0) eqn:Hz.
  - destruct (load_master_data_frame (with_data_ref_count (data_ref_count d + 1) d))
      as (Hc & Hsrc & Hu).
    rewrite ref_counts_unfold, Hc, Hsrc. cbn. rewrite Hs. auto.
  - rewrite ref_counts_unfold. cbn. rewrite Hs. auto.
  - destruct (increment_data_ref_count s) as [s' ev] eqn:Hinc.
    rewrite ref_counts_unfold. cbn in *. rewrite IHc. auto.
  - rewrite ref_counts_unfold. cbn. rewrite Hs. auto.
Qed.

(** A release moves the ref-counts as [decr_counts] says and calls
    [__unload_master_data] once when it reaches the end of the chain, and
    not at all otherwise. *)
Lemma decrement_counts (d : DataItem) :
  ref_counts (decrement_data_ref_count d).1 = decr_counts (ref_counts d)
  /\ unload_attempts (decrement_data_ref_count d).2 =
       (if release_reaches_root (ref_counts d) then 1 else 0)%nat.
Proof.
  induction d as [d Hs|d s Hs [IHc IHu]] using DataItem_chain_ind;
    rewrite decrement_unfold, (ref_counts_unfold d), Hs; cbn zeta;
    cbn [decr_counts release_reaches_root];
    destruct (data_ref_count d - 1 =? 0) eqn:Hz; cbn [andb].
  - destruct (unload_master_data_frame (with_data_ref_count (data_ref_count d - 1) d))
      as (Hc & Hsrc & Hu).
    rewrite ref_counts_unfold, Hc, Hsrc. cbn. rewrite Hs. auto.
  - rewrite ref_counts_unfold. cbn. rewrite Hs. auto.
  - destruct (decrement_data_ref_count s) as [s' ev] eqn:Hdec.
    rewrite ref_counts_unfold. cbn in *. rewrite IHc, IHu.
    split; [reflexivity|].
    rewrite (ref_counts_unfold s). reflexivity.
  - rewrite ref_counts_unfold. cbn. rewrite Hs. auto.
Qed.

Lemma decr_incr_counts (l : list Z) : decr_counts (incr_counts l) = l.
Proof.
  induction l as [|c r IH]; [reflexivity|]. cbn.
  replace (c + 1 - 1) with c by lia.
  destruct (c =? 0); [rewrite IH|]; reflexivity.
Qed.

Lemma repeat_call_counts (n : nat) (f : DataItem -> DataItem * list Event)
    (g : list Z -> list Z) (d : DataItem) :
  (forall x, ref_counts (f x).1 = g (ref_counts x)) ->
  ref_counts (repeat_call n f d).1 = iterate n g (ref_counts d).
Proof.
  intros Hf. revert d. induction n as [|n IH]; intros d; [reflexivity|].
  cbn [repeat_call iterate]. rewrite <- Hf, <- IH.
  destruct (f d) as [d1 ev1]. cbn [fst].
  destruct (repeat_call n f d1) as [d2 ev2]. reflexivity.
Qed.

Lemma iterate_comm {A} (n : nat) (g : A -> A) (x : A) :
  iterate n g (g x) = g (iterate n g x).
Proof.
  revert x. induction n as [|n IH]; intros x; [reflexivity|]. cbn. apply IH.
Qed.

Lemma iterate_decr_incr (n : nat) (l : list Z) :
  iterate n decr_counts (iterate n incr_counts l) = l.
Proof.
  revert l. induction n as [|n IH]; intros l; [reflexivity|].
  cbn [iterate]. rewrite (iterate_comm n incr_counts), decr_incr_counts.
  apply IH.
Qed.

(** [n] acquires and then [n] releases leave every ref-count of the chain
    as it was. *)
Lemma acquire_release_counts (n : nat) (d : DataItem) :
  ref_counts (acquire_release n n d).1 = ref_counts d.
Proof.
  unfold acquire_release.
  destruct (repeat_call n increment_data_ref_count d) as [d1 ev1] eqn:H1.
  destruct (repeat_call n decrement_data_ref_count d1) as [d2 ev2] eqn:H2.
  cbn [fst]. change d2 with (d2, ev2).1. rewrite <- H2.
  rewrite (repeat_call_counts n _ decr_counts) by (intros x; apply decrement_counts).
  change d1 with (d1, ev1).1. rewrite <- H1.
  rewrite (repeat_call_counts n _ incr_counts) by (intros x; apply increment_counts).
  apply iterate_decr_incr.
Qed.

Lemma repeat_increment_attempts (n : nat) (d : DataItem) :
  unload_attempts (repeat_call n increment_data_ref_count d).2 = 0%nat.
Proof.
  revert d. induction n as [|n IH]; intros d; [reflexivity|].
  cbn [repeat_call]. pose proof (proj2 (increment_counts d)) as Hd.
  destruct (increment_data_ref_count d) as [d1 ev1]. specialize (IH d1).
  destruct (repeat_call n increment_data_ref_count d1) as [d2 ev2].
  cbn [snd] in *. rewrite unload_attempts_app, Hd, IH. reflexivity.
Qed.

Lemma repeat_decrement_attempts (m : nat) (d : DataItem) :
  unload_attempts (repeat_call m decrement_data_ref_count d).2 =
    release_attempts m (ref_counts d).
Proof.
  revert d. induction m as [|m IH]; intros d; [reflexivity|].
  cbn [repeat_call release_attempts].
  destruct (decrement_counts d) as [Hc Hu].
  destruct (decrement_data_ref_count d) as [d1 ev1]. specialize (IH d1).
  destruct (repeat_call m decrement_data_ref_count d1) as [d2 ev2].
  cbn [fst snd] in *. rewrite unload_attempts_app, Hu, IH, Hc. reflexivity.
Qed.

Lemma acquire_release_attempts (n m : nat) (d : DataItem) :
  unload_attempts (acquire_release n m d).2 =
    release_attempts m (iterate n incr_counts (ref_counts d)).
Proof.
  unfold acquire_release.
  pose proof (repeat_increment_attempts n d) as Ha.
  pose proof (repeat_call_counts n increment_data_ref_count incr_counts d
                (fun x => proj1 (increment_counts x))) as Hc.
  destruct (repeat_call n increment_data_ref_count d) as [d1 ev1].
  pose proof (repeat_decrement_attempts m d1) as Hr.
  destruct (repeat_call m decrement_data_ref_count d1) as [d2 ev2].
  cbn [fst snd] in *. rewrite unload_attempts_app, Ha, Hr, Hc. reflexivity.
Qed.

(** The ref-counts of a chain on which nobody holds a reference. *)
Lemma incr_counts_zeros (k : nat) :
  incr_counts (replicate k 0) = replicate k 1.
Proof. induction k as [|k IH]; [reflexivity|]. cbn. rewrite IH. reflexivity. Qed.

Lemma iterate_incr_held (n : nat) (c : Z) (r : list Z) :
  0 < c -> iterate n incr_counts (c :: r) = (c + Z.of_nat n) :: r.
Proof.
  revert c. induction n as [|n IH]; intros c Hc.
  - cbn. f_equal. lia.
  - cbn [iterate incr_counts].
    destruct (Z.eqb_spec c 0) as [->|_]; [lia|].
    rewrite IH by lia. f_equal. lia.
Qed.

Lemma release_attempts_held (n : nat) (c : Z) (r : list Z) :
  Z.of_nat n < c ->
  release_attempts n (c :: r) = 0%nat
  /\ iterate n decr_counts (c :: r) = (c - Z.of_nat n) :: r.
Proof.
  revert c. induction n as [|n IH]; intros c Hc.
  - cbn. split; [reflexivity|]. f_equal. lia.
  - cbn [release_attempts iterate decr_counts release_reaches_root].
    destruct (Z.eqb_spec (c - 1) 0) as [Heq|_]; [lia|].
    destruct (IH (c - 1)) as [Ha Hi]; [lia|].
    rewrite Ha, Hi. split; [reflexivity|]. f_equal. lia.
Qed.

Lemma release_attempts_add (n m : nat) (l : list Z) :
  release_attempts (n + m) l =
    (release_attempts n l + release_attempts m (iterate n decr_counts l))%nat.
Proof.
  revert l. induction n as [|n IH]; intros l; [reflexivity|].
  cbn [Nat.add release_attempts iterate]. rewrite IH. lia.
Qed.

Lemma release_reaches_root_ones (k : nat) :
  release_reaches_root (1 :: replicate k 1) = true.
Proof. induction k as [|k IH]; [reflexivity|]. cbn in *. exact IH. Qed.

Lemma ref_counts_all_zero (d : DataItem) :
  (forall c, c ∈ ref_counts d -> c = 0) ->
  ref_counts d = 0 :: replicate (depth d) 0.
Proof.
  induction d as [d Hs|d s Hs IH] using DataItem_chain_ind; intros Hall;
    rewrite ref_counts_unfold in Hall |- *; rewrite Hs in Hall |- *;
    (replace (depth d) with (match data_source d with
                             | Some s => S (depth s) | None => 0%nat end)
       by (destruct d; reflexivity)); rewrite Hs.
  - rewrite (Hall (data_ref_count d)) by set_solver. reflexivity.
  - rewrite (Hall (data_ref_count d)) by set_solver.
    rewrite IH by (intros c Hc; apply Hall; set_solver). reflexivity.
Qed.

(** On a chain nobody holds, [n+1] acquires and as many releases call
    [__unload_master_data] exactly once, in the last release. *)
Lemma acquire_release_unloads_once (n : nat) (d : DataItem) :
  (forall c, c ∈ ref_counts d -> c = 0) ->
  unload_attempts (acquire_release (S n) (S n) d).2 = 1%nat
  /\ unload_attempts (acquire_release (S n) n d).2 = 0%nat.
Proof.
  intros Hall. rewrite !acquire_release_attempts, (ref_counts_all_zero d Hall).
  cbn [iterate incr_counts Z.eqb]. rewrite incr_counts_zeros.
  change (0 + 1) with 1. rewrite iterate_incr_held by lia.
  destruct (release_attempts_held n (1 + Z.of_nat n) (replicate (depth d) 1))
    as [Ha Hi]; [lia|].
  split; [|exact Ha].
  replace (S n) with (n + 1)%nat by lia.
  rewrite release_attempts_add, Ha, Hi.
  replace (1 + Z.of_nat n - Z.of_nat n) with 1 by lia.
  cbn [release_attempts]. rewrite release_reaches_root_ones. reflexivity.
Qed.

End Residency.

Section ResidencyClaims.

(** C4 as stated fails: the second acquire of a derived item leaves the
    ref-count of its source at 1. *)
Lemma C4_counterexample :
  let d0 := derived_item 2 (new_DataItem 1) in
  let d1 := (increment_data_ref_count d0).1 in
  let d2 := (increment_data_ref_count d1).1 in
  source_ref_count d0 = Some 0
  /\ source_ref_count d1 = Some 1
  /\ source_ref_count d2 = Some 1
  /\ source_ref_count d2 <> Some (1 + 1).
Proof. cbn. repeat split; discriminate. Qed.

(** C4, amended. For an item with a data source, an acquire adds one to the
    item's own ref-count and adds one to the source's ref-count exactly when
    the item's count was 0 before the call; [N] acquires followed by [N]
    releases leave every ref-count of the chain as it was; and when no
    ref-count of the chain is held before, [N+1] acquires and [N+1] releases
    call [__unload_master_data] exactly once, in the last release. *)
Theorem C4_ref_count_propagation (d s : DataItem) :
  data_source d = Some s ->
  data_ref_count (increment_data_ref_count d).1 = data_ref_count d + 1
  /\ source_ref_count (increment_data_ref_count d).1 =
       Some (if data_ref_count d =? 0 then data_ref_count s + 1
             else data_ref_count s)
  /\ (forall N, ref_counts (acquire_release N N d).1 = ref_counts d)
  /\ (forall N, (forall c, c ∈ ref_counts d -> c = 0) ->
        unload_attempts (acquire_release (S N) (S N) d).2 = 1%nat
        /\ unload_attempts (acquire_release (S N) N d).2 = 0%nat).
Proof.
  intros Hs. split; [|split; [|split]].
  - rewrite increment_unfold, Hs. cbn zeta.
    destruct (data_ref_count d =? 0); [|reflexivity].
    destruct (increment_data_ref_count s). reflexivity.
  - rewrite increment_unfold, Hs. cbn zeta. unfold source_ref_count.
    destruct (data_ref_count d =? 0) eqn:Hz.
    + pose proof (proj1 (increment_counts s)) as Hc.
      rewrite (ref_counts_unfold s) in Hc.
      destruct (increment_data_ref_count s) as [s' ev]. cbn in *.
      rewrite ref_counts_unfold in Hc. injection Hc as Hc _. rewrite Hc.
      reflexivity.
    + cbn. rewrite Hs. reflexivity.
  - intros N. apply acquire_release_counts.
  - intros N Hall. apply acquire_release_unloads_once, Hall.
Qed.

Lemma C4_witness :
  let d := derived_item 2 (new_DataItem 1) in
  data_source d = Some (new_DataItem 1)
  /\ (forall c, c ∈ ref_counts d -> c = 0)
  /\ ref_counts (acquire_release 3 3 d).1 = ref_counts d
  /\ unload_attempts (acquire_release 3 3 d).2 = 1%nat
  /\ unload_attempts (acquire_release 3 2 d).2 = 0%nat.
Proof.
  assert (Hall : forall c,
             c ∈ ref_counts (derived_item 2 (new_DataItem 1)) -> c = 0).
  { intros c Hc. cbn in Hc. set_solver. }
  pose proof (C4_ref_count_propagation
                (derived_item 2 (new_DataItem 1)) (new_DataItem 1) eq_refl)
    as (_ & _ & Hcounts & Hunload).
  split; [reflexivity|]. split; [exact Hall|].
  split; [exact (Hcounts 3%nat)|]. exact (Hunload 2%nat Hall).
Defined.

End ResidencyClaims.

(** * Derived data *)

Section DerivedData.
Context `{Image : ImageModule}.

Lemma depth_unfold (d : DataItem) :
  depth d = match data_source d with
            | Some s => S (depth s)
            | None => 0%nat
            end.
Proof. destruct d; reflexivity. Qed.

Lemma load_master_data_source (d : DataItem) :
  data_source (load_master_data d).1 = data_source d.
Proof. apply load_master_data_frame. Qed.

Lemma unload_master_data_source (d : DataItem) :
  data_source (unload_master_data d).1 = data_source d.
Proof. apply unload_master_data_frame. Qed.

Lemma increment_depth (d : DataItem) :
  depth (increment_data_ref_count d).1 = depth d.
Proof.
  induction d as [d Hs|d s Hs IH] using DataItem_chain_ind;
    rewrite increment_unfold, (depth_unfold d), Hs; cbn zeta;
    destruct (data_ref_count d =? 0).
  - rewrite depth_unfold, load_master_data_source. cbn. rewrite Hs. reflexivity.
  - rewrite depth_unfold. cbn. rewrite Hs. reflexivity.
  - destruct (increment_data_ref_count s) as [s' ev].
    rewrite depth_unfold. cbn in *. rewrite IH. reflexivity.
  - rewrite depth_unfold. cbn. rewrite Hs. reflexivity.
Qed.

Lemma decrement_depth (d : DataItem) :
  depth (decrement_data_ref_count d).1 = depth d.
Proof.
  induction d as [d Hs|d s Hs IH] using DataItem_chain_ind;
    rewrite decrement_unfold, (depth_unfold d), Hs; cbn zeta;
    destruct (data_ref_count d - 1 =? 0).
  - rewrite depth_unfold, unload_master_data_source. cbn. rewrite Hs. reflexivity.
  - rewrite depth_unfold. cbn. rewrite Hs. reflexivity.
  - destruct (decrement_data_ref_count s) as [s' ev].
    rewrite depth_unfold. cbn in *. rewrite IH. reflexivity.
  - rewrite depth_unfold. cbn. rewrite Hs. reflexivity.
Qed.

(** The body of [__get_data] uses the read of the source only on the data
    source of the item. *)
Lemma get_data_body_ext
    (f g : DataItem -> option ndarray * DataItem * list Event) (d : DataItem) :
  (forall s, data_source d = Some s -> with_data_ref f s = with_data_ref g s) ->
  get_data_body f d = get_data_body g d.
Proof.
  intros Hfg. unfold get_data_body, root_data.
  destruct (data_source d) as [s|]; [|reflexivity].
  rewrite (Hfg s eq_refl). reflexivity.
Qed.

(** Fuel beyond the length of the source chain changes nothing: [__get_data]
    always returns. *)
Lemma get_data_fuel_enough (n : nat) :
  forall (m : nat) (d : DataItem),
    (depth d < n)%nat -> (depth d < m)%nat ->
    get_data_fuel n d = get_data_fuel m d.
Proof.
  induction n as [|n IH]; intros m d Hn Hm; [lia|].
  destruct m as [|m]; [lia|]. cbn [get_data_fuel].
  apply get_data_body_ext. intros s Hs.
  rewrite depth_unfold, Hs in Hn, Hm.
  unfold with_data_ref. pose proof (increment_depth s) as Hd.
  destruct (increment_data_ref_count s) as [s1 ev1]. cbn [fst] in Hd.
  rewrite (IH m s1) by lia. reflexivity.
Qed.

Lemma get_data_unfold (d : DataItem) :
  get_data d = get_data_body get_data d.
Proof.
  unfold get_data at 1. cbn [get_data_fuel].
  apply get_data_body_ext. intros s Hs.
  unfold with_data_ref. pose proof (increment_depth s) as Hd.
  destruct (increment_data_ref_count s) as [s1 ev1]. cbn [fst] in Hd.
  unfold get_data. rewrite (get_data_fuel_enough (depth d) (S (depth s1)) s1);
    [reflexivity| |lia].
  rewrite (depth_unfold d), Hs. lia.
Qed.

(** When the cache is stale and the master data is in memory, [__get_data]
    returns the master data put through the operations in reversed list
    order, whatever their [enabled] flags. *)
Lemma get_data_from_master (d : DataItem) (a : ndarray) :
  cached_data_dirty d || bool_decide (cached_data d = None) = true ->
  has_master_data d = true ->
  master_data d = Some a ->
  (get_data d).1.1 = Some (apply_operations (reverse (operations d)) a).1
  /\ (get_data d).2 = (apply_operations (reverse (operations d)) a).2.
Proof.
  intros Hstale Hhas Hmaster. rewrite get_data_unfold.
  unfold get_data_body, root_data, processed_data.
  rewrite Hstale, Hhas, Hmaster. cbn [fst snd].
  destruct (apply_operations (reverse (operations d)) a) as [r ev].
  split; reflexivity.
Qed.

End DerivedData.

Section DerivedDataClaims.

(** C1 (code defect). On master data [1] with the enabled operations "add 1"
    then "double", [__get_data] returns [3]: it runs the list backwards,
    where definition order gives [4]. On an item whose only operation is
    disabled it still runs the operation, so the item's data [2] differs
    from its source's data [1]. *)
Theorem C1_operations_run_reversed_and_unconditionally :
  let d := with_operations
             [operation_of 10 true (Z.add 1); operation_of 11 true (Z.mul 2)]
             (root_item 1 (array_of 1)) in
  let e := with_operations [operation_of 10 false (Z.add 1)]
             (derived_item 2 (root_item 1 (array_of 1))) in
  (@get_data Image_plain d).1.1 = Some (array_of 3)
  /\ spec_apply_operations (operations d) (array_of 1) = array_of 4
  /\ (@get_data Image_plain e).1.1 = Some (array_of 2)
  /\ (@get_data Image_plain (root_item 1 (array_of 1))).1.1 = Some (array_of 1)
  /\ spec_apply_operations (operations e) (array_of 1) = array_of 1.
Proof. vm_compute. repeat split. Qed.

(** C8. A release leaves the item's own master data and cached data alone
    when the item has no datastore or its ref-count was not above zero; and
    when a release does drop the master data it also drops the cached data,
    so that the next read under a data reference reloads the array from the
    datastore and computes the data from it. *)
Theorem C8_unload_policy `{Image : ImageModule} (d : DataItem) :
  (datastore d = None \/ data_ref_count d <= 0 ->
   master_data (decrement_data_ref_count d).1 = master_data d
   /\ cached_data (decrement_data_ref_count d).1 = cached_data d)
  /\ (master_data d <> None ->
      master_data (decrement_data_ref_count d).1 = None ->
      cached_data (decrement_data_ref_count d).1 = None
      /\ exists store,
          datastore d = Some store
          /\ (data (decrement_data_ref_count d).1).1.1 =
               Some (apply_operations (reverse (operations d))
                       (load_data_reference store)).1).
Proof.
  rewrite decrement_unfold. cbn zeta. split.
  - intros Hskip.
    destruct (Z.eqb_spec (data_ref_count d - 1) 0) as [Hz|_]; [|split; reflexivity].
    destruct Hskip as [Hstore|Hcount]; [|lia].
    destruct (data_source d) as [s|].
    + destruct (decrement_data_ref_count s). split; reflexivity.
    + unfold unload_master_data. cbn. rewrite Hstore.
      rewrite bool_decide_eq_false_2 by (intros Hne; apply Hne; reflexivity).
      rewrite andb_false_r. split; reflexivity.
  - intros Hloaded Hgone.
    destruct (Z.eqb_spec (data_ref_count d - 1) 0) as [Hz|_];
      [|cbn in Hgone; contradiction].
    destruct (data_source d) as [s|] eqn:Hs.
    { destruct (decrement_data_ref_count s). cbn in Hgone. contradiction. }
    unfold unload_master_data in *. cbn [transaction_count has_master_data
      datastore with_data_ref_count] in *.
    destruct (transaction_count d =? 0) eqn:Htc; cbn [andb] in *;
      [|cbn in Hgone; contradiction].
    destruct (has_master_data d) eqn:Hhas; cbn [andb] in *;
      [|cbn in Hgone; contradiction].
    destruct (datastore d) as [store|] eqn:Hstore;
      [|rewrite bool_decide_eq_false_2 in Hgone
          by (intros Hne; apply Hne; reflexivity); cbn in Hgone; contradiction].
    rewrite bool_decide_eq_true_2 by discriminate. cbn [fst].
    split; [reflexivity|]. exists store. split; [reflexivity|].
    unfold data, with_data_ref. rewrite increment_unfold. cbn zeta.
    cbn [data_ref_count with_cached_data with_master_data with_data_ref_count
         data_source]. rewrite Hz, Hs. cbn [Z.eqb].
    unfold load_master_data.
    cbn [datastore master_data has_master_data with_data_ref_count
         with_cached_data with_master_data].
    rewrite Hstore, Hhas.
    match goal with
    | |- context [get_data ?x] =>
        destruct (get_data_from_master x (load_data_reference store))
          as [Hdata _];
          [cbn; apply orb_true_r
          | exact Hhas | reflexivity |];
        destruct (get_data x) as [[r x'] ev]; cbn [fst] in Hdata;
        destruct (decrement_data_ref_count x')
    end.
    exact Hdata.
Qed.

Lemma C8_witness :
  let d := stored_item 1 (array_of 7) in
  master_data d <> None
  /\ master_data (decrement_data_ref_count d).1 = None
  /\ cached_data (decrement_data_ref_count d).1 = None.
Proof.
  split; [discriminate|]. split; [reflexivity|].
  exact (proj1 (proj2 (@C8_unload_policy Image_plain (stored_item 1 (array_of 7)))
                  ltac:(discriminate) eq_refl)).
Defined.

End DerivedDataClaims.

(** * Reading one value *)

Section DataValue.
Context `{Image : ImageModule}.

Lemma take_one_drop (l : list Z) (i : nat) (x : Z) :
  l !! i = Some x -> take 1 (drop i l) = [x].
Proof.
  intros Hx. assert (Hd : drop i l !! 0%nat = Some x).
  { rewrite lookup_drop, Nat.add_0_r. exact Hx. }
  destruct (drop i l) as [|y l']; [discriminate|].
  cbn in *. injection Hd as ->. reflexivity.
Qed.

Lemma normalize_index_in_range (n i : Z) :
  0 <= i < n -> normalize_index n i = Some i.
Proof.
  intros [Hlo Hhi]. unfold normalize_index.
  destruct (Z.leb_spec 0 i); [|lia]. destruct (Z.ltb_spec i n); [|lia].
  reflexivity.
Qed.

(** Indexing a 1-d array inside its bounds yields its element. *)
Lemma getitem_1d (a : ndarray) (n p0 x : Z) :
  shape a = [n] -> 0 <= p0 < n ->
  buffer a !! Z.to_nat p0 = Some x ->
  getitem a [p0] = Some (scalar_array (dtype a) x).
Proof.
  intros Hsh Hp Hx. unfold getitem. rewrite Hsh. cbn [getitem_from].
  rewrite normalize_index_in_range by exact Hp.
  cbn [product foldr]. change (Z.to_nat 1) with 1%nat.
  rewrite Nat.mul_1_r, (take_one_drop _ _ x Hx). reflexivity.
Qed.

(** Indexing both axes of a 2-d array inside its bounds yields the element
    at the row-major position. *)
Lemma getitem_2d (a : ndarray) (n m p0 p1 x : Z) :
  shape a = [n; m] -> 0 <= p0 < n -> 0 <= p1 < m ->
  buffer a !! Z.to_nat (p0 * m + p1) = Some x ->
  getitem a [p0; p1] = Some (scalar_array (dtype a) x).
Proof.
  intros Hsh Hp0 Hp1 Hx. unfold getitem. rewrite Hsh. cbn [getitem_from].
  rewrite (normalize_index_in_range n p0) by exact Hp0.
  rewrite (normalize_index_in_range m p1) by exact Hp1.
  cbn [product foldr]. change (Z.to_nat 1) with 1%nat.
  rewrite Nat.mul_1_r, Z.mul_1_r.
  rewrite (take_one_drop _ _ x); [reflexivity|].
  rewrite lookup_take_lt by lia. rewrite lookup_drop.
  replace (Z.to_nat p0 * Z.to_nat m + Z.to_nat p1)%nat
    with (Z.to_nat (p0 * m + p1)) by lia.
  exact Hx.
Qed.

(** C10. [get_data_value] leaves the item as it is and calls nothing: no
    operation runs and nothing is loaded.  Without a cached array it returns
    [None]; with one, it returns the cached array indexed at [pos[0]] for
    1-d data and at [pos[0], pos[1]] for 2-d data, which inside the bounds
    of the array is the element at that position. *)
Theorem C10_get_data_value_reads_the_cache (pos : list Z) (d : DataItem) :
  (get_data_value pos d).1.2 = d
  /\ (get_data_value pos d).2 = []
  /\ (cached_data d = None -> (get_data_value pos d).1.1 = Ok None)
  /\ (forall a p0 rest,
        cached_data d = Some a -> is_data_1d d = true -> pos = p0 :: rest ->
        (get_data_value pos d).1.1 = (v ← array_item a [p0]; Ok (Some v))
        /\ forall n x,
             shape a = [n] -> 0 <= p0 < n ->
             buffer a !! Z.to_nat p0 = Some x ->
             (get_data_value pos d).1.1 = Ok (Some (scalar_array (dtype a) x)))
  /\ (forall a p0 p1 rest,
        cached_data d = Some a -> is_data_1d d = false -> is_data_2d d = true ->
        pos = p0 :: p1 :: rest ->
        (get_data_value pos d).1.1 = (v ← array_item a [p0; p1]; Ok (Some v))
        /\ forall n m x,
             shape a = [n; m] -> 0 <= p0 < n -> 0 <= p1 < m ->
             buffer a !! Z.to_nat (p0 * m + p1) = Some x ->
             (get_data_value pos d).1.1 = Ok (Some (scalar_array (dtype a) x))).
Proof.
  unfold get_data_value. cbn [fst snd].
  split; [reflexivity|]. split; [reflexivity|]. split; [|split].
  - intros ->.
    destruct (is_data_1d d), (is_data_2d d), (is_data_3d d); reflexivity.
  - intros a p0 rest -> -> ->. cbn [sequence_item lookup list_lookup].
    split; [reflexivity|].
    intros n x Hsh Hp Hx. cbn. unfold array_item.
    rewrite (getitem_1d a n p0 x Hsh Hp Hx). reflexivity.
  - intros a p0 p1 rest -> -> -> ->. split; [reflexivity|].
    intros n m x Hsh Hp0 Hp1 Hx. cbn. unfold array_item.
    rewrite (getitem_2d a n m p0 p1 x Hsh Hp0 Hp1 Hx). reflexivity.
Qed.

End DataValue.

Lemma C10_witness :
  let a := {| shape := [2]; dtype := int32; buffer := [5; 6] |} in
  let d := with_cached_data (Some a) (root_item 1 a) in
  cached_data d = Some a
  /\ @is_data_1d Image_plain d = true
  /\ cached_data (root_item 1 a) = None
  /\ (@get_data_value Image_plain [1] d).1.1 = Ok (Some (scalar_array int32 6))
  /\ (@get_data_value Image_plain [1] (root_item 1 a)).1.1 = Ok None.
Proof.
  set (a := {| shape := [2]; dtype := int32; buffer := [5; 6] |}).
  pose proof (@C10_get_data_value_reads_the_cache Image_plain [1]
                (with_cached_data (Some a) (root_item 1 a)))
    as (_ & _ & _ & H1d & _).
  pose proof (@C10_get_data_value_reads_the_cache Image_plain [1] (root_item 1 a))
    as (_ & _ & Hnone & _).
  split; [reflexivity|]. split; [reflexivity|]. split; [reflexivity|]. split.
  - exact (proj2 (H1d a 1 [] eq_refl eq_refl eq_refl) 2 6 eq_refl
             ltac:(lia) eq_refl).
  - exact (Hnone eq_refl).
Defined.

(** * Master data, data source and calibrations *)

Section Exclusivity.

(** C3 (code defect). [__set_data_source] and [__set_master_data] refuse to
    give an item both master data and a data source, but
    [set_external_master_data] has no such check: called on an item with a
    data source attached it returns normally and the item then has both. *)
Theorem C3_external_master_data_skips_the_check :
  let source := new_DataItem 1 in
  let attached := @set_data_source Image_plain (Some source) (new_DataItem 2) in
  let e1 := attached.1.2 in
  let e2 := (@set_external_master_data Image_plain [4; 4] float64 e1).1 in
  attached.1.1 = Ok ()
  /\ has_master_data e1 = false /\ data_source e1 <> None
  /\ (@set_master_data Image_plain (Some array_2x2) e1).1.1 = Raise AssertionError
  /\ (@set_data_source Image_plain (Some source) (root_item 3 array_2x2)).1.1
       = Raise AssertionError
  /\ has_master_data e2 = true /\ data_source e2 <> None.
Proof. vm_compute. repeat split; discriminate. Qed.

(** C9 (code defect). [__set_master_data] brings the calibration list to
    the length of the spatial shape, but inserting an operation does not run
    [sync_intrinsic_spatial_calibrations]: after a 2x2 array is set the list
    has two entries, and after an operation that removes an axis is added
    the spatial shape has one axis while the list still has two. *)
Theorem C9_add_operation_leaves_calibrations_unsynchronized :
  let set := @set_master_data Image_plain (Some array_2x2) (new_DataItem 1) in
  let d1 := set.1.2 in
  let d2 := (add_operation (first_row_operation 20) d1).1 in
  set.1.1 = Ok ()
  /\ @spatial_shape Image_plain d1 = Some [2; 2]
  /\ intrinsic_spatial_calibrations d1 = [Calibration_default; Calibration_default]
  /\ @spatial_shape Image_plain d2 = Some [2]
  /\ length (intrinsic_spatial_calibrations d2) = 2%nat.
Proof. vm_compute. repeat split. Qed.

End Exclusivity.

(** * Memoization of derived data *)

Section Memoization.
Context `{Image : ImageModule}.

Lemma process_data_calls_app (l1 l2 : list Event) :
  process_data_calls (l1 ++ l2) = process_data_calls l1 ++ process_data_calls l2.
Proof. apply filter_app. Qed.

Lemma load_no_process_data (d : DataItem) :
  process_data_calls (load_master_data d).2 = [].
Proof.
  unfold load_master_data.
  destruct (datastore d), (master_data d), (has_master_data d); reflexivity.
Qed.

Lemma unload_no_process_data (d : DataItem) :
  process_data_calls (unload_master_data d).2 = [].
Proof. unfold unload_master_data. destruct (_ && _); reflexivity. Qed.

(** Acquire and release call no operation. *)
Lemma increment_no_process_data (d : DataItem) :
  process_data_calls (increment_data_ref_count d).2 = [].
Proof.
  induction d as [d Hs|d s Hs IH] using DataItem_chain_ind;
    rewrite increment_unfold, Hs; cbn zeta;
    destruct (data_ref_count d =? 0); try reflexivity.
  - apply load_no_process_data.
  - destruct (increment_data_ref_count s). exact IH.
Qed.

Lemma decrement_no_process_data (d : DataItem) :
  process_data_calls (decrement_data_ref_count d).2 = [].
Proof.
  induction d as [d Hs|d s Hs IH] using DataItem_chain_ind;
    rewrite decrement_unfold, Hs; cbn zeta;
    destruct (data_ref_count d - 1 =? 0); try reflexivity.
  - apply unload_no_process_data.
  - destruct (decrement_data_ref_count s). exact IH.
Qed.

Lemma settle_unfold (d : DataItem) :
  settle d =
    with_data_range None
      (with_cached_data_dirty false
         (with_cached_data None
            (with_data_source (settle <$> data_source d) d))).
Proof. destruct d as [? ? ? ? ? ? [s|]]; reflexivity. Qed.

Lemma settle_idempotent (d : DataItem) : settle (settle d) = settle d.
Proof.
  induction d as [d Hs|d s Hs IH] using DataItem_chain_ind;
    rewrite (settle_unfold (settle d)), (settle_unfold d); cbn; rewrite Hs; cbn.
  - reflexivity.
  - rewrite IH. reflexivity.
Qed.

(** Settling the caches does not interfere with acquire and release. *)
Lemma increment_settle (d : DataItem) :
  increment_data_ref_count (settle d) =
    (settle (increment_data_ref_count d).1, (increment_data_ref_count d).2).
Proof.
  induction d as [d Hs|d s Hs IH] using DataItem_chain_ind;
    rewrite (increment_unfold (settle d)), (increment_unfold d);
    rewrite (settle_unfold d); cbn; rewrite Hs; cbn;
    destruct (data_ref_count d =? 0).
  - unfold load_master_data. cbn.
    destruct (datastore d), (master_data d), (has_master_data d);
      cbn; rewrite ?Hs; reflexivity.
  - cbn; rewrite ?Hs; reflexivity.
  - rewrite IH. destruct (increment_data_ref_count s) as [s' ev].
    cbn; rewrite ?Hs; reflexivity.
  - cbn; rewrite ?Hs; reflexivity.
Qed.

Lemma decrement_settle (d : DataItem) :
  decrement_data_ref_count (settle d) =
    (settle (decrement_data_ref_count d).1, (decrement_data_ref_count d).2).
Proof.
  induction d as [d Hs|d s Hs IH] using DataItem_chain_ind;
    rewrite (decrement_unfold (settle d)), (decrement_unfold d);
    rewrite (settle_unfold d); cbn; rewrite Hs; cbn;
    destruct (data_ref_count d - 1 =? 0).
  - unfold unload_master_data. cbn.
    destruct (_ && _); cbn; rewrite ?Hs; reflexivity.
  - cbn; rewrite ?Hs; reflexivity.
  - rewrite IH. destruct (decrement_data_ref_count s) as [s' ev].
    cbn; rewrite ?Hs; reflexivity.
  - cbn; rewrite ?Hs; reflexivity.
Qed.

Lemma data_shape_and_dtype_unfold (d : DataItem) :
  data_shape_and_dtype d =
    let root :=
      if has_master_data d then (master_data_shape d, master_data_dtype d)
      else match data_source d with
           | Some s => data_shape_and_dtype s
           | None => (None, None)
           end in
    match root.1 with
    | Some sh =>
        let sd := apply_shape_operations (operations d) (sh, root.2) in
        (Some sd.1, sd.2)
    | None => root
    end.
Proof. destruct d; reflexivity. Qed.

(** The data range written by [__get_data_range_for_data] depends on the
    item through its shape and dtype only. *)
Lemma get_data_range_for_data_frame (a : option ndarray) (d d' : DataItem) :
  data_shape_and_dtype d' = data_shape_and_dtype d ->
  (get_data_range_for_data a d').1 = (get_data_range_for_data a d).1.
Proof.
  intros Hsd. unfold get_data_range_for_data, is_data_rgb_type.
  rewrite Hsd. reflexivity.
Qed.

Lemma get_data_range_for_data_snd (a : option ndarray) (d : DataItem) :
  (get_data_range_for_data a d).2 =
    with_data_range (get_data_range_for_data a d).1 d.
Proof. reflexivity. Qed.

Lemma store_cached_data_frame (a : option ndarray) (d d' : DataItem) :
  data_shape_and_dtype d' = data_shape_and_dtype d ->
  store_cached_data a d' =
    with_cached_data_dirty false
      (with_cached_data a
         (with_data_range (get_data_range_for_data a d).1 d')).
Proof.
  intros Hsd. unfold store_cached_data.
  rewrite get_data_range_for_data_snd,
    (get_data_range_for_data_frame a d d' Hsd).
  reflexivity.
Qed.

(** [__get_data] neither reads nor writes the item's own ref-count. *)
Lemma get_data_ref_count (k : Z) (d : DataItem) :
  get_data (with_data_ref_count k d) =
    ((get_data d).1.1, with_data_ref_count k (get_data d).1.2, (get_data d).2).
Proof.
  rewrite !get_data_unfold. unfold get_data_body.
  change (cached_data_dirty (with_data_ref_count k d)) with (cached_data_dirty d).
  change (cached_data (with_data_ref_count k d)) with (cached_data d).
  destruct (cached_data_dirty d || bool_decide (cached_data d = None));
    [|reflexivity].
  cbn zeta.
  assert (Hroot : root_data get_data (with_data_ref_count k d) =
            ((root_data get_data d).1.1,
             with_data_ref_count k (root_data get_data d).1.2,
             (root_data get_data d).2)).
  { unfold root_data.
    change (has_master_data (with_data_ref_count k d)) with (has_master_data d).
    change (master_data (with_data_ref_count k d)) with (master_data d).
    change (data_source (with_data_ref_count k d)) with (data_source d).
    destruct (if has_master_data d then master_data d else None); [reflexivity|].
    destruct (data_source d) as [s|]; [|reflexivity].
    destruct (with_data_ref get_data s) as [[a s'] ev]. reflexivity. }
  rewrite Hroot. cbn [fst snd].
  destruct (root_data get_data d) as [[data1 d1] ev1]. cbn [fst snd].
  change (operations (with_data_ref_count k d1)) with (operations d1).
  rewrite (store_cached_data_frame _ d1 (with_data_ref_count k d1))
    by (rewrite !(data_shape_and_dtype_unfold (with_data_ref_count k d1)),
          (data_shape_and_dtype_unfold d1); reflexivity).
  rewrite (store_cached_data_frame _ d1 d1) by reflexivity.
  reflexivity.
Qed.

(** What it takes for [__get_data] to return [None]: the cache is stale or
    empty, master data (if the item has any) is not in memory, and the data
    source (if any) has no data either. *)
Lemma get_data_None (d : DataItem) :
  (get_data d).1.1 = None ->
  (has_master_data d = true -> master_data d = None)
  /\ (root_data get_data d).1.1 = None
  /\ get_data d =
       (None, store_cached_data None (root_data get_data d).1.2,
        (root_data get_data d).2 ++ []).
Proof.
  rewrite get_data_unfold. unfold get_data_body.
  destruct (cached_data_dirty d) eqn:Hdirty;
    [|destruct (cached_data d) as [c|] eqn:Hc]; cbn [orb fst snd].
  3: rewrite bool_decide_eq_true_2 by reflexivity.
  2: { rewrite bool_decide_eq_false_2 by discriminate. cbn [fst]. congruence. }
  all: cbn zeta; cbn [cached_data store_cached_data with_cached_data_dirty
                      with_cached_data fst snd];
    destruct (root_data get_data d) as [[[a|] d1] ev1] eqn:Hroot;
    cbn [processed_data fst snd];
    [destruct (apply_operations (reverse (operations d1)) a); discriminate|];
    intros _; (split; [|split; reflexivity]);
    intros Hhas; unfold root_data in Hroot; rewrite Hhas in Hroot;
    destruct (master_data d); [discriminate|reflexivity].
Qed.

Lemma increment_own_count (d : DataItem) :
  data_ref_count (increment_data_ref_count d).1 = data_ref_count d + 1.
Proof.
  rewrite increment_unfold. cbn zeta.
  destruct (data_ref_count d =? 0); [|reflexivity].
  destruct (data_source d) as [s|].
  - destruct (increment_data_ref_count s). reflexivity.
  - apply load_master_data_frame.
Qed.

(** A release undoes an acquire of an item that was already held. *)
Lemma decrement_increment_held (d : DataItem) :
  data_ref_count d <> 0 ->
  (decrement_data_ref_count (increment_data_ref_count d).1).1 = d.
Proof.
  intros Hheld. rewrite increment_unfold. cbn zeta.
  destruct (Z.eqb_spec (data_ref_count d) 0) as [|_]; [contradiction|].
  cbn [fst]. rewrite decrement_unfold. cbn zeta.
  cbn [data_ref_count with_data_ref_count].
  destruct (Z.eqb_spec (data_ref_count d + 1 - 1) 0) as [|_]; [lia|].
  cbn [fst]. replace (data_ref_count d + 1 - 1) with (data_ref_count d) by lia.
  destruct d; reflexivity.
Qed.

(** A release undoes an acquire under which the item had no data: nothing
    was loaded by the acquire and nothing is there for the release to
    unload. *)
Lemma decrement_increment_no_data (d : DataItem) :
  (get_data (increment_data_ref_count d).1).1.1 = None ->
  (decrement_data_ref_count (increment_data_ref_count d).1).1 = d.
Proof.
  induction d as [d Hs|d s Hs IH] using DataItem_chain_ind; intros Hnone;
    (destruct (Z.eq_dec (data_ref_count d) 0) as [Hz|Hheld];
     [|apply decrement_increment_held, Hheld]);
    apply get_data_None in Hnone as (Hmaster & Hroot & _);
    revert Hmaster Hroot; rewrite increment_unfold; cbn zeta;
    rewrite Hz, Hs; cbn [Z.eqb].
  - destruct d as [u cl md mds mdt hm ds ops cd cdd rc cc chg cal st tc dr].
    cbn in Hs, Hz. subst ds rc. unfold load_master_data. cbn.
    destruct st as [store|], md as [a|], hm; cbn; intros Hmaster _;
      try (specialize (Hmaster eq_refl); discriminate);
      rewrite ?decrement_unfold; cbn; unfold unload_master_data; cbn;
      rewrite ?andb_false_r; reflexivity.
  - pose proof (increment_own_count s) as Hcount.
    destruct (increment_data_ref_count s) as [s1 ev1] eqn:Hinc. cbn [fst] in *.
    intros Hmaster Hroot. unfold root_data in Hroot.
    cbn [has_master_data master_data data_source with_data_source
         with_data_ref_count] in Hmaster, Hroot.
    assert (Hd0 : (if has_master_data d then master_data d else None) = None).
    { destruct (has_master_data d); [apply Hmaster|]; reflexivity. }
    rewrite Hd0 in Hroot. unfold with_data_ref in Hroot.
    assert (Hback : (decrement_data_ref_count s1).1 = s).
    { destruct (Z.eq_dec (data_ref_count s) 0) as [Hsz|Hsheld].
      - apply IH. clear IH.
        rewrite increment_unfold in Hroot. cbn zeta in Hroot.
        destruct (Z.eqb_spec (data_ref_count s1) 0) as [|_]; [lia|].
        rewrite get_data_ref_count in Hroot.
        destruct (get_data s1) as [[r1 s2] ev2]. cbn [fst snd] in *.
        destruct (decrement_data_ref_count _). exact Hroot.
      - pose proof (decrement_increment_held s Hsheld) as Hheld.
        rewrite Hinc in Hheld. exact Hheld. }
    rewrite decrement_unfold. cbn zeta.
    cbn [data_ref_count data_source with_data_source with_data_ref_count].
    cbn [Z.eqb Z.add Z.sub Z.opp Z.pos_sub].
    destruct (decrement_data_ref_count s1) as [s' ev']. cbn [fst] in *.
    subst s'. rewrite <- Hz. destruct d; cbn in *; subst; reflexivity.
Qed.

Lemma get_data_None_intro (d : DataItem) :
  cached_data d = None ->
  (root_data get_data d).1.1 = None ->
  (get_data d).1.1 = None.
Proof.
  intros Hc Hroot. rewrite get_data_unfold. unfold get_data_body.
  rewrite Hc, bool_decide_eq_true_2, orb_true_r by reflexivity. cbn zeta.
  rewrite Hroot. reflexivity.
Qed.

Lemma store_cached_data_None (d : DataItem) :
  store_cached_data None d =
    with_cached_data_dirty false (with_cached_data None (with_data_range None d)).
Proof. reflexivity. Qed.

(** When [__get_data] finds no data, it calls no operation and leaves the
    chain settled, and on the settled chain it finds no data again. *)
Lemma get_data_no_data (n : nat) :
  forall d : DataItem,
    (depth d < n)%nat ->
    (get_data d).1.1 = None ->
    (get_data d).1.2 = settle d
    /\ process_data_calls (get_data d).2 = []
    /\ (get_data (settle d)).1.1 = None.
Proof.
  induction n as [|n IH]; intros d Hn Hnone; [lia|].
  destruct (get_data_None d Hnone) as (Hmaster & Hroot & Heq).
  rewrite Heq. cbn [fst snd]. clear Heq.
  assert (Hd0 : (if has_master_data d then master_data d else None) = None).
  { destruct (has_master_data d); [apply Hmaster|]; reflexivity. }
  assert (Hsettled : (if has_master_data (settle d) then master_data (settle d)
                      else None) = None).
  { rewrite (settle_unfold d). exact Hd0. }
  revert Hroot. unfold root_data at 1 2 3. rewrite Hd0.
  destruct (data_source d) as [s|] eqn:Hs.
  - unfold with_data_ref.
    pose proof (increment_depth s) as Hdepth.
    pose proof (increment_no_process_data s) as Hev1.
    pose proof (increment_settle s) as Hcomm1.
    pose proof (decrement_increment_no_data s) as Hback.
    destruct (increment_data_ref_count s) as [s1 ev1]. cbn [fst snd] in *.
    specialize (IH s1). rewrite depth_unfold, Hs in Hn.
    destruct (get_data s1) as [[r s2] ev2] eqn:Hget. cbn [fst snd] in *.
    pose proof (decrement_no_process_data s2) as Hev3.
    pose proof (decrement_settle s1) as Hcomm3.
    destruct (decrement_data_ref_count s2) as [s3 ev3] eqn:Hdec.
    cbn [fst snd]. intros ->.
    destruct IH as (Hs2 & Hev2 & Hagain); [lia | reflexivity |].
    subst s2. rewrite Hcomm3 in Hdec. injection Hdec as <- <-.
    rewrite Hback by reflexivity.
    split; [|split].
    + rewrite store_cached_data_None, (settle_unfold d), Hs.
      destruct d; reflexivity.
    + rewrite !process_data_calls_app, Hev1, Hev2,
        (decrement_no_process_data s1). reflexivity.
    + apply get_data_None_intro; [rewrite (settle_unfold d); reflexivity|].
      unfold root_data. rewrite Hsettled.
      replace (data_source (settle d)) with (Some (settle s))
        by (rewrite (settle_unfold d), Hs; reflexivity).
      unfold with_data_ref. rewrite Hcomm1.
      destruct (get_data (settle s1)) as [[r' s2'] ev2']. cbn [fst] in Hagain.
      subst r'. destruct (decrement_data_ref_count s2'). reflexivity.
  - intros _. split; [|split].
    + rewrite store_cached_data_None, (settle_unfold d), Hs.
      destruct d; cbn in Hs; subst; reflexivity.
    + reflexivity.
    + apply get_data_None_intro; [rewrite (settle_unfold d); reflexivity|].
      unfold root_data. rewrite Hsettled.
      replace (data_source (settle d)) with (@None DataItem)
        by (rewrite (settle_unfold d), Hs; reflexivity).
      reflexivity.
Qed.

(** When [__get_data] returns an array, the array is cached and the cache is
    clean. *)
Lemma get_data_Some (d : DataItem) (a : ndarray) :
  (get_data d).1.1 = Some a ->
  cached_data (get_data d).1.2 = Some a
  /\ cached_data_dirty (get_data d).1.2 = false.
Proof.
  rewrite get_data_unfold. unfold get_data_body.
  destruct (cached_data_dirty d) eqn:Hdirty; cbn [orb].
  - cbn zeta. cbn [fst snd]. intros Ha. split; [exact Ha|reflexivity].
  - destruct (bool_decide (cached_data d = None)).
    + cbn zeta. cbn [fst snd]. intros Ha. split; [exact Ha|reflexivity].
    + cbn [fst snd]. intros Ha. split; [exact Ha|exact Hdirty].
Qed.

(** On a clean cache that holds an array, [__get_data] returns it at once. *)
Lemma get_data_cached (d : DataItem) (a : ndarray) :
  cached_data d = Some a ->
  cached_data_dirty d = false ->
  get_data d = (Some a, d, []).
Proof.
  intros Hc Hdirty. rewrite get_data_unfold. unfold get_data_body.
  rewrite Hc, Hdirty, bool_decide_eq_false_2 by discriminate. reflexivity.
Qed.

(** C7. A second [__get_data] right after a first returns the same result
    and leaves the item as the first call left it, without calling
    [process_data] of any operation; when the first call returned an array,
    the second call calls nothing at all. *)
Theorem C7_get_data_is_memoized (d : DataItem) :
  let first := get_data d in
  let second := get_data first.1.2 in
  second.1.1 = first.1.1
  /\ second.1.2 = first.1.2
  /\ process_data_calls second.2 = []
  /\ (first.1.1 = None \/ second.2 = []).
Proof.
  cbn zeta. destruct (get_data d).1.1 as [a|] eqn:Hfirst.
  - destruct (get_data_Some d a Hfirst) as [Hc Hdirty].
    rewrite (get_data_cached _ a Hc Hdirty). cbn [fst snd].
    repeat split. right. reflexivity.
  - destruct (get_data_no_data (S (depth d)) d) as (Hstate & _ & Hagain);
      [lia | exact Hfirst |].
    rewrite Hstate.
    destruct (get_data_no_data (S (depth (settle d))) (settle d))
      as (Hstate' & Hcalls' & _); [lia | exact Hagain |].
    rewrite settle_idempotent in Hstate'.
    split; [exact Hagain|]. split; [exact Hstate'|]. split; [exact Hcalls'|].
    left. reflexivity.
Qed.

End Memoization.

(** * Symbolic nodes *)

Section SymbolicClaims.

(** C5 (code defect). [ConstantDataNode.read] restores the scalar and never
    the scalar type.  Every integer constant is written as a record with
    scalar type ["integral"] and its value; reading the record back gives a
    constant whose scalar type is not set, which is not the node that was
    written, and writing it again raises AttributeError.  The same happens
    to the tree of ["a + 2"].  A complex constant is written but cannot be
    read back at all. *)
Theorem C5_constant_loses_its_scalar_type (u z : Z) :
  let constant := new_ConstantDataNode u (PyInt z) in
  let record :=
    Build_NodeDict (Some u) None (Some "constant") (Some "integral")
      (Some (PyInt z)) None None None None in
  write constant = Ok record
  /\ factory record = Ok (ConstantDataNode u [] (PyInt z) None)
  /\ factory record <> Ok constant
  /\ (d ← write constant; n ← factory d; write n) = Raise AttributeError
  /\ (exists d n, write a_plus_2 = Ok d /\ factory d = Ok n /\ n <> a_plus_2
                  /\ write n = Raise AttributeError)
  /\ (d ← write (new_ConstantDataNode u (PyComplex z z)); factory d)
       = Raise TypeError.
Proof.
  cbn zeta. split; [reflexivity|]. split; [reflexivity|].
  split; [discriminate|]. split; [reflexivity|].
  split; [|reflexivity].
  eexists _, _. split; [vm_compute; reflexivity|].
  split; [vm_compute; reflexivity|].
  split; [intros Heq; vm_compute in Heq; discriminate|reflexivity].
Qed.




End SymbolicClaims.

(** * What the mutators keep *)

Section Frames.
Context `{Image : ImageModule}.

Lemma skeleton_unfold (d : DataItem) :
  skeleton d =
    Build_DataItem (uuid d) (closed d) None (master_data_shape d)
      (master_data_dtype d) (has_master_data d) (skeleton <$> data_source d)
      (operations d) None false 0 0 ∅
      (intrinsic_spatial_calibrations d) (datastore d) (transaction_count d)
      None.
Proof. destruct d as [? ? ? ? ? ? [s|]]; reflexivity. Qed.

Lemma skeleton_shape (d : DataItem) :
  data_shape_and_dtype (skeleton d) = data_shape_and_dtype d.
Proof.
  induction d as [d Hs|d s Hs IH] using DataItem_chain_ind;
    rewrite (data_shape_and_dtype_unfold (skeleton d)),
      (data_shape_and_dtype_unfold d), (skeleton_unfold d), Hs; cbn.
  - reflexivity.
  - rewrite IH. reflexivity.
Qed.

Lemma skeleton_eq_shape (d d' : DataItem) :
  skeleton d' = skeleton d -> data_shape_and_dtype d' = data_shape_and_dtype d.
Proof. intros H. rewrite <- (skeleton_shape d'), H. apply skeleton_shape. Qed.

Lemma skeleton_eq_fields (d d' : DataItem) :
  skeleton d' = skeleton d ->
  has_master_data d' = has_master_data d
  /\ intrinsic_spatial_calibrations d' = intrinsic_spatial_calibrations d
  /\ closed d' = closed d
  /\ (data_source d' = None <-> data_source d = None).
Proof.
  rewrite (skeleton_unfold d'), (skeleton_unfold d). intros H.
  injection H as Hu Hc Hsh Hdt Hhas Hsrc Hops Hcal Hst Htc.
  repeat split; auto.
  - intros Hn. rewrite Hn in Hsrc. destruct (data_source d); [discriminate|reflexivity].
  - intros Hn. rewrite Hn in Hsrc. destruct (data_source d'); [discriminate|reflexivity].
Qed.

Lemma skeleton_load (d : DataItem) :
  skeleton (load_master_data d).1 = skeleton d.
Proof.
  unfold load_master_data.
  destruct (datastore d), (master_data d), (has_master_data d);
    destruct d; reflexivity.
Qed.

Lemma skeleton_unload (d : DataItem) :
  skeleton (unload_master_data d).1 = skeleton d.
Proof.
  unfold unload_master_data. destruct (_ && _); destruct d; reflexivity.
Qed.

Lemma skeleton_increment (d : DataItem) :
  skeleton (increment_data_ref_count d).1 = skeleton d.
Proof.
  induction d as [d Hs|d s Hs IH] using DataItem_chain_ind;
    rewrite increment_unfold, Hs; cbn zeta;
    destruct (data_ref_count d =? 0).
  - rewrite skeleton_load. destruct d; reflexivity.
  - destruct d; reflexivity.
  - destruct (increment_data_ref_count s) as [s' ev]. cbn [fst] in *.
    rewrite (skeleton_unfold (with_data_source _ _)), (skeleton_unfold d), Hs.
    cbn. rewrite IH. reflexivity.
  - destruct d; reflexivity.
Qed.

Lemma skeleton_decrement (d : DataItem) :
  skeleton (decrement_data_ref_count d).1 = skeleton d.
Proof.
  induction d as [d Hs|d s Hs IH] using DataItem_chain_ind;
    rewrite decrement_unfold, Hs; cbn zeta;
    destruct (data_ref_count d - 1 =? 0).
  - rewrite skeleton_unload. destruct d; reflexivity.
  - destruct d; reflexivity.
  - destruct (decrement_data_ref_count s) as [s' ev]. cbn [fst] in *.
    rewrite (skeleton_unfold (with_data_source _ _)), (skeleton_unfold d), Hs.
    cbn. rewrite IH. reflexivity.
  - destruct d; reflexivity.
Qed.

Lemma skeleton_get_data_fuel (n : nat) :
  forall d : DataItem, skeleton (get_data_fuel n d).1.2 = skeleton d.
Proof.
  induction n as [|n IH]; intros d; [reflexivity|].
  cbn [get_data_fuel]. unfold get_data_body.
  destruct (_ || _); [|reflexivity]. cbn zeta. cbn [fst snd].
  unfold store_cached_data. rewrite get_data_range_for_data_snd.
  assert (Hroot : skeleton (root_data (get_data_fuel n) d).1.2 = skeleton d).
  { unfold root_data.
    destruct (if has_master_data d then master_data d else None); [reflexivity|].
    destruct (data_source d) as [s|] eqn:Hs; [|reflexivity].
    unfold with_data_ref.
    pose proof (skeleton_increment s) as Hinc.
    destruct (increment_data_ref_count s) as [s1 ev1]. cbn [fst] in Hinc.
    pose proof (IH s1) as Hget.
    destruct (get_data_fuel n s1) as [[r s2] ev2]. cbn [fst snd] in Hget.
    pose proof (skeleton_decrement s2) as Hdec.
    destruct (decrement_data_ref_count s2) as [s3 ev3]. cbn [fst snd] in *.
    rewrite (skeleton_unfold (with_data_source _ _)), (skeleton_unfold d), Hs.
    cbn. rewrite Hdec, Hget, Hinc. reflexivity. }
  rewrite <- Hroot.
  destruct (root_data (get_data_fuel n) d).1.2. reflexivity.
Qed.

Lemma skeleton_get_data (d : DataItem) :
  skeleton (get_data d).1.2 = skeleton d.
Proof. apply skeleton_get_data_fuel. Qed.

Lemma skeleton_begin (d : DataItem) :
  skeleton (begin_data_item_changes d) = skeleton d.
Proof. destruct d; reflexivity. Qed.

Lemma skeleton_end (d : DataItem) :
  skeleton (end_data_item_changes d).1 = skeleton d.
Proof.
  unfold end_data_item_changes. cbn zeta.
  destruct (_ =? 0); [destruct (_ || _)|]; destruct d; reflexivity.
Qed.

Lemma skeleton_notify (changes : gset Z) (d : DataItem) :
  skeleton (notify_data_item_content_changed changes d).1 = skeleton d.
Proof.
  unfold notify_data_item_content_changed. cbn zeta.
  rewrite skeleton_end. destruct d; reflexivity.
Qed.

Lemma skeleton_notify_set_property (key : string) (d : DataItem) :
  skeleton (notify_set_property key d).1 = skeleton d.
Proof.
  unfold notify_set_property.
  pose proof (skeleton_notify {[METADATA]} d) as H.
  destruct (notify_data_item_content_changed _ d). exact H.
Qed.

Lemma skeleton_get_data_range (d : DataItem) :
  skeleton (get_data_range d).1.2 = skeleton d.
Proof.
  unfold get_data_range. destruct (data_range d); [reflexivity|].
  pose proof (skeleton_increment d) as Hinc.
  destruct (increment_data_ref_count d) as [d1 ev1]. cbn [fst] in Hinc.
  pose proof (skeleton_get_data d1) as Hget.
  destruct (get_data d1) as [[a d2] ev2]. cbn [fst snd] in Hget.
  rewrite (surjective_pairing (get_data_range_for_data a d2)).
  rewrite get_data_range_for_data_snd.
  pose proof (skeleton_decrement
                (with_data_range (get_data_range_for_data a d2).1 d2)) as Hdec.
  destruct (decrement_data_ref_count _) as [d4 ev3]. cbn [fst snd] in *.
  rewrite Hdec, <- Hinc, <- Hget. destruct d2; reflexivity.
Qed.

(** The change accumulator writes the depth, the pending set and the dirty
    mark of the data cache, nothing else. *)
Lemma end_data_item_changes_frame (d : DataItem) :
  exists k changes dirty,
    (end_data_item_changes d).1 =
      with_cached_data_dirty dirty
        (with_data_item_changes changes (with_data_item_change_count k d)).
Proof.
  unfold end_data_item_changes. cbn zeta.
  destruct (_ =? 0); [destruct (_ || _)|].
  - exists (data_item_change_count d - 1), ∅, true. destruct d; reflexivity.
  - exists (data_item_change_count d - 1), ∅, (cached_data_dirty d).
    destruct d; reflexivity.
  - exists (data_item_change_count d - 1), (data_item_changes d),
      (cached_data_dirty d).
    destruct d; reflexivity.
Qed.

Lemma notify_frame (changes : gset Z) (d : DataItem) :
  exists k pending dirty,
    (notify_data_item_content_changed changes d).1 =
      with_cached_data_dirty dirty
        (with_data_item_changes pending (with_data_item_change_count k d)).
Proof.
  unfold notify_data_item_content_changed. cbn zeta.
  destruct (end_data_item_changes_frame
              (with_data_item_changes
                 (data_item_changes (begin_data_item_changes d) ∪ changes)
                 (begin_data_item_changes d))) as (k & p & b & ->).
  exists k, p, b. destruct d; reflexivity.
Qed.

Lemma list_remove_length (x : Calibration) (l : list Calibration) :
  x ∈ l -> S (length (list_remove x l)) = length l.
Proof.
  induction l as [|y l IH]; intros Hin; [set_solver|].
  cbn. destruct (decide (y = x)) as [->|Hne]; [reflexivity|].
  cbn. rewrite IH; [reflexivity|]. set_solver.
Qed.

Lemma remove_last_while_length (n ndim : nat) :
  forall l : list Calibration,
    (length l <= ndim + n)%nat -> (ndim <= length l)%nat ->
    length (remove_last_while n ndim l) = ndim.
Proof.
  induction n as [|n IH]; intros l Hhi Hlo; cbn [remove_last_while]; [lia|].
  destruct (Nat.ltb_spec ndim (length l)) as [Hlt|Hge]; [|lia].
  destruct (last l) as [x|] eqn:Hlast.
  - pose proof (list_remove_length x l (last_Some_elem_of l x Hlast)) as Hlen.
    apply IH; lia.
  - apply last_None in Hlast. subst l. cbn in Hlt. lia.
Qed.

Lemma remove_last_while_short (n ndim : nat) (l : list Calibration) :
  (length l <= ndim)%nat -> remove_last_while n ndim l = l.
Proof.
  intros Hle. destruct n as [|n]; [reflexivity|]. cbn [remove_last_while].
  destruct (Nat.ltb_spec ndim (length l)); [lia|reflexivity].
Qed.

(** [sync_intrinsic_spatial_calibrations] on an item that is not closed:
    the list gets the length of the spatial shape, a list that was too short
    keeps its entries and is padded with identity calibrations, and nothing
    the shape depends on changes. *)
Lemma sync_intrinsic_spatial_calibrations_spec (d : DataItem) :
  let d' := (sync_intrinsic_spatial_calibrations d).1 in
  (closed d = false -> length (intrinsic_spatial_calibrations d') = spatial_ndim d)
  /\ ((length (intrinsic_spatial_calibrations d) <= spatial_ndim d)%nat ->
      closed d = false ->
      intrinsic_spatial_calibrations d' =
        intrinsic_spatial_calibrations d ++
        replicate (spatial_ndim d - length (intrinsic_spatial_calibrations d))
          Calibration_default)
  /\ skeleton d' =
       with_intrinsic_spatial_calibrations (intrinsic_spatial_calibrations d')
         (skeleton d)
  /\ data_source d' = data_source d
  /\ master_data d' = master_data d.
Proof.
  cbn zeta. unfold sync_intrinsic_spatial_calibrations.
  fold (spatial_ndim d). cbn zeta.
  set (l := intrinsic_spatial_calibrations d).
  set (ndim := spatial_ndim d).
  destruct (Nat.eqb_spec (length l) ndim) as [Heq|Hne]; cbn [negb andb fst].
  { repeat split; auto.
    - intros _ _. replace (ndim - length l)%nat with 0%nat by lia.
      rewrite app_nil_r. reflexivity.
    - destruct d; reflexivity. }
  destruct (closed d) eqn:Hclosed; cbn [negb fst].
  { repeat split; try discriminate. destruct d; reflexivity. }
  set (l2 := remove_last_while _ ndim _).
  destruct (notify_frame {[METADATA]} (with_intrinsic_spatial_calibrations l2 d))
    as (k & p & b & Hn).
  destruct (notify_data_item_content_changed _ _) as [d2 ev]. cbn [fst] in *.
  subst d2. cbn [intrinsic_spatial_calibrations with_cached_data_dirty
    with_data_item_changes with_data_item_change_count
    with_intrinsic_spatial_calibrations data_source master_data].
  repeat split.
  - intros _. subst l2. apply remove_last_while_length;
      rewrite length_app, length_replicate; lia.
  - intros Hle _. subst l2. apply remove_last_while_short.
    rewrite length_app, length_replicate. lia.
  - destruct d; reflexivity.
Qed.

Lemma spatial_ndim_frame (d d' : DataItem) :
  data_shape_and_dtype d' = data_shape_and_dtype d ->
  spatial_ndim d' = spatial_ndim d.
Proof. intros H. unfold spatial_ndim, spatial_shape. rewrite H. reflexivity. Qed.

(** What [__set_master_data] does after its synchronization of the
    calibrations keeps the skeleton of the item. *)
Lemma set_master_data_tail (d2 : DataItem) :
  let after_range :=
    match master_data d2 with
    | Some _ =>
        let '(_, d21, e1) := get_data_range d2 in
        let '(d22, e2) := notify_set_property "data_range" d21 in
        (d22, NotifySetDataReference (uuid d2) :: e1 ++ e2)
    | None => (d2, [])
    end in
  skeleton (end_data_item_changes
              (notify_data_item_content_changed {[DATA]} after_range.1).1).1
  = skeleton d2.
Proof.
  cbn zeta. rewrite skeleton_end, skeleton_notify.
  destruct (master_data d2); [|reflexivity].
  pose proof (skeleton_get_data_range d2) as Hrange.
  destruct (get_data_range d2) as [[r d21] e1]. cbn [fst snd] in Hrange.
  pose proof (skeleton_notify_set_property "data_range" d21) as Hprop.
  destruct (notify_set_property "data_range" d21) as [d22 e2].
  cbn [fst] in *. rewrite Hprop. exact Hrange.
Qed.

(** After [__set_master_data] has stored an array, the calibration list is
    as long as the spatial shape of the item's data. *)
Lemma set_master_data_synchronizes (a : ndarray) (d : DataItem) :
  (set_master_data (Some a) d).1.1 = Ok () ->
  length (intrinsic_spatial_calibrations (set_master_data (Some a) d).1.2) =
    spatial_ndim (set_master_data (Some a) d).1.2.
Proof.
  unfold set_master_data. cbn zeta.
  rewrite (bool_decide_eq_true_2 (Some a <> None)) by discriminate.
  rewrite andb_true_r. cbn [andb].
  destruct (closed (begin_data_item_changes d)) eqn:Hclosed; cbn [orb].
  { destruct (end_data_item_changes _). discriminate. }
  destruct (bool_decide (data_source (begin_data_item_changes d) <> None)).
  { destruct (end_data_item_changes _). discriminate. }
  intros _.
  set (d1 := with_has_master_data true _).
  destruct (sync_intrinsic_spatial_calibrations_spec d1)
    as (Hlen & _ & Hskel & _ & _).
  destruct (sync_intrinsic_spatial_calibrations d1) as [d2 ev1]. cbn [fst] in *.
  pose proof (set_master_data_tail d2) as Htail. cbn zeta in Htail.
  destruct (match master_data d2 with Some _ => _ | None => _ end) as [d3 ev2].
  cbn [fst] in Htail.
  destruct (notify_data_item_content_changed {[DATA]} d3) as [d4 ev3].
  cbn [fst] in Htail.
  destruct (end_data_item_changes d4) as [d5 ev4]. cbn [fst snd] in *.
  destruct (skeleton_eq_fields d2 d5 Htail) as (_ & Hcal & _ & _).
  rewrite Hcal, (spatial_ndim_frame d2 d5 (skeleton_eq_shape d2 d5 Htail)).
  rewrite Hlen by exact Hclosed.
  symmetry. apply spatial_ndim_frame.
  rewrite <- (skeleton_shape d2), Hskel,
    (data_shape_and_dtype_unfold (with_intrinsic_spatial_calibrations _ _)).
  cbn [has_master_data master_data_shape master_data_dtype data_source
       operations with_intrinsic_spatial_calibrations].
  rewrite <- (skeleton_shape d1), (data_shape_and_dtype_unfold (skeleton d1)).
  reflexivity.
Qed.

(** The two mutators that carry the assertion refuse the second kind of
    data, and whatever they are asked and however they end they leave an
    item on which master data and data source exclude each other. *)
Lemma set_master_data_with_source_raises (a : ndarray) (d s : DataItem) :
  data_source d = Some s ->
  (set_master_data (Some a) d).1.1 = Raise AssertionError.
Proof.
  intros Hs. unfold set_master_data. cbn zeta.
  replace (data_source (begin_data_item_changes d)) with (Some s)
    by (rewrite <- Hs; destruct d; reflexivity).
  rewrite !bool_decide_eq_true_2 by discriminate. rewrite orb_true_r.
  destruct (end_data_item_changes _). reflexivity.
Qed.

Lemma set_data_source_with_master_raises (s d : DataItem) :
  has_master_data d = true ->
  (set_data_source (Some s) d).1.1 = Raise AssertionError.
Proof.
  intros Hhas. unfold set_data_source.
  rewrite Hhas, bool_decide_eq_true_2 by discriminate. reflexivity.
Qed.

Lemma exclusive_skeleton (d d' : DataItem) :
  skeleton d' = skeleton d -> exclusive d -> exclusive d'.
Proof.
  intros Hskel Hex Hhas.
  destruct (skeleton_eq_fields d d' Hskel) as (Hh & _ & _ & Hsrc).
  apply Hsrc, Hex. rewrite <- Hh. exact Hhas.
Qed.

Lemma exclusive_set_master_data (new_data : option ndarray) (d : DataItem) :
  exclusive d -> exclusive (set_master_data new_data d).1.2.
Proof.
  intros Hex. unfold set_master_data. cbn zeta.
  destruct (_ || _) eqn:Hassert.
  - pose proof (skeleton_end (begin_data_item_changes d)) as Hend.
    destruct (end_data_item_changes _) as [d1 ev]. cbn [fst snd] in *.
    apply (exclusive_skeleton d); [|exact Hex].
    rewrite Hend. apply skeleton_begin.
  - set (d1 := with_has_master_data _ _).
    assert (Hex1 : exclusive d1).
    { intros Hhas. subst d1. cbn in Hhas.
      apply bool_decide_eq_true in Hhas.
      apply orb_false_iff in Hassert as [_ Hsrc].
      rewrite (bool_decide_eq_true_2 _ Hhas) in Hsrc. cbn in Hsrc.
      apply bool_decide_eq_false in Hsrc.
      destruct (data_source d) eqn:Hs;
        [exfalso; apply Hsrc; discriminate|].
      destruct d; exact Hs. }
    destruct (sync_intrinsic_spatial_calibrations_spec d1)
      as (_ & _ & Hskel & Hsrc & _).
    destruct (sync_intrinsic_spatial_calibrations d1) as [d2 ev1]. cbn [fst] in *.
    assert (Hex2 : exclusive d2).
    { intros Hhas. rewrite Hsrc. apply Hex1.
      apply (f_equal has_master_data) in Hskel.
      rewrite (skeleton_unfold d2) in Hskel. cbn in Hskel.
      rewrite Hskel in Hhas. exact Hhas. }
    pose proof (set_master_data_tail d2) as Htail. cbn zeta in Htail.
    destruct (match master_data d2 with Some _ => _ | None => _ end) as [d3 ev2].
    cbn [fst] in Htail.
    destruct (notify_data_item_content_changed {[DATA]} d3) as [d4 ev3].
    cbn [fst] in Htail.
    destruct (end_data_item_changes d4) as [d5 ev4]. cbn [fst snd] in *.
    apply (exclusive_skeleton d2); assumption.
Qed.

Lemma exclusive_set_data_source (new_source : option DataItem) (d : DataItem) :
  exclusive d -> exclusive (set_data_source new_source d).1.2.
Proof.
  intros Hex. unfold set_data_source.
  destruct (bool_decide (new_source <> None) && has_master_data d) eqn:Hassert;
    [exact Hex|].
  destruct new_source as [s|].
  - rewrite bool_decide_eq_true_2 in Hassert by discriminate.
    cbn in Hassert.
    set (d2 := with_data_source (Some s) _).
    assert (Hhas2 : has_master_data d2 = false).
    { subst d2. destruct (data_source d); destruct d; exact Hassert. }
    unfold data_item_content_changed.
    destruct (sync_intrinsic_spatial_calibrations_spec d2)
      as (_ & _ & Hskel & _ & _).
    destruct (sync_intrinsic_spatial_calibrations d2) as [d3 ev1]. cbn [fst] in *.
    assert (Hhas3 : has_master_data d3 = false).
    { apply (f_equal has_master_data) in Hskel.
      rewrite (skeleton_unfold d3) in Hskel. cbn in Hskel.
      rewrite Hskel. exact Hhas2. }
    destruct (bool_decide (Some (uuid s) = uuid <$> data_source d3));
      [destruct (bool_decide (DATA ∈ ({[SOURCE]} : gset Z)))|]; cbn [fst snd].
    + pose proof (skeleton_notify {[SOURCE]} d3) as Hn.
      destruct (notify_data_item_content_changed _ d3) as [d4 ev2].
      cbn [fst snd] in *. intros Hhas.
      apply (f_equal has_master_data) in Hn.
      rewrite (skeleton_unfold d4), (skeleton_unfold d3) in Hn. cbn in Hn.
      congruence.
    + intros Hhas. congruence.
    + intros Hhas. congruence.
  - cbn [fst snd]. intros Hhas.
    destruct (data_source d); [destruct d; reflexivity|].
    apply Hex, Hhas.
Qed.

End Frames.

(** * Round trip of trees without constants *)

Section RoundTrip.

Lemma write_unfold (n : DataNode) :
  write n =
    match n with
    | ConstantDataNode u ins scalar scalar_type =>
        ds ← write_list ins; constant_dict u ds scalar scalar_type
    | ScalarOperationDataNode u ins f a =>
        ds ← write_list ins; Ok (operation_dict "scalar" u ds f a)
    | UnaryOperationDataNode u ins f a =>
        ds ← write_list ins; Ok (operation_dict "unary" u ds f a)
    | BinaryOperationDataNode u ins f a =>
        ds ← write_list ins; Ok (operation_dict "binary" u ds f a)
    | FunctionOperationDataNode u ins f a =>
        ds ← write_list ins; Ok (operation_dict "function" u ds f a)
    | DataItemDataNode u ins o _ =>
        ds ← write_list ins;
        Ok (set_object_specifier o (set_data_node_type "data" (base_dict u ds)))
    | ReferenceDataNode _ _ _ => Raise TypeError
    | PropertyDataNode u ins o p _ =>
        ds ← write_list ins;
        Ok (set_property p
              (set_object_specifier o
                 (set_data_node_type "property" (base_dict u ds))))
    end.
Proof.
  assert (Hlist : forall l,
             (fix write_inputs (l : list DataNode) : result (list NodeDict) :=
                match l with
                | [] => Ok []
                | x :: l' => d ← write x; ds ← write_inputs l'; Ok (d :: ds)
                end) l = write_list l).
  { induction l as [|x l IH]; [reflexivity|]. cbn [write_list]. rewrite <- IH.
    reflexivity. }
  destruct n; cbn [write]; rewrite ?Hlist; reflexivity.
Qed.

Lemma read_node_unfold (n : DataNode) (d : NodeDict) :
  read_node n d =
    match n with
    | ReferenceDataNode _ _ _ => Raise TypeError
    | _ =>
        u ← dict_item (d_uuid d);
        ins ← match d_inputs d with
              | Some input_dicts => read_list input_dicts
              | None => Ok []
              end;
        read_fields n u ins d
    end.
Proof.
  assert (Hlist : forall l,
             (fix read_inputs (l : list NodeDict) : result (list DataNode) :=
                match l with
                | [] => Ok []
                | x :: l' =>
                    m ← factory_with read_node x;
                    m' ← read_node m x;
                    ms ← read_inputs l';
                    Ok (m' :: ms)
                end) l = read_list l).
  { induction l as [|x l IH]; [reflexivity|]. cbn [read_list]. rewrite <- IH.
    reflexivity. }
  destruct d as [u ins t st v f a o p].
  destruct n; cbn [read_node d_inputs d_uuid]; try reflexivity;
    destruct ins as [l|]; rewrite ?Hlist; reflexivity.
Qed.

(** Induction on a tree of nodes. *)
Lemma DataNode_tree_ind (P : DataNode -> Prop) :
  (forall n, Forall P (node_inputs n) -> P n) ->
  forall n, P n.
Proof.
  intros Hstep. fix IH 1. intros n. apply Hstep.
  assert (Hall : forall l : list DataNode, Forall P l).
  { fix IHl 1. intros [|x l]; constructor; [apply IH | apply IHl]. }
  apply Hall.
Qed.

Lemma round_trips_list (ins : list DataNode) :
  Forall round_trips ins ->
  exists ds,
    write_list ins = Ok ds /\ read_list ds = Ok ins
    /\ (ds = [] -> ins = []).
Proof.
  induction 1 as [|x l (d & Hw & Hf & Hr) _ (ds & Hws & Hrs & _)].
  - exists []. repeat split.
  - exists (d :: ds). cbn [write_list read_list].
    rewrite Hw, Hws, Hf. cbn. rewrite Hr. cbn. rewrite Hrs. cbn.
    repeat split. discriminate.
Qed.

Lemma read_inputs_of_base_dict (u : Z) (ins : list DataNode) (ds : list NodeDict) :
  read_list ds = Ok ins -> (ds = [] -> ins = []) ->
  match d_inputs (base_dict u ds) with
  | Some input_dicts => read_list input_dicts
  | None => Ok []
  end = Ok ins.
Proof.
  intros Hread Hnil. unfold base_dict. cbn [d_inputs].
  destruct ds as [|d ds]; [rewrite Hnil by reflexivity; reflexivity|].
  rewrite bool_decide_eq_false_2 by discriminate. exact Hread.
Qed.

Lemma default_args (a : gmap string pyvalue) :
  default ∅ (if bool_decide (a = ∅) then None else Some a) = a.
Proof. case_bool_decide; [subst|]; reflexivity. Qed.

(** On trees of operation, data and property nodes, [read] inverts
    [write]. *)
Lemma operations_only_round_trips (n : DataNode) :
  operations_only n = true -> round_trips n.
Proof.
  induction n as [n IH] using DataNode_tree_ind. intros Hok.
  assert (Hins : forallb operations_only (node_inputs n) = true).
  { destruct n; cbn in Hok |- *; try discriminate;
      apply andb_true_iff in Hok; apply Hok. }
  assert (Hall : Forall round_trips (node_inputs n)).
  { rewrite forallb_forall in Hins. rewrite Forall_forall in IH |- *.
    intros x Hx. apply IH; [exact Hx|]. apply Hins, list_elem_of_In, Hx. }
  destruct (round_trips_list _ Hall) as (ds & Hws & Hrs & Hnil).
  clear IH Hins Hall.
  destruct n as [u ins sc st|u ins f a|u ins f a|u ins f a|u ins f a
                 |u ins o b|u ins o|u ins o p b];
    cbn [node_inputs operations_only] in *; try discriminate;
    apply andb_true_iff in Hok as [Hkey _];
    try (apply bool_decide_eq_true in Hkey; subst b);
    eexists; (split; [rewrite write_unfold, Hws; reflexivity|]);
    unfold factory, factory_with;
    cbn [d_data_node_type operation_dict set_args set_function_id
         set_data_node_type set_object_specifier set_property base_dict mbind
         result_bind dict_item];
    (split; [change (default_node _) with (Some (ScalarOperationDataNode 0 [] None ∅))
             || change (default_node _) with (Some (UnaryOperationDataNode 0 [] None ∅))
             || change (default_node _) with (Some (BinaryOperationDataNode 0 [] None ∅))
             || change (default_node _) with (Some (FunctionOperationDataNode 0 [] None ∅))
             || change (default_node _) with (Some (DataItemDataNode 0 [] None None))
             || change (default_node _) with (Some (PropertyDataNode 0 [] None "None" None))
            |]);
    cbv beta iota; rewrite read_node_unfold;
    cbn [d_uuid dict_item mbind result_bind operation_dict set_args
         set_function_id set_data_node_type set_object_specifier set_property
         base_dict];
    match goal with
    | |- context [match ?x with Some _ => _ | None => Ok [] end] =>
        replace (match x with Some l => read_list l | None => Ok [] end)
          with (Ok ins : result (list DataNode))
          by (symmetry; apply (read_inputs_of_base_dict u ins ds Hrs Hnil))
    end;
    cbn [mbind result_bind read_fields d_function_id d_args d_object_specifier
         d_property dict_item operation_dict set_args set_function_id
         set_data_node_type set_object_specifier set_property base_dict];
    rewrite ?Hkey, ?default_args; reflexivity.
Qed.

(** On such trees the reconstructed tree is the original, and writing it
    again gives the same record. *)
Lemma operations_only_second_write (n : DataNode) :
  operations_only n = true ->
  exists d, write n = Ok d
            /\ factory d = Ok n
            /\ (n' ← factory d; write n') = Ok d.
Proof.
  intros Hok. destruct (operations_only_round_trips n Hok) as (d & Hw & Hf & _).
  exists d. rewrite Hf. cbn. auto.
Qed.

End RoundTrip.

(** * File names of master data *)

Section UuidEncode.

Lemma char_index_get (alphabet : string) :
  NoDup (String.list_ascii_of_string alphabet) ->
  forall (i : nat) (c : Ascii.ascii),
    String.get i alphabet = Some c -> char_index c alphabet = i.
Proof.
  induction alphabet as [|a rest IH]; intros Hnd i c Hget; [discriminate|].
  cbn [String.list_ascii_of_string] in Hnd. apply NoDup_cons in Hnd as [Hnotin Hnd].
  destruct i as [|i]; cbn in Hget |- *.
  - injection Hget as ->. rewrite Ascii.eqb_refl. reflexivity.
  - destruct (Ascii.eqb_spec c a) as [->|Hne].
    + exfalso. apply Hnotin. clear -Hget.
      revert i Hget. induction rest as [|b rest IH]; intros i Hget;
        [discriminate|].
      destruct i as [|i]; cbn in Hget |- *.
      * injection Hget as ->. left.
      * right. apply (IH i Hget).
    + f_equal. apply IH; assumption.
Qed.

Lemma get_in_range (alphabet : string) (i : nat) :
  (i < String.length alphabet)%nat ->
  exists c, String.get i alphabet = Some c.
Proof.
  revert i. induction alphabet as [|a rest IH]; intros i Hi; cbn in Hi; [lia|].
  destruct i as [|i]; cbn; [eauto|]. apply IH. lia.
Qed.

Lemma get_in_alphabet (alphabet : string) (i : nat) (c : Ascii.ascii) :
  String.get i alphabet = Some c -> c ∈ String.list_ascii_of_string alphabet.
Proof.
  revert i. induction alphabet as [|a rest IH]; intros i Hget; [discriminate|].
  destruct i as [|i]; cbn in Hget |- *.
  - injection Hget as ->. left.
  - right. apply (IH i Hget).
Qed.

(** One turn of the loop: the quotient and the digit of [divmod]. *)
Lemma uuid_encode_fuel_step (fuel : nat) (alphabet : string) (n : N) :
  (2 <= N.of_nat (String.length alphabet))%N -> n <> 0%N ->
  exists c,
    String.get (N.to_nat (n mod N.of_nat (String.length alphabet))) alphabet
      = Some c
    /\ uuid_encode_fuel (S fuel) alphabet n =
         String c (uuid_encode_fuel fuel alphabet
                     (n / N.of_nat (String.length alphabet))).
Proof.
  intros Hbase Hn. cbn [uuid_encode_fuel].
  destruct (N.eqb_spec n 0) as [|_]; [contradiction|].
  set (base := N.of_nat (String.length alphabet)) in *.
  pose proof (N.div_eucl_spec n base) as Hspec.
  unfold N.div, N.modulo.
  destruct (N.div_eucl n base) as [q r] eqn:Hdiv. cbn [fst snd].
  assert (Hr : (r < base)%N).
  { pose proof (N.mod_lt n base ltac:(lia)) as Hlt.
    unfold N.modulo in Hlt. rewrite Hdiv in Hlt. exact Hlt. }
  destruct (get_in_range alphabet (N.to_nat r)) as [c Hc]; [subst base; lia|].
  exists c. rewrite Hc. split; reflexivity.
Qed.

Lemma uuid_decode_encode_fuel (alphabet : string) :
  NoDup (String.list_ascii_of_string alphabet) ->
  (2 <= N.of_nat (String.length alphabet))%N ->
  forall (fuel : nat) (n : N),
    (n < 2 ^ N.of_nat fuel)%N ->
    uuid_decode alphabet (uuid_encode_fuel fuel alphabet n) = n.
Proof.
  intros Hnd Hbase. induction fuel as [|fuel IH]; intros n Hn.
  - cbn in Hn |- *. lia.
  - destruct (N.eq_dec n 0) as [->|Hne]; [reflexivity|].
    destruct (uuid_encode_fuel_step fuel alphabet n Hbase Hne) as (c & Hc & ->).
    cbn [uuid_decode].
    set (base := N.of_nat (String.length alphabet)) in *.
    rewrite (char_index_get alphabet Hnd _ c Hc), N2Nat.id.
    rewrite IH.
    + pose proof (N.div_mod' n base). lia.
    + rewrite Nat2N.inj_succ, N.pow_succ_r' in Hn.
      apply N.Div0.div_lt_upper_bound.
      pose proof (N.pow_nonzero 2 (N.of_nat fuel) ltac:(lia)). nia.
Qed.

Lemma uuid_encode_fuel_length (alphabet : string) :
  (2 <= N.of_nat (String.length alphabet))%N ->
  forall (fuel k : nat) (n : N),
    (n < N.of_nat (String.length alphabet) ^ N.of_nat k)%N ->
    (String.length (uuid_encode_fuel fuel alphabet n) <= k)%nat.
Proof.
  intros Hbase. induction fuel as [|fuel IH]; intros k n Hn; [cbn; lia|].
  destruct (N.eq_dec n 0) as [->|Hne]; [cbn; lia|].
  destruct (uuid_encode_fuel_step fuel alphabet n Hbase Hne) as (c & _ & ->).
  destruct k as [|k]; [cbn in Hn; lia|].
  cbn [String.length]. apply le_n_S, IH.
  rewrite Nat2N.inj_succ, N.pow_succ_r' in Hn.
  apply N.Div0.div_lt_upper_bound. exact Hn.
Qed.

Lemma uuid_encode_fuel_long (alphabet : string) :
  (2 <= N.of_nat (String.length alphabet))%N ->
  forall (fuel k : nat) (n : N),
    (n < 2 ^ N.of_nat fuel)%N ->
    (N.of_nat (String.length alphabet) ^ N.of_nat k <= n)%N ->
    (k < String.length (uuid_encode_fuel fuel alphabet n))%nat.
Proof.
  intros Hbase. induction fuel as [|fuel IH]; intros k n Hfuel Hn.
  { cbn in Hfuel.
    pose proof (N.pow_nonzero (N.of_nat (String.length alphabet)) (N.of_nat k)
                  ltac:(lia)). lia. }
  assert (Hne : n <> 0%N).
  { pose proof (N.pow_nonzero (N.of_nat (String.length alphabet)) (N.of_nat k)
                  ltac:(lia)). lia. }
  destruct (uuid_encode_fuel_step fuel alphabet n Hbase Hne) as (c & _ & ->).
  cbn [String.length]. destruct k as [|k]; [lia|].
  apply -> Nat.succ_lt_mono. apply IH.
  - rewrite Nat2N.inj_succ, N.pow_succ_r' in Hfuel.
    apply N.Div0.div_lt_upper_bound.
    pose proof (N.pow_nonzero 2 (N.of_nat fuel) ltac:(lia)). nia.
  - rewrite Nat2N.inj_succ, N.pow_succ_r' in Hn.
    apply N.div_le_lower_bound; [lia|exact Hn].
Qed.

Lemma uuid_encode_fuel_letters (alphabet : string) :
  (2 <= N.of_nat (String.length alphabet))%N ->
  forall (fuel : nat) (n : N),
    Forall (fun c => c ∈ String.list_ascii_of_string alphabet)
      (String.list_ascii_of_string (uuid_encode_fuel fuel alphabet n)).
Proof.
  intros Hbase. induction fuel as [|fuel IH]; intros n; [constructor|].
  destruct (N.eq_dec n 0) as [->|Hne]; [constructor|].
  destruct (uuid_encode_fuel_step fuel alphabet n Hbase Hne) as (c & Hc & ->).
  cbn [String.list_ascii_of_string]. constructor; [|apply IH].
  apply (get_in_alphabet _ _ _ Hc).
Qed.

Lemma uuid_fuel_enough (n : N) : (n < 2 ^ N.of_nat (N.to_nat (N.size n)))%N.
Proof. rewrite N2Nat.id. apply N.size_gt. Qed.

(** X1.  [encode] can be read back: with an alphabet of at least two
    letters, no letter twice, the digits of the name give the uuid's integer
    again, so two uuids never get the same name. *)
Theorem X1_uuid_encode_is_injective (alphabet : string) (m n : N) :
  NoDup (String.list_ascii_of_string alphabet) ->
  (2 <= String.length alphabet)%nat ->
  uuid_decode alphabet (uuid_encode alphabet n) = n
  /\ (uuid_encode alphabet m = uuid_encode alphabet n -> m = n).
Proof.
  intros Hnd Hbase.
  assert (Hdec : forall k, uuid_decode alphabet (uuid_encode alphabet k) = k).
  { intros k. apply uuid_decode_encode_fuel;
      [exact Hnd | lia | apply uuid_fuel_enough]. }
  split; [apply Hdec|].
  intros Heq. rewrite <- (Hdec m), <- (Hdec n), Heq. reflexivity.
Qed.

Lemma uuid_alphabet_NoDup : NoDup (String.list_ascii_of_string uuid_alphabet).
Proof. apply (bool_decide_unpack _). vm_compute. reflexivity. Qed.

Lemma X1_witness :
  uuid_decode uuid_alphabet (uuid_encode uuid_alphabet 1000) = 1000%N
  /\ (uuid_encode uuid_alphabet 37 = uuid_encode uuid_alphabet 1000 ->
      37%N = 1000%N).
Proof.
  apply (X1_uuid_encode_is_injective uuid_alphabet 37 1000).
  - exact uuid_alphabet_NoDup.
  - vm_compute. lia.
Defined.

(** X2.  The name of a 128-bit uuid has at most 25 letters, all of them
    from the alphabet, and exactly 25 when the integer is at least 36^24
    (a smaller integer gets a shorter name: the encoding does not pad). *)
Theorem X2_uuid_encode_length (n : N) :
  (n < 2 ^ 128)%N ->
  (String.length (uuid_encode uuid_alphabet n) <= 25)%nat
  /\ (String.length (uuid_encode uuid_alphabet n) = 25%nat <-> (36 ^ 24 <= n)%N)
  /\ Forall (fun c => c ∈ String.list_ascii_of_string uuid_alphabet)
       (String.list_ascii_of_string (uuid_encode uuid_alphabet n)).
Proof.
  intros Hn.
  assert (Hbase : (2 <= N.of_nat (String.length uuid_alphabet))%N)
    by (vm_compute; discriminate).
  assert (Hlen : (String.length (uuid_encode uuid_alphabet n) <= 25)%nat).
  { apply uuid_encode_fuel_length; [exact Hbase|].
    eapply N.lt_trans; [exact Hn|]. vm_compute. reflexivity. }
  split; [exact Hlen|]. split; [|apply uuid_encode_fuel_letters, Hbase].
  split.
  - intros Heq. destruct (N.le_gt_cases (36 ^ 24) n) as [Hle|Hgt]; [exact Hle|].
    exfalso.
    assert (String.length (uuid_encode uuid_alphabet n) <= 24)%nat; [|lia].
    apply uuid_encode_fuel_length; [exact Hbase|]. exact Hgt.
  - intros Hle.
    assert (24 < String.length (uuid_encode uuid_alphabet n))%nat; [|lia].
    apply uuid_encode_fuel_long;
      [exact Hbase | apply uuid_fuel_enough | exact Hle].
Qed.

Lemma X2_witness :
  (String.length (uuid_encode uuid_alphabet 1000) <= 25)%nat
  /\ (String.length (uuid_encode uuid_alphabet 1000) = 25%nat
      <-> (36 ^ 24 <= 1000)%N)
  /\ Forall (fun c => c ∈ String.list_ascii_of_string uuid_alphabet)
       (String.list_ascii_of_string (uuid_encode uuid_alphabet 1000)).
Proof. apply (X2_uuid_encode_length 1000). vm_compute. reflexivity. Defined.

End UuidEncode.

(** * Validators and calibrations *)

Section Validators.

(** X3.  [__validate_flag] and [__validate_rating] clamp: the result lies
    in [-1, 1] and in [0, 5], a value in the range is returned unchanged,
    and validating twice changes nothing more. *)
Theorem X3_validators_clamp (value : Z) :
  (-1 <= validate_flag value <= 1
   /\ (-1 <= value <= 1 -> validate_flag value = value)
   /\ validate_flag (validate_flag value) = validate_flag value)
  /\ (0 <= validate_rating value <= 5
      /\ (0 <= value <= 5 -> validate_rating value = value)
      /\ validate_rating (validate_rating value) = validate_rating value).
Proof. unfold validate_flag, validate_rating. lia. Qed.

End Validators.

Section SpatialCalibration.

Lemma set_spatial_calibration_padded (dimension : Z) (calibration : Calibration)
    (d : DataItem) :
  0 <= dimension ->
  let l := intrinsic_spatial_calibrations d in
  let l1 := l ++ replicate (Z.to_nat (dimension + 1) - length l)
                   Calibration_default in
  exists k pending dirty,
    (set_spatial_calibration dimension calibration d).1 =
      (Ok (),
       with_cached_data_dirty dirty
         (with_data_item_changes pending
            (with_data_item_change_count k
               (with_intrinsic_spatial_calibrations
                  (<[Z.to_nat dimension := calibration]> l1) d)))).
Proof.
  intros Hdim l l1. unfold set_spatial_calibration. fold l. fold l1.
  assert (Hlen : (Z.to_nat dimension < length l1)%nat).
  { subst l1. rewrite length_app, length_replicate. lia. }
  unfold normalize_index.
  rewrite (proj2 (Z.leb_le 0 dimension) Hdim).
  rewrite (proj2 (Z.ltb_lt dimension (Z.of_nat (length l1)))) by lia.
  cbn [andb].
  destruct (notify_frame {[METADATA]}
              (with_intrinsic_spatial_calibrations
                 (<[Z.to_nat dimension := calibration]> l1) d))
    as (k & p & b & Hn).
  destruct (notify_data_item_content_changed _ _) as [d2 ev]. cbn [fst] in *.
  exists k, p, b. rewrite Hn. reflexivity.
Qed.

(** X4.  [set_spatial_calibration] at a dimension that is not negative
    succeeds: the list is as long as before or reaches just past the
    dimension, the entry at the dimension is the given calibration, the
    other old entries are kept and the entries added in between are identity
    calibrations. *)
Theorem X4_set_spatial_calibration_pads (dimension : Z)
    (calibration : Calibration) (d : DataItem) :
  0 <= dimension ->
  let l := intrinsic_spatial_calibrations d in
  let r := set_spatial_calibration dimension calibration d in
  let l' := intrinsic_spatial_calibrations r.1.2 in
  r.1.1 = Ok ()
  /\ length l' = Nat.max (length l) (S (Z.to_nat dimension))
  /\ l' !! Z.to_nat dimension = Some calibration
  /\ (forall i : nat, i <> Z.to_nat dimension ->
        l' !! i = if (i <? length l)%nat then l !! i
                  else if (i <? Z.to_nat dimension)%nat
                       then Some Calibration_default else None).
Proof.
  intros Hdim l r l'.
  destruct (set_spatial_calibration_padded dimension calibration d Hdim)
    as (k & p & b & Hr).
  subst l' r. rewrite Hr. cbn [fst snd].
  replace (intrinsic_spatial_calibrations _)
    with (<[Z.to_nat dimension := calibration]>
            (l ++ replicate (Z.to_nat (dimension + 1) - length l)
                    Calibration_default))
    by (destruct d; reflexivity).
  set (n := Z.to_nat dimension).
  replace (Z.to_nat (dimension + 1)) with (S n) by lia.
  split; [reflexivity|]. split; [|split].
  - rewrite length_insert, length_app, length_replicate. lia.
  - apply list_lookup_insert_eq.
    rewrite length_app, length_replicate. lia.
  - intros i Hi. rewrite list_lookup_insert_ne by congruence.
    destruct (Nat.ltb_spec i (length l)) as [Hlt|Hge].
    + apply lookup_app_l. exact Hlt.
    + rewrite lookup_app_r by exact Hge.
      destruct (Nat.ltb_spec i n) as [Hin|Hout].
      * apply lookup_replicate_2. lia.
      * apply lookup_replicate_None. lia.
Qed.

Lemma X4_witness :
  let d := new_DataItem 1 in
  let l := intrinsic_spatial_calibrations d in
  let r := set_spatial_calibration 2 {| offset := 5; scale := 2; units := "nm" |} d in
  let l' := intrinsic_spatial_calibrations r.1.2 in
  r.1.1 = Ok ()
  /\ length l' = Nat.max (length l) (S (Z.to_nat 2))
  /\ l' !! Z.to_nat 2 = Some {| offset := 5; scale := 2; units := "nm" |}
  /\ (forall i : nat, i <> Z.to_nat 2 ->
        l' !! i = if (i <? length l)%nat then l !! i
                  else if (i <? Z.to_nat 2)%nat
                       then Some Calibration_default else None).
Proof.
  apply (X4_set_spatial_calibration_pads 2
           {| offset := 5; scale := 2; units := "nm" |} (new_DataItem 1)).
  lia.
Defined.

(** X5.  A negative dimension counts from the end of the list: within the
    list the entry is replaced and the length stays; before the start of the
    list the call raises IndexError, the item is untouched and no listener
    is told. *)
Theorem X5_set_spatial_calibration_negative (dimension : Z)
    (calibration : Calibration) (d : DataItem) :
  dimension < 0 ->
  let l := intrinsic_spatial_calibrations d in
  let n := Z.of_nat (length l) in
  let r := set_spatial_calibration dimension calibration d in
  (dimension < - n -> r = (Raise IndexError, d, []))
  /\ (- n <= dimension ->
      r.1.1 = Ok ()
      /\ intrinsic_spatial_calibrations r.1.2 =
           <[Z.to_nat (n + dimension) := calibration]> l).
Proof.
  intros Hneg l n r. subst r. unfold set_spatial_calibration. fold l.
  replace (Z.to_nat (dimension + 1) - length l)%nat with 0%nat by lia.
  cbn [replicate]. rewrite app_nil_r. fold n.
  unfold normalize_index.
  rewrite (proj2 (Z.leb_gt 0 dimension) Hneg). cbn [andb].
  rewrite (proj2 (Z.ltb_lt dimension 0) Hneg), andb_true_r.
  split; intros Hrange.
  - rewrite (proj2 (Z.leb_gt (- n) dimension)) by lia. reflexivity.
  - rewrite (proj2 (Z.leb_le (- n) dimension)) by lia.
    destruct (notify_frame {[METADATA]}
                (with_intrinsic_spatial_calibrations
                   (<[Z.to_nat (dimension + n) := calibration]> l) d))
      as (k & p & b & Hn).
    destruct (notify_data_item_content_changed _ _) as [d2 ev]. cbn [fst snd] in *.
    split; [reflexivity|]. rewrite Hn, (Z.add_comm n dimension).
    destruct d; reflexivity.
Qed.

Lemma X5_witness :
  let d := with_intrinsic_spatial_calibrations
             [Calibration_default; Calibration_default] (new_DataItem 1) in
  let c := {| offset := 5; scale := 2; units := "nm" |} in
  let l := intrinsic_spatial_calibrations d in
  let n := Z.of_nat (length l) in
  let r := set_spatial_calibration (-1) c d in
  (-1 < - n -> r = (Raise IndexError, d, []))
  /\ (- n <= -1 ->
      r.1.1 = Ok ()
      /\ intrinsic_spatial_calibrations r.1.2 =
           <[Z.to_nat (n + -1) := c]> l).
Proof.
  apply (X5_set_spatial_calibration_negative (-1)
           {| offset := 5; scale := 2; units := "nm" |}
           (with_intrinsic_spatial_calibrations
              [Calibration_default; Calibration_default] (new_DataItem 1))).
  lia.
Defined.

End SpatialCalibration.

(** * Shape, dtype and calibrations through the operations *)

Section ShapePipeline.

Lemma root_data_shape_and_dtype_unfold (d : DataItem) :
  data_shape_and_dtype d =
    match (root_data_shape_and_dtype d).1 with
    | Some sh =>
        let sd := apply_shape_operations (operations d)
                    (sh, (root_data_shape_and_dtype d).2) in
        (Some sd.1, sd.2)
    | None => root_data_shape_and_dtype d
    end.
Proof. rewrite data_shape_and_dtype_unfold. reflexivity. Qed.

Lemma root_data_shape_and_dtype_operations (ops : list Operation) (d : DataItem) :
  root_data_shape_and_dtype (with_operations ops d) = root_data_shape_and_dtype d.
Proof. destruct d; reflexivity. Qed.

Lemma apply_shape_operations_enabled (ops : list Operation) :
  forall sd,
    apply_shape_operations (filter (fun op => enabled op = true) ops) sd =
      apply_shape_operations ops sd.
Proof.
  unfold apply_shape_operations.
  induction ops as [|op ops IH]; intros sd; [reflexivity|].
  destruct (enabled op) eqn:Hon.
  - rewrite filter_cons_True by exact Hon. cbn [foldl]. rewrite Hon. apply IH.
  - rewrite filter_cons_False by congruence. cbn [foldl]. rewrite Hon. apply IH.
Qed.

(** X6.  [data_shape_and_dtype] walks the operations in definition order
    and skips the disabled ones: an operation appended to the list acts on
    the shape and dtype the item had before when it is enabled and not at
    all when it is disabled, and an item without a root shape has none
    whatever its operations. *)
Theorem X6_shape_in_definition_order (op : Operation) (d : DataItem) :
  data_shape_and_dtype (with_operations (operations d ++ [op]) d) =
    match data_shape_and_dtype d with
    | (Some sh, dt) =>
        if enabled op
        then (Some (get_processed_data_shape_and_dtype op sh dt).1,
              (get_processed_data_shape_and_dtype op sh dt).2)
        else (Some sh, dt)
    | (None, dt) => (None, dt)
    end.
Proof.
  rewrite (root_data_shape_and_dtype_unfold (with_operations _ d)),
    (root_data_shape_and_dtype_unfold d),
    root_data_shape_and_dtype_operations.
  replace (operations (with_operations (operations d ++ [op]) d))
    with (operations d ++ [op]) by (destruct d; reflexivity).
  destruct (root_data_shape_and_dtype d) as [[sh|] dt]; cbn [fst snd];
    [|reflexivity].
  cbn zeta. unfold apply_shape_operations. rewrite foldl_app. cbn [foldl].
  destruct (enabled op); reflexivity.
Qed.

(** X7.  Disabled operations have no part in the shape and dtype of an
    item: removing them from the list leaves [data_shape_and_dtype] as it
    is. *)
Theorem X7_disabled_operations_keep_the_shape (d : DataItem) :
  data_shape_and_dtype
    (with_operations (filter (fun op => enabled op = true) (operations d)) d)
  = data_shape_and_dtype d.
Proof.
  rewrite (root_data_shape_and_dtype_unfold (with_operations _ d)),
    (root_data_shape_and_dtype_unfold d),
    root_data_shape_and_dtype_operations.
  replace (operations (with_operations _ d))
    with (filter (fun op => enabled op = true) (operations d))
    by (destruct d; reflexivity).
  destruct (root_data_shape_and_dtype d) as [[sh|] dt]; cbn [fst snd];
    [|reflexivity].
  cbn zeta. rewrite apply_shape_operations_enabled. reflexivity.
Qed.

End ShapePipeline.

Section CalculatedCalibrationsFacts.

Variable get_processed_calibrations :
  Operation -> list Z -> option numpy_dtype -> list Calibration -> list Calibration.

Notation calculated := (calculated_calibrations get_processed_calibrations).
Notation apply_calibrations :=
  (apply_calibration_operations get_processed_calibrations).

Lemma calculated_calibrations_unfold (d : DataItem) :
  calculated d =
    let calibrations :=
      match data_source d with
      | Some s => calculated s
      | None => intrinsic_spatial_calibrations d
      end in
    match root_data_shape_and_dtype d with
    | (Some sh, Some dt) =>
        (apply_calibrations (operations d) (calibrations, (sh, Some dt))).1
    | _ => calibrations
    end.
Proof. destruct d; reflexivity. Qed.

Lemma apply_calibration_operations_shape (ops : list Operation) :
  forall st, (apply_calibrations ops st).2 = apply_shape_operations ops st.2.
Proof.
  unfold apply_calibration_operations, apply_shape_operations.
  induction ops as [|op ops IH]; intros st; [reflexivity|].
  cbn [foldl]. rewrite IH. destruct (enabled op); reflexivity.
Qed.

(** X8.  In [__get_calculated_calibrations] the calibrations of the data
    source override the item's own: on an item with a data source the
    result does not depend on the item's calibration list, and without
    operations it is the calculated calibration list of the source. *)
Theorem X8_source_calibrations_override (l : list Calibration)
    (d s : DataItem) :
  data_source d = Some s ->
  calculated (with_intrinsic_spatial_calibrations l d) = calculated d
  /\ (operations d = [] -> calculated d = calculated s).
Proof.
  intros Hs. split.
  - rewrite (calculated_calibrations_unfold (with_intrinsic_spatial_calibrations l d)),
      (calculated_calibrations_unfold d).
    replace (data_source (with_intrinsic_spatial_calibrations l d))
      with (data_source d) by (destruct d; reflexivity).
    replace (root_data_shape_and_dtype (with_intrinsic_spatial_calibrations l d))
      with (root_data_shape_and_dtype d) by (destruct d; reflexivity).
    replace (operations (with_intrinsic_spatial_calibrations l d))
      with (operations d) by (destruct d; reflexivity).
    rewrite Hs. reflexivity.
  - intros Hops. rewrite (calculated_calibrations_unfold d), Hs, Hops.
    cbn zeta. destruct (root_data_shape_and_dtype d) as [[sh|] [dt|]];
      reflexivity.
Qed.

(** X9.  The calibrations go through the enabled operations in definition
    order, and each operation is handed the shape and dtype that
    [data_shape_and_dtype] computes for the operations before it: an
    appended enabled operation maps the calibrations the item had, with the
    shape and dtype the item had; a disabled one, or any operation on an
    item whose root shape or dtype is unknown, changes nothing. *)
Theorem X9_calibrations_in_step_with_shape (op : Operation) (d : DataItem) :
  calculated (with_operations (operations d ++ [op]) d) =
    match root_data_shape_and_dtype d, data_shape_and_dtype d with
    | (Some _, Some _), (Some sh, dt) =>
        if enabled op
        then get_processed_calibrations op sh dt (calculated d)
        else calculated d
    | _, _ => calculated d
    end.
Proof.
  rewrite (calculated_calibrations_unfold (with_operations _ d)),
    (calculated_calibrations_unfold d), (root_data_shape_and_dtype_unfold d),
    root_data_shape_and_dtype_operations.
  replace (operations (with_operations (operations d ++ [op]) d))
    with (operations d ++ [op]) by (destruct d; reflexivity).
  replace (data_source (with_operations (operations d ++ [op]) d))
    with (data_source d) by (destruct d; reflexivity).
  cbn zeta.
  destruct (root_data_shape_and_dtype d) as [[sh|] [dt|]]; cbn [fst snd];
    try reflexivity.
  set (c := match data_source d with Some s => _ | None => _ end).
  pose proof (apply_calibration_operations_shape (operations d)
                (c, (sh, Some dt))) as Hshape.
  cbn [snd] in Hshape.
  unfold apply_calibration_operations at 1. rewrite foldl_app. cbn [foldl].
  fold (apply_calibrations (operations d) (c, (sh, Some dt))).
  rewrite <- Hshape.
  destruct (enabled op); reflexivity.
Qed.

End CalculatedCalibrationsFacts.

Lemma X8_witness :
  let gpc := fun (_ : Operation) (_ : list Z) (_ : option numpy_dtype)
                 (c : list Calibration) => c in
  let s := root_item 1 (array_of 7) in
  let d := derived_item 2 s in
  calculated_calibrations gpc
    (with_intrinsic_spatial_calibrations [Calibration_default] d)
  = calculated_calibrations gpc d
  /\ (operations d = [] ->
      calculated_calibrations gpc d = calculated_calibrations gpc s).
Proof.
  apply (X8_source_calibrations_override (fun _ _ _ c => c)
           [Calibration_default] (derived_item 2 (root_item 1 (array_of 7)))
           (root_item 1 (array_of 7))).
  reflexivity.
Defined.

(** * What reading the data leaves behind *)

Section ReadingData.
Context `{Image : ImageModule}.

Lemma get_data_fuel_counts (n : nat) :
  forall d : DataItem, ref_counts (get_data_fuel n d).1.2 = ref_counts d.
Proof.
  induction n as [|n IH]; intros d; [reflexivity|].
  cbn [get_data_fuel]. unfold get_data_body.
  destruct (_ || _); [|reflexivity]. cbn zeta. cbn [fst snd].
  unfold store_cached_data. rewrite get_data_range_for_data_snd.
  assert (Hroot : ref_counts (root_data (get_data_fuel n) d).1.2 = ref_counts d).
  { unfold root_data.
    destruct (if has_master_data d then master_data d else None); [reflexivity|].
    destruct (data_source d) as [s|] eqn:Hs; [|reflexivity].
    unfold with_data_ref.
    pose proof (proj1 (increment_counts s)) as Hinc.
    destruct (increment_data_ref_count s) as [s1 ev1]. cbn [fst] in Hinc.
    pose proof (IH s1) as Hget.
    destruct (get_data_fuel n s1) as [[r s2] ev2]. cbn [fst snd] in Hget.
    pose proof (proj1 (decrement_counts s2)) as Hdec.
    destruct (decrement_data_ref_count s2) as [s3 ev3]. cbn [fst snd] in *.
    rewrite (ref_counts_unfold (with_data_source _ _)), (ref_counts_unfold d), Hs.
    cbn. rewrite Hdec, Hget, Hinc, decr_incr_counts. reflexivity. }
  rewrite <- Hroot.
  destruct (root_data (get_data_fuel n) d).1.2. reflexivity.
Qed.

(** X10.  The [data] property leaves every ref-count of the item and of
    its chain of data sources as it found it: each reference taken while
    the data is computed is given back. *)
Theorem X10_data_gives_its_references_back (d : DataItem) :
  ref_counts (data d).1.2 = ref_counts d
  /\ ref_counts (get_data d).1.2 = ref_counts d.
Proof.
  split; [|apply get_data_fuel_counts].
  unfold data, with_data_ref.
  pose proof (proj1 (increment_counts d)) as Hinc.
  destruct (increment_data_ref_count d) as [d1 ev1]. cbn [fst] in Hinc.
  pose proof (get_data_fuel_counts (S (depth d1)) d1) as Hget.
  fold (get_data d1) in Hget.
  destruct (get_data d1) as [[r d2] ev2]. cbn [fst snd] in Hget.
  pose proof (proj1 (decrement_counts d2)) as Hdec.
  destruct (decrement_data_ref_count d2) as [d3 ev3]. cbn [fst snd] in *.
  rewrite Hdec, Hget, Hinc. apply decr_incr_counts.
Qed.

(** X11.  Reading the data changes nothing that shape, dtype and
    calibrations are computed from: after [__get_data] and after the [data]
    property the item has the shape and dtype, the calibration list, the
    operations and the master-data flag it had. *)
Theorem X11_reading_keeps_shape_and_calibrations (d : DataItem) :
  let after := (data d).1.2 in
  data_shape_and_dtype (get_data d).1.2 = data_shape_and_dtype d
  /\ data_shape_and_dtype after = data_shape_and_dtype d
  /\ intrinsic_spatial_calibrations after = intrinsic_spatial_calibrations d
  /\ operations after = operations d
  /\ has_master_data after = has_master_data d
  /\ uuid after = uuid d.
Proof.
  cbn zeta.
  assert (Hskel : skeleton (data d).1.2 = skeleton d).
  { unfold data, with_data_ref.
    pose proof (skeleton_increment d) as Hinc.
    destruct (increment_data_ref_count d) as [d1 ev1]. cbn [fst] in Hinc.
    pose proof (skeleton_get_data d1) as Hget.
    destruct (get_data d1) as [[r d2] ev2]. cbn [fst snd] in Hget.
    pose proof (skeleton_decrement d2) as Hdec.
    destruct (decrement_data_ref_count d2) as [d3 ev3]. cbn [fst snd] in *.
    congruence. }
  split; [apply skeleton_eq_shape, skeleton_get_data|].
  split; [apply skeleton_eq_shape, Hskel|].
  rewrite (skeleton_unfold (data d).1.2), (skeleton_unfold d) in Hskel.
  injection Hskel as Hu Hc Hsh Hdt Hhas Hsrc Hops Hcal Hst Htc.
  auto.
Qed.

(** X12.  An item without operations whose data comes from its data source
    returns the data of the source, read while a reference on the source is
    held, and caches it. *)
Theorem X12_no_operations_pass_the_source_through (d s : DataItem) :
  cached_data_dirty d = true ->
  has_master_data d = false ->
  data_source d = Some s ->
  operations d = [] ->
  (get_data d).1.1 = (get_data (increment_data_ref_count s).1).1.1
  /\ cached_data (get_data d).1.2 = (get_data (increment_data_ref_count s).1).1.1
  /\ process_data_calls (get_data d).2 =
       process_data_calls (get_data (increment_data_ref_count s).1).2.
Proof.
  intros Hdirty Hhas Hs Hops. rewrite (get_data_unfold d).
  unfold get_data_body. rewrite Hdirty. cbn [orb]. cbn zeta.
  unfold root_data. rewrite Hhas, Hs. unfold with_data_ref.
  pose proof (increment_no_process_data s) as Hinc.
  destruct (increment_data_ref_count s) as [s1 ev1]. cbn [fst snd] in *.
  destruct (get_data s1) as [[r s2] ev2].
  pose proof (decrement_no_process_data s2) as Hdec.
  destruct (decrement_data_ref_count s2) as [s3 ev3]. cbn [fst snd] in *.
  replace (operations (with_data_source (Some s3) d)) with (operations d)
    by (destruct d; reflexivity).
  rewrite Hops. unfold processed_data.
  destruct r as [a|]; cbn [reverse apply_operations fst snd];
    rewrite ?app_nil_r, !process_data_calls_app, Hinc, Hdec, ?app_nil_r;
    repeat split.
Qed.

(** X13.  On an item whose master data lives in a datastore and on which
    no reference is held, the [data] property loads the array, returns it
    put through the operations and unloads it again: neither the master
    data nor the cached data stays in memory. *)
Theorem X13_data_property_does_not_keep_the_array (d : DataItem)
    (store : Datastore) :
  datastore d = Some store ->
  has_master_data d = true ->
  master_data d = None ->
  cached_data d = None ->
  data_source d = None ->
  data_ref_count d = 0 ->
  transaction_count d = 0 ->
  (data d).1.1 =
    Some (apply_operations (reverse (operations d)) (load_data_reference store)).1
  /\ master_data (data d).1.2 = None
  /\ cached_data (data d).1.2 = None
  /\ data_ref_count (data d).1.2 = 0.
Proof.
  intros Hstore Hhas Hmaster Hcache Hs Hcount Htc.
  destruct d as [u cl md mds mdt hm ds ops cd cdd rc cc chg cal st tc dr].
  cbn in Hstore, Hhas, Hmaster, Hcache, Hs, Hcount, Htc. subst.
  unfold data, with_data_ref. rewrite increment_unfold.
  cbn -[reverse].
  unfold get_data_body, root_data, processed_data, store_cached_data.
  cbn -[reverse]. rewrite orb_true_r. cbn -[reverse].
  destruct (apply_operations (reverse ops) (load_data_reference store))
    as [r ev].
  cbn -[reverse]. change (0 + 1 - 1 =? 0) with true. cbv iota.
  repeat split.
Qed.

End ReadingData.

Lemma X12_witness :
  let s := root_item 1 (array_of 7) in
  let d := derived_item 2 s in
  (@get_data Image_plain d).1.1 =
    (@get_data Image_plain (increment_data_ref_count s).1).1.1
  /\ cached_data (@get_data Image_plain d).1.2 =
       (@get_data Image_plain (increment_data_ref_count s).1).1.1
  /\ process_data_calls (@get_data Image_plain d).2 =
       process_data_calls
         (@get_data Image_plain (increment_data_ref_count s).1).2.
Proof.
  apply (@X12_no_operations_pass_the_source_through Image_plain
           (derived_item 2 (root_item 1 (array_of 7)))
           (root_item 1 (array_of 7))); reflexivity.
Defined.

Lemma X13_witness :
  let store := {| load_data_reference := array_of 7 |} in
  let d := Build_DataItem 1 false None (Some [1]) (Some int32) true None []
             None true 0 0 ∅ [] (Some store) 0 None in
  (@data Image_plain d).1.1 =
    Some (apply_operations (reverse (operations d)) (load_data_reference store)).1
  /\ master_data (@data Image_plain d).1.2 = None
  /\ cached_data (@data Image_plain d).1.2 = None
  /\ data_ref_count (@data Image_plain d).1.2 = 0.
Proof.
  apply (@X13_data_property_does_not_keep_the_array Image_plain
           (Build_DataItem 1 false None (Some [1]) (Some int32) true None []
              None true 0 0 ∅ [] (Some {| load_data_reference := array_of 7 |})
              0 None)
           {| load_data_reference := array_of 7 |}); reflexivity.
Defined.

(** * Calibrations kept in step with the data *)

Section Synchronization.
Context `{Image : ImageModule}.

Lemma list_remove_last (l : list Calibration) (x : Calibration) :
  NoDup l -> last l = Some x -> list_remove x l = take (length l - 1) l.
Proof.
  induction l as [|y l IH]; intros Hnd Hlast; [discriminate|].
  apply NoDup_cons in Hnd as [Hnotin Hnd].
  rewrite last_cons in Hlast. cbn [list_remove length].
  destruct (last l) as [z|] eqn:Hl.
  - injection Hlast as ->.
    destruct (decide (y = x)) as [->|Hne].
    + exfalso. apply Hnotin. apply (last_Some_elem_of _ _ Hl).
    + rewrite (IH Hnd eq_refl).
      assert (length l <> 0)%nat by (destruct l; [discriminate|cbn; lia]).
      replace (S (length l) - 1)%nat with (S (length l - 1)) by lia.
      reflexivity.
  - injection Hlast as ->. apply last_None in Hl. subst l.
    destruct (decide (x = x)); [reflexivity|contradiction].
Qed.

Lemma remove_last_while_take (n ndim : nat) :
  forall l : list Calibration,
    NoDup l -> (length l <= ndim + n)%nat ->
    remove_last_while n ndim l = take ndim l.
Proof.
  induction n as [|n IH]; intros l Hnd Hlen; cbn [remove_last_while].
  - rewrite take_ge by lia. reflexivity.
  - destruct (Nat.ltb_spec ndim (length l)) as [Hlt|Hge];
      [|rewrite take_ge by lia; reflexivity].
    destruct (last l) as [x|] eqn:Hlast.
    + rewrite (list_remove_last l x Hnd Hlast), IH.
      * rewrite take_take. f_equal. lia.
      * eapply sublist_NoDup; [exact Hnd|apply sublist_take].
      * rewrite length_take. lia.
    + apply last_None in Hlast. subst l. cbn in Hlt. lia.
Qed.

Lemma sync_keeps_spatial_ndim (d : DataItem) :
  spatial_ndim (sync_intrinsic_spatial_calibrations d).1 = spatial_ndim d.
Proof.
  destruct (sync_intrinsic_spatial_calibrations_spec d)
    as (_ & _ & Hskel & _ & _). cbn zeta in Hskel.
  apply spatial_ndim_frame.
  rewrite <- (skeleton_shape (sync_intrinsic_spatial_calibrations d).1), Hskel.
  rewrite <- (skeleton_shape d),
    (data_shape_and_dtype_unfold (with_intrinsic_spatial_calibrations _ _)),
    (data_shape_and_dtype_unfold (skeleton d)).
  reflexivity.
Qed.

(** X14.  [sync_intrinsic_spatial_calibrations] on an item that is not
    closed makes the calibration list as long as the spatial shape; a list
    that was not longer keeps its entries and is filled up with identity
    calibrations; and a second call right after finds nothing to do and
    tells no listener. *)
Theorem X14_sync_makes_the_lengths_agree (d : DataItem) :
  closed d = false ->
  let d' := (sync_intrinsic_spatial_calibrations d).1 in
  length (intrinsic_spatial_calibrations d') = spatial_ndim d
  /\ ((length (intrinsic_spatial_calibrations d) <= spatial_ndim d)%nat ->
      intrinsic_spatial_calibrations d' =
        intrinsic_spatial_calibrations d ++
        replicate (spatial_ndim d - length (intrinsic_spatial_calibrations d))
          Calibration_default)
  /\ sync_intrinsic_spatial_calibrations d' = (d', []).
Proof.
  intros Hclosed d'.
  destruct (sync_intrinsic_spatial_calibrations_spec d)
    as (Hlen & Hpad & _ & _ & _). cbn zeta in Hlen, Hpad. fold d' in Hlen, Hpad.
  split; [apply Hlen, Hclosed|]. split; [intros Hle; apply Hpad; assumption|].
  pose proof (sync_keeps_spatial_ndim d) as Hndim. fold d' in Hndim.
  unfold sync_intrinsic_spatial_calibrations at 1.
  fold (spatial_ndim d'). cbn zeta.
  rewrite Hndim, (Hlen Hclosed), Nat.eqb_refl. reflexivity.
Qed.

(** X15.  A calibration list that is longer than the spatial shape, and
    in which no calibration occurs twice, is cut down to its first entries
    by [sync_intrinsic_spatial_calibrations]. *)
Theorem X15_sync_truncates (d : DataItem) :
  closed d = false ->
  NoDup (intrinsic_spatial_calibrations d) ->
  (spatial_ndim d < length (intrinsic_spatial_calibrations d))%nat ->
  intrinsic_spatial_calibrations (sync_intrinsic_spatial_calibrations d).1 =
    take (spatial_ndim d) (intrinsic_spatial_calibrations d).
Proof.
  intros Hclosed Hnd Hlong. unfold sync_intrinsic_spatial_calibrations.
  fold (spatial_ndim d). cbn zeta.
  set (l := intrinsic_spatial_calibrations d) in *.
  set (ndim := spatial_ndim d) in *.
  destruct (Nat.eqb_spec (length l) ndim) as [Heq|_]; [lia|].
  rewrite Hclosed. cbn [negb andb].
  replace (ndim - length l)%nat with 0%nat by lia.
  cbn [replicate]. rewrite app_nil_r.
  rewrite remove_last_while_take by (try exact Hnd; lia).
  destruct (notify_frame {[METADATA]}
              (with_intrinsic_spatial_calibrations (take ndim l) d))
    as (k & p & b & Hn).
  destruct (notify_data_item_content_changed _ _) as [d2 ev]. cbn [fst] in *.
  subst d2. reflexivity.
Qed.

(** X16.  After [__set_master_data] has stored an array, the calibration
    list is as long as the spatial shape of the item's data. *)
Theorem X16_set_master_data_synchronizes (a : ndarray) (d : DataItem) :
  (set_master_data (Some a) d).1.1 = Ok () ->
  length (intrinsic_spatial_calibrations (set_master_data (Some a) d).1.2) =
    spatial_ndim (set_master_data (Some a) d).1.2
  /\ has_master_data (set_master_data (Some a) d).1.2 = true
  /\ data_shape_and_dtype (set_master_data (Some a) d).1.2 =
       data_shape_and_dtype
         (with_master_data_dtype (Some (dtype a))
            (with_master_data_shape (Some (shape a))
               (with_has_master_data true d))).
Proof.
  intros Hok. split; [apply set_master_data_synchronizes, Hok|].
  revert Hok. unfold set_master_data. cbn zeta.
  rewrite (bool_decide_eq_true_2 (Some a <> None)) by discriminate.
  rewrite andb_true_r. cbn [andb].
  destruct (closed (begin_data_item_changes d)) eqn:Hclosed; cbn [orb].
  { destruct (end_data_item_changes _). discriminate. }
  destruct (bool_decide (data_source (begin_data_item_changes d) <> None)).
  { destruct (end_data_item_changes _). discriminate. }
  intros _.
  set (d1 := with_has_master_data true _).
  destruct (sync_intrinsic_spatial_calibrations_spec d1)
    as (_ & _ & Hskel & _ & _).
  destruct (sync_intrinsic_spatial_calibrations d1) as [d2 ev1]. cbn [fst] in *.
  pose proof (set_master_data_tail d2) as Htail. cbn zeta in Htail.
  destruct (match master_data d2 with Some _ => _ | None => _ end) as [d3 ev2].
  cbn [fst] in Htail.
  destruct (notify_data_item_content_changed {[DATA]} d3) as [d4 ev3].
  cbn [fst] in Htail.
  destruct (end_data_item_changes d4) as [d5 ev4]. cbn [fst snd] in *.
  rewrite <- Htail in Hskel. split.
  - apply (f_equal has_master_data) in Hskel.
    rewrite (skeleton_unfold d5) in Hskel. cbn in Hskel. rewrite Hskel.
    reflexivity.
  - rewrite <- (skeleton_shape d5), Hskel,
      (data_shape_and_dtype_unfold (with_intrinsic_spatial_calibrations _ _)).
    cbn [has_master_data master_data_shape master_data_dtype data_source
         operations with_intrinsic_spatial_calibrations].
    rewrite <- (skeleton_shape (with_master_data_dtype _ _)),
      (data_shape_and_dtype_unfold (skeleton (with_master_data_dtype _ _))).
    destruct d; reflexivity.
Qed.

(** X17.  The two mutators that carry the assertion keep the invariant:
    on an item on which master data and data source exclude each other they
    leave such an item, whatever they are asked and however they end. *)
Theorem X17_asserting_mutators_keep_exclusivity (new_data : option ndarray)
    (new_source : option DataItem) (d : DataItem) :
  exclusive d ->
  exclusive (set_master_data new_data d).1.2
  /\ exclusive (set_data_source new_source d).1.2.
Proof.
  intros Hex. split.
  - apply exclusive_set_master_data, Hex.
  - apply exclusive_set_data_source, Hex.
Qed.

(** X18.  Master data offered to an item with a data source, and a data
    source offered to an item with master data, are refused with an
    AssertionError.  [__set_data_source] then leaves the item untouched and
    tells nobody; [__set_master_data] leaves the data, the flag, the source
    and the depth of the change accumulator as they were (its transaction
    is closed on the way out). *)
Theorem X18_second_kind_of_data_is_refused (a : ndarray) (d s : DataItem) :
  (data_source d = Some s ->
   let r := set_master_data (Some a) d in
   r.1.1 = Raise AssertionError
   /\ master_data r.1.2 = master_data d
   /\ has_master_data r.1.2 = has_master_data d
   /\ data_source r.1.2 = data_source d
   /\ data_item_change_count r.1.2 = data_item_change_count d)
  /\ (has_master_data d = true ->
      set_data_source (Some s) d = (Raise AssertionError, d, [])).
Proof.
  split.
  - intros Hs. cbn zeta.
    split; [apply (set_master_data_with_source_raises a d s Hs)|].
    unfold set_master_data. cbn zeta.
    replace (data_source (begin_data_item_changes d)) with (Some s)
      by (rewrite <- Hs; destruct d; reflexivity).
    rewrite !bool_decide_eq_true_2 by discriminate. rewrite orb_true_r.
    destruct (end_data_item_changes_frame (begin_data_item_changes d))
      as (k & p & b & Hend).
    assert (Hk : data_item_change_count (end_data_item_changes
                   (begin_data_item_changes d)).1 = data_item_change_count d).
    { unfold end_data_item_changes. cbn zeta.
      destruct (_ =? 0); [destruct (_ || _)|]; destruct d; cbn; lia. }
    destruct (end_data_item_changes _) as [d1 ev]. cbn [fst snd] in *.
    split; [|split; [|split]]; try exact Hk; subst d1; destruct d; reflexivity.
  - intros Hhas. unfold set_data_source.
    rewrite Hhas, bool_decide_eq_true_2 by discriminate. reflexivity.
Qed.

End Synchronization.

Lemma X14_witness :
  let d := root_item 1 (array_of 7) in
  let d' := (@sync_intrinsic_spatial_calibrations Image_plain d).1 in
  length (intrinsic_spatial_calibrations d') = @spatial_ndim Image_plain d
  /\ ((length (intrinsic_spatial_calibrations d) <= @spatial_ndim Image_plain d)%nat ->
      intrinsic_spatial_calibrations d' =
        intrinsic_spatial_calibrations d ++
        replicate (@spatial_ndim Image_plain d
                   - length (intrinsic_spatial_calibrations d))
          Calibration_default)
  /\ @sync_intrinsic_spatial_calibrations Image_plain d' = (d', []).
Proof.
  apply (@X14_sync_makes_the_lengths_agree Image_plain
           (root_item 1 (array_of 7))).
  reflexivity.
Defined.

Lemma X15_witness :
  let d := with_intrinsic_spatial_calibrations
             [Calibration_default; {| offset := 5; scale := 2; units := "nm" |}]
             (root_item 1 (array_of 7)) in
  intrinsic_spatial_calibrations (@sync_intrinsic_spatial_calibrations Image_plain d).1 =
    take (@spatial_ndim Image_plain d) (intrinsic_spatial_calibrations d).
Proof.
  apply (@X15_sync_truncates Image_plain
           (with_intrinsic_spatial_calibrations
              [Calibration_default; {| offset := 5; scale := 2; units := "nm" |}]
              (root_item 1 (array_of 7)))).
  - reflexivity.
  - apply (bool_decide_unpack _). vm_compute. reflexivity.
  - vm_compute. lia.
Defined.

Lemma X16_witness :
  let r := @set_master_data Image_plain (Some (array_of 7)) (new_DataItem 1) in
  length (intrinsic_spatial_calibrations r.1.2) = @spatial_ndim Image_plain r.1.2
  /\ has_master_data r.1.2 = true
  /\ data_shape_and_dtype r.1.2 =
       data_shape_and_dtype
         (with_master_data_dtype (Some (dtype (array_of 7)))
            (with_master_data_shape (Some (shape (array_of 7)))
               (with_has_master_data true (new_DataItem 1)))).
Proof.
  apply (@X16_set_master_data_synchronizes Image_plain (array_of 7)
           (new_DataItem 1)).
  vm_compute. reflexivity.
Defined.

Lemma X17_witness :
  exclusive (@set_master_data Image_plain (Some (array_of 7)) (new_DataItem 1)).1.2
  /\ exclusive (@set_data_source Image_plain (Some (root_item 2 (array_of 7)))
                  (new_DataItem 1)).1.2.
Proof.
  apply (@X17_asserting_mutators_keep_exclusivity Image_plain
           (Some (array_of 7)) (Some (root_item 2 (array_of 7))) (new_DataItem 1)).
  intros _. reflexivity.
Defined.

Lemma X18_witness :
  (@set_master_data Image_plain (Some (array_of 7))
     (derived_item 2 (root_item 1 (array_of 7)))).1.1 = Raise AssertionError
  /\ @set_data_source Image_plain (Some (root_item 1 (array_of 7)))
       (root_item 2 (array_of 7))
     = (Raise AssertionError, root_item 2 (array_of 7), []).
Proof.
  split.
  - exact (proj1 (proj1 (@X18_second_kind_of_data_is_refused Image_plain
                           (array_of 7)
                           (derived_item 2 (root_item 1 (array_of 7)))
                           (root_item 1 (array_of 7))) eq_refl)).
  - exact (proj2 (@X18_second_kind_of_data_is_refused Image_plain
                    (array_of 7) (root_item 2 (array_of 7))
                    (root_item 1 (array_of 7))) eq_refl).
Defined.

(** * Filters and slices *)

Section Arithmetic.

(** X19.  The size handed to the median and uniform filters lies between
    1 and 999: a size in that range is used as it is, a smaller one becomes
    1 and a larger one 999. *)
Theorem X19_filter_size_is_clamped (size : Z) :
  1 <= filter_size size <= 999
  /\ (1 <= size <= 999 -> filter_size size = size)
  /\ (size < 1 -> filter_size size = 1)
  /\ (999 < size -> filter_size size = 999).
Proof. unfold filter_size. lia. Qed.

(** X20.  With a width of at least one, [function_slice_sum] sums rows
    that exist, at most [slice_width] of them; when the window fits, they
    are the [slice_width] rows that end with row [slice_center]; a window
    that starts before the first row is moved to start there, and one that
    ends after the last row is cut. *)
Theorem X20_slice_sum_window (n slice_center slice_width : Z) :
  0 <= n -> 1 <= slice_width ->
  let '(lo, hi) := slice_rows n slice_center slice_width in
  0 <= lo <= n /\ 0 <= hi <= n /\ hi - lo <= slice_width
  /\ (slice_width - 1 <= slice_center < n ->
      lo = slice_center + 1 - slice_width /\ hi = slice_center + 1)
  /\ (slice_center < slice_width - 1 -> lo = 0 /\ hi = Z.min n slice_width)
  /\ (n <= slice_center + 1 - slice_width -> hi <= lo).
Proof.
  intros Hn Hw. unfold slice_rows, slice_bounds, py_slice_index.
  destruct (Z.ltb_spec (Z.max (slice_center + 1 - slice_width) 0) 0);
    destruct (Z.ltb_spec
                (Z.min n (Z.max (slice_center + 1 - slice_width) 0 + slice_width))
                0); lia.
Qed.

Lemma X20_witness :
  let '(lo, hi) := slice_rows 10 4 3 in
  0 <= lo <= 10 /\ 0 <= hi <= 10 /\ hi - lo <= 3
  /\ (3 - 1 <= 4 < 10 -> lo = 4 + 1 - 3 /\ hi = 4 + 1)
  /\ (4 < 3 - 1 -> lo = 0 /\ hi = Z.min 10 3)
  /\ (10 <= 4 + 1 - 3 -> hi <= lo).
Proof. apply (X20_slice_sum_window 10 4 3); lia. Defined.

End Arithmetic.

(** * Building, binding and reading nodes *)

Section Nodes.

Variable resolve_object_specifier : specifier -> option string -> option BoundItem.

Notation bind := (bind_node resolve_object_specifier).
Notation bind_inputs := (bind_list resolve_object_specifier).
Notation bind_stable := (bind_stable resolve_object_specifier).

Lemma bind_node_unfold (n : DataNode) (b0 : gmap Z BoundItem) :
  bind n b0 =
    match n with
    | ConstantDataNode u ins scalar scalar_type =>
        '(ins', b) ← bind_inputs ins b0;
        Ok (ConstantDataNode u ins' scalar scalar_type, b)
    | ScalarOperationDataNode u ins f a =>
        '(ins', b) ← bind_inputs ins b0;
        Ok (ScalarOperationDataNode u ins' f a, b)
    | UnaryOperationDataNode u ins f a =>
        '(ins', b) ← bind_inputs ins b0;
        Ok (UnaryOperationDataNode u ins' f a, b)
    | BinaryOperationDataNode u ins f a =>
        '(ins', b) ← bind_inputs ins b0;
        Ok (BinaryOperationDataNode u ins' f a, b)
    | FunctionOperationDataNode u ins f a =>
        '(ins', b) ← bind_inputs ins b0;
        Ok (FunctionOperationDataNode u ins' f a, b)
    | DataItemDataNode u ins o _ =>
        match resolve_object_specifier o None with
        | Some item => Ok (DataItemDataNode u ins o (Some item), <[u := item]> b0)
        | None => Raise AssertionError
        end
    | ReferenceDataNode _ _ _ => Raise TypeError
    | PropertyDataNode u ins o p _ =>
        match resolve_object_specifier o (Some p) with
        | Some item => Ok (PropertyDataNode u ins o p (Some item), <[u := item]> b0)
        | None => Raise AssertionError
        end
    end.
Proof.
  assert (Hlist : forall l b,
             (fix bind_inputs (l : list DataNode) (b : gmap Z BoundItem)
                : result (list DataNode * gmap Z BoundItem) :=
                match l with
                | [] => Ok ([], b)
                | x :: l' =>
                    '(x', b1) ← bind x b;
                    '(l'', b2) ← bind_inputs l' b1;
                    Ok (x' :: l'', b2)
                end) l b = bind_inputs l b).
  { induction l as [|x l IH]; intros b; [reflexivity|]. cbn [bind_list].
    destruct (bind x b) as [[x' b1]|e]; [|reflexivity]. cbn.
    rewrite IH. reflexivity. }
  destruct n; cbn [bind_node]; rewrite ?Hlist; reflexivity.
Qed.

Lemma unbind_node_unfold (n : DataNode) :
  unbind_node n =
    match n with
    | ConstantDataNode u ins scalar scalar_type =>
        ins' ← unbind_list ins; Ok (ConstantDataNode u ins' scalar scalar_type)
    | ScalarOperationDataNode u ins f a =>
        ins' ← unbind_list ins; Ok (ScalarOperationDataNode u ins' f a)
    | UnaryOperationDataNode u ins f a =>
        ins' ← unbind_list ins; Ok (UnaryOperationDataNode u ins' f a)
    | BinaryOperationDataNode u ins f a =>
        ins' ← unbind_list ins; Ok (BinaryOperationDataNode u ins' f a)
    | FunctionOperationDataNode u ins f a =>
        ins' ← unbind_list ins; Ok (FunctionOperationDataNode u ins' f a)
    | DataItemDataNode u ins o _ => Ok (DataItemDataNode u ins o None)
    | ReferenceDataNode _ _ _ => Raise TypeError
    | PropertyDataNode u ins o p _ => Ok (PropertyDataNode u ins o p None)
    end.
Proof.
  assert (Hlist : forall l,
             (fix unbind_inputs (l : list DataNode) : result (list DataNode) :=
                match l with
                | [] => Ok []
                | x :: l' =>
                    x' ← unbind_node x; l'' ← unbind_inputs l'; Ok (x' :: l'')
                end) l = unbind_list l).
  { induction l as [|x l IH]; [reflexivity|]. cbn [unbind_list].
    rewrite <- IH. reflexivity. }
  destruct n; cbn [unbind_node]; rewrite ?Hlist; reflexivity.
Qed.

Lemma bind_stable_list (ins : list DataNode) :
  Forall bind_stable ins ->
  forall b ins' b',
    bind_inputs ins b = Ok (ins', b') ->
    write_list ins' = write_list ins
    /\ unbind_list ins' = unbind_list ins
    /\ bind_inputs ins' b = Ok (ins', b')
    /\ exists ms, unbind_list ins = Ok ms /\ unbind_list ms = Ok ms
                  /\ bind_inputs ms b = Ok (ins', b')
                  /\ write_list ms = write_list ins.
Proof.
  induction 1 as [|x l Hx _ IH]; intros b ins' b' Hbind.
  - cbn in Hbind. injection Hbind as <- <-. repeat split. exists [].
    repeat split.
  - cbn [bind_list] in Hbind.
    destruct (bind x b) as [[x' b1]|e] eqn:Hbx; [|discriminate].
    cbn in Hbind.
    destruct (bind_inputs l b1) as [[l' b2]|e] eqn:Hbl; [|discriminate].
    cbn in Hbind. injection Hbind as <- <-.
    destruct (Hx b x' b1 Hbx) as (Hw & Hu & Hb & m & Hum & Hmm & Hbm & Hwm).
    destruct (IH b1 l' b2 Hbl) as (Hws & Hus & Hbs & ms & Hums & Hmms & Hbms & Hwms).
    cbn [write_list unbind_list bind_list].
    rewrite Hw, Hws, Hu, Hus, Hb. cbn. rewrite Hbs. cbn.
    repeat split. exists (m :: ms). cbn [write_list unbind_list bind_list].
    rewrite Hum, Hums, Hmm, Hmms, Hbm, Hwm, Hwms. cbn. rewrite Hbms. cbn.
    repeat split.
Qed.

Lemma bind_is_stable (n : DataNode) : bind_stable n.
Proof.
  induction n as [n IH] using DataNode_tree_ind.
  intros b n' b' Hbind. rewrite bind_node_unfold in Hbind.
  destruct n as [u ins sc st|u ins f a|u ins f a|u ins f a|u ins f a
                 |u ins o bi|u ins o|u ins o p bi];
    cbn [node_inputs] in IH;
    try (destruct (bind_inputs ins b) as [[ins' b1]|e] eqn:Hins;
         [|discriminate]; cbn in Hbind; injection Hbind as <- <-;
         destruct (bind_stable_list ins IH b ins' b1 Hins)
           as (Hws & Hus & Hbs & ms & Hums & Hmms & Hbms & Hwms);
         rewrite !write_unfold, !unbind_node_unfold, !bind_node_unfold,
           Hws, Hus, Hbs; cbn;
         repeat split;
         eexists; rewrite Hums; cbn; split; [reflexivity|];
         rewrite !write_unfold, !unbind_node_unfold, !bind_node_unfold,
           Hmms, Hbms, Hwms; cbn; repeat split).
  - destruct (resolve_object_specifier o None) as [item|] eqn:Hres;
      [|discriminate].
    injection Hbind as <- <-.
    rewrite !write_unfold, !unbind_node_unfold, !bind_node_unfold, Hres.
    repeat split. eexists. split; [reflexivity|].
    rewrite !write_unfold, !unbind_node_unfold, !bind_node_unfold, Hres.
    repeat split.
  - discriminate.
  - destruct (resolve_object_specifier o (Some p)) as [item|] eqn:Hres;
      [|discriminate].
    injection Hbind as <- <-.
    rewrite !write_unfold, !unbind_node_unfold, !bind_node_unfold, Hres.
    repeat split. eexists. split; [reflexivity|].
    rewrite !write_unfold, !unbind_node_unfold, !bind_node_unfold, Hres.
    repeat split.
Qed.

(** X21.  After a successful [bind], [unbind] succeeds as well and gives
    the tree that [unbind] gives on the tree before; that tree is left alone
    by a further [unbind], and binding it to the same dictionary gives the
    bound tree and the bound items again. *)
Theorem X21_unbind_undoes_bind (n n' : DataNode) (b b' : gmap Z BoundItem) :
  bind n b = Ok (n', b') ->
  exists m,
    unbind_node n' = Ok m
    /\ unbind_node n = Ok m
    /\ unbind_node m = Ok m
    /\ bind m b = Ok (n', b').
Proof.
  intros Hbind.
  destruct (bind_is_stable n b n' b' Hbind)
    as (_ & Hu & _ & m & Hum & Hmm & Hbm & _).
  exists m. rewrite Hu. auto.
Qed.

(** X22.  The written record of a tree does not tell whether the tree is
    bound: [write] gives the same after [bind] and after [unbind]. *)
Theorem X22_write_ignores_binding (n n' : DataNode) (b b' : gmap Z BoundItem) :
  bind n b = Ok (n', b') ->
  write n' = write n
  /\ forall m, unbind_node n' = Ok m -> write m = write n.
Proof.
  intros Hbind.
  destruct (bind_is_stable n b n' b' Hbind)
    as (Hw & Hu & _ & m & Hum & _ & _ & Hwm).
  split; [exact Hw|]. intros m' Hm'. rewrite Hu, Hum in Hm'.
  injection Hm' as <-. exact Hwm.
Qed.

(** X23.  [Computation.bind] refuses a computation that still has bound
    items: a second [bind] after one that bound something raises
    AssertionError and changes nothing.  After [Computation.unbind] it is
    accepted again and ends with the same bound items and the same data
    node. *)
Theorem X23_computation_rebinds_after_unbind (c c1 : Computation) :
  Computation_bind resolve_object_specifier c = (Ok (), c1) ->
  (bound_items c1 <> ∅ ->
   Computation_bind resolve_object_specifier c1 = (Raise AssertionError, c1))
  /\ exists c2,
      Computation_bind resolve_object_specifier (Computation_unbind c1)
        = (Ok (), c2)
      /\ bound_items c2 = bound_items c1
      /\ data_node c2 = data_node c1
      /\ node c2 = node c1.
Proof.
  unfold Computation_bind. intros Hbind.
  destruct (bool_decide (bound_items c = ∅)) eqn:Hempty; [|discriminate].
  apply bool_decide_eq_true in Hempty.
  destruct (data_node c) as [n|]; [|discriminate].
  rewrite Hempty in Hbind.
  destruct (bind n ∅) as [[n' b]|e] eqn:Hb; [|discriminate].
  injection Hbind as <-. cbn [bound_items data_node node]. split.
  - intros Hne. rewrite bool_decide_eq_false_2 by exact Hne. reflexivity.
  - cbn [Computation_unbind bound_items data_node node bound_item_listeners].
    rewrite bool_decide_eq_true_2 by reflexivity.
    destruct (bind_is_stable n ∅ n' b Hb) as (_ & _ & -> & _).
    eexists. split; [reflexivity|]. repeat split.
Qed.

End Nodes.

Lemma X21_witness :
  let resolve := fun (_ : specifier) (_ : option string) => Some 100 in
  let n' := BinaryOperationDataNode 1
              [DataItemDataNode 2 [] (Some (data_item_specifier 100)) (Some 100);
               new_ConstantDataNode 3 (PyInt 2)]
              (Some "add") ∅ in
  exists m,
    unbind_node n' = Ok m
    /\ unbind_node a_plus_2 = Ok m
    /\ unbind_node m = Ok m
    /\ bind_node resolve m ∅ = Ok (n', <[2 := 100]> ∅).
Proof.
  apply (X21_unbind_undoes_bind (fun _ _ => Some 100) a_plus_2).
  reflexivity.
Defined.

Lemma X22_witness :
  let n' := BinaryOperationDataNode 1
              [DataItemDataNode 2 [] (Some (data_item_specifier 100)) (Some 100);
               new_ConstantDataNode 3 (PyInt 2)]
              (Some "add") ∅ in
  write n' = write a_plus_2
  /\ forall m, unbind_node n' = Ok m -> write m = write a_plus_2.
Proof.
  apply (X22_write_ignores_binding (fun _ _ => Some 100) a_plus_2 _ ∅
           (<[2 := 100]> ∅)).
  reflexivity.
Defined.

Lemma X23_witness :
  let resolve := fun (_ : specifier) (_ : option string) => Some 100 in
  let n' := BinaryOperationDataNode 1
              [DataItemDataNode 2 [] (Some (data_item_specifier 100)) (Some 100);
               new_ConstantDataNode 3 (PyInt 2)]
              (Some "add") ∅ in
  let c1 := {| node := None; bound_items := <[2 := 100]> ∅;
               bound_item_listeners := <[2 := 100]> ∅ ∪ ∅;
               data_node := Some n' |} in
  (bound_items c1 <> ∅ ->
   Computation_bind resolve c1 = (Raise AssertionError, c1))
  /\ exists c2,
      Computation_bind resolve (Computation_unbind c1) = (Ok (), c2)
      /\ bound_items c2 = bound_items c1
      /\ data_node c2 = data_node c1
      /\ node c2 = node c1.
Proof.
  apply (X23_computation_rebinds_after_unbind (fun _ _ => Some 100)
           {| node := None; bound_items := ∅; bound_item_listeners := ∅;
              data_node := Some a_plus_2 |}).
  reflexivity.
Defined.

(** * Expressions and stored records *)

Section Expressions.

Lemma operations_only_readable (n : DataNode) :
  operations_only n = true -> exists d, write n = Ok d /\ factory d = Ok n.
Proof.
  intros Hok. destruct (operations_only_round_trips n Hok) as (d & Hw & Hf & _).
  eauto.
Qed.

(** X24.  A node built by an arithmetic operator from nodes that can be
    stored can be stored as well: it is written, and [factory] builds the
    same node from the record.  With a string or [None] as the other
    operand the operator raises AssertionError. *)
Theorem X24_operators_build_storable_nodes (u u_const : Z)
    (o1 : unary_operator) (o2 : binary_operator) (reflected : bool)
    (self other : DataNode) :
  operations_only self = true ->
  operations_only other = true ->
  (exists d, write (DataNode_unary u o1 self) = Ok d
             /\ factory d = Ok (DataNode_unary u o1 self))
  /\ (exists n d,
        DataNode_binary u u_const o2 reflected self (OperandNode other) = Ok n
        /\ node_inputs n = (if reflected then [other; self] else [self; other])
        /\ write n = Ok d /\ factory d = Ok n)
  /\ (forall s, DataNode_binary u u_const o2 reflected self
                  (OperandValue (PyStr s)) = Raise AssertionError)
  /\ DataNode_binary u u_const o2 reflected self (OperandValue PyNone)
       = Raise AssertionError.
Proof.
  intros Hself Hother. split; [|split; [|split; [intros s|]; reflexivity]].
  - apply operations_only_readable. cbn. rewrite Hself.
    destruct o1; reflexivity.
  - eexists. unfold DataNode_binary. cbn.
    assert (Hok : operations_only
                    (BinaryOperationDataNode u
                       (if reflected then [other; self] else [self; other])
                       (Some (binary_function_id o2)) ∅) = true).
    { cbn. destruct reflected; cbn; rewrite Hself, Hother;
        destruct o2; reflexivity. }
    destruct (operations_only_readable _ Hok) as (d & Hw & Hf).
    exists d. repeat split; assumption.
Qed.

Lemma X24_witness :
  let self := DataItemDataNode 2 [] (Some (data_item_specifier 100)) None in
  let other := DataItemDataNode 3 [] (Some (data_item_specifier 101)) None in
  (exists d, write (DataNode_unary 1 op_neg self) = Ok d
             /\ factory d = Ok (DataNode_unary 1 op_neg self))
  /\ (exists n d,
        DataNode_binary 1 4 op_sub true self (OperandNode other) = Ok n
        /\ node_inputs n = [other; self]
        /\ write n = Ok d /\ factory d = Ok n)
  /\ (forall s, DataNode_binary 1 4 op_sub true self
                  (OperandValue (PyStr s)) = Raise AssertionError)
  /\ DataNode_binary 1 4 op_sub true self (OperandValue PyNone)
       = Raise AssertionError.
Proof.
  apply (X24_operators_build_storable_nodes 1 4 op_neg op_sub true
           (DataItemDataNode 2 [] (Some (data_item_specifier 100)) None)
           (DataItemDataNode 3 [] (Some (data_item_specifier 101)) None));
    reflexivity.
Defined.

(** X25.  Every function that [parse_expression] offers under a name
    builds, from arguments that can be stored, a node that can be stored:
    the function id it puts in the node is one that the node's class accepts
    when it reads the record back. *)
Theorem X25_expression_functions_build_storable_nodes (u : Z) (name : string)
    (arguments : list DataNode) (n : DataNode) :
  expression_call u name arguments = Some (Ok n) ->
  forallb operations_only arguments = true ->
  node_inputs n = arguments
  /\ exists d, write n = Ok d /\ factory d = Ok n.
Proof.
  unfold expression_call. intros Hcall Hargs.
  destruct (list_find _ expression_functions) as [[i [name' [c arity]]]|] eqn:Hfind;
    [|discriminate].
  destruct (bool_decide (length arguments = arity)); [|discriminate].
  injection Hcall as <-.
  apply list_find_Some in Hfind as (Hin & Hname & _). cbn in Hname. subst name'.
  apply list_elem_of_lookup_2 in Hin.
  assert (Hkeys : match c with
                  | FunctionClass => in_keys function2_map_keys (Some name) = true
                  | _ => in_keys function_map_keys (Some name) = true
                  end).
  { unfold expression_functions in Hin.
    repeat (apply elem_of_cons in Hin as [Hin|Hin];
            [injection Hin as -> -> ->; reflexivity|]).
    apply elem_of_nil in Hin. contradiction. }
  split; [destruct c; reflexivity|].
  apply operations_only_readable.
  destruct c; cbn [operations_only]; rewrite Hkeys, Hargs; reflexivity.
Qed.

Lemma X25_witness :
  let a := DataItemDataNode 2 [] (Some (data_item_specifier 100)) None in
  let b := DataItemDataNode 3 [] (Some (data_item_specifier 101)) None in
  let n := FunctionOperationDataNode 1 [a; b] (Some "crosscorrelate") ∅ in
  node_inputs n = [a; b]
  /\ exists d, write n = Ok d /\ factory d = Ok n.
Proof.
  apply (X25_expression_functions_build_storable_nodes 1 "crosscorrelate"
           [DataItemDataNode 2 [] (Some (data_item_specifier 100)) None;
            DataItemDataNode 3 [] (Some (data_item_specifier 101)) None]);
    reflexivity.
Defined.

Lemma read_fields_unregistered (n0 : DataNode) (u : Z) (ins : list DataNode)
    (d : NodeDict) :
  match n0 with
  | ScalarOperationDataNode _ _ _ _ | UnaryOperationDataNode _ _ _ _
  | BinaryOperationDataNode _ _ _ _ =>
      in_keys function_map_keys (d_function_id d) = false
  | FunctionOperationDataNode _ _ _ _ =>
      in_keys function2_map_keys (d_function_id d) = false
  | _ => False
  end ->
  read_fields n0 u ins d = Raise AssertionError.
Proof. destruct n0; cbn; intros H; try contradiction; rewrite H; reflexivity. Qed.

(** X26.  An operation node whose function id is not in the registry of
    its class (the constructors' default [None] is not) is written without
    complaint, but the record cannot be read: [factory] raises
    AssertionError. *)
Theorem X26_unregistered_function_is_written_not_read (u : Z)
    (ins : list DataNode) (f : option string) (a : gmap string pyvalue)
    (n : DataNode) :
  forallb operations_only ins = true ->
  (in_keys function_map_keys f = false
   /\ n ∈ [ScalarOperationDataNode u ins f a; UnaryOperationDataNode u ins f a;
           BinaryOperationDataNode u ins f a])
  \/ (in_keys function2_map_keys f = false
      /\ n = FunctionOperationDataNode u ins f a) ->
  exists d, write n = Ok d /\ factory d = Raise AssertionError.
Proof.
  intros Hins Hn.
  assert (Hall : Forall round_trips ins).
  { rewrite forallb_forall in Hins. rewrite Forall_forall.
    intros x Hx. apply operations_only_round_trips, Hins, list_elem_of_In, Hx. }
  destruct (round_trips_list _ Hall) as (ds & Hws & Hrs & Hnil).
  assert (Hread : forall t,
             match d_inputs (operation_dict t u ds f a) with
             | Some input_dicts => read_list input_dicts
             | None => Ok []
             end = Ok ins).
  { intros t. apply (read_inputs_of_base_dict u ins ds Hrs Hnil). }
  destruct Hn as [[Hkey Hn]|[Hkey ->]].
  - repeat (apply elem_of_cons in Hn as [->|Hn]);
      [| | |apply elem_of_nil in Hn; contradiction];
      eexists; (split; [rewrite write_unfold, Hws; reflexivity|]);
      unfold factory, factory_with;
      cbn [d_data_node_type operation_dict set_args set_function_id
           set_data_node_type base_dict mbind result_bind dict_item];
      [change (default_node "scalar") with (Some (ScalarOperationDataNode 0 [] None ∅))
      |change (default_node "unary") with (Some (UnaryOperationDataNode 0 [] None ∅))
      |change (default_node "binary") with (Some (BinaryOperationDataNode 0 [] None ∅))];
      cbv beta iota; rewrite read_node_unfold;
      [rewrite (Hread "scalar")|rewrite (Hread "unary")|rewrite (Hread "binary")];
      cbn [d_uuid operation_dict set_args set_function_id set_data_node_type
           base_dict dict_item mbind result_bind];
      apply read_fields_unregistered; exact Hkey.
  - eexists. split; [rewrite write_unfold, Hws; reflexivity|].
    unfold factory, factory_with.
    cbn [d_data_node_type operation_dict set_args set_function_id
         set_data_node_type base_dict mbind result_bind dict_item].
    change (default_node "function")
      with (Some (FunctionOperationDataNode 0 [] None ∅)).
    cbv beta iota. rewrite read_node_unfold, (Hread "function").
    cbn [d_uuid operation_dict set_args set_function_id set_data_node_type
         base_dict dict_item mbind result_bind].
    apply read_fields_unregistered. exact Hkey.
Qed.

Lemma X26_witness :
  exists d, write (BinaryOperationDataNode 1 [] (Some "fft") ∅) = Ok d
            /\ factory d = Raise AssertionError.
Proof.
  apply (X26_unregistered_function_is_written_not_read 1 [] (Some "fft") ∅).
  - reflexivity.
  - left. split; [reflexivity|]. set_solver.
Defined.

(** X27.  What [factory] does with a record it cannot use: without
    ["data_node_type"] it raises KeyError, with a type that is not in the
    node map AssertionError, with the type of the reference node TypeError,
    and with a type of the node map but without ["uuid"] KeyError. *)
Theorem X27_factory_rejects_malformed_records (d : NodeDict) (t : string) :
  (d_data_node_type d = None -> factory d = Raise KeyError)
  /\ (d_data_node_type d = Some t ->
      (t ∉ ["constant"; "scalar"; "unary"; "binary"; "function"; "property";
            "reference"; "data"] -> factory d = Raise AssertionError)
      /\ (t = "reference" -> factory d = Raise TypeError)
      /\ (t ∈ ["constant"; "scalar"; "unary"; "binary"; "function";
               "property"; "data"] ->
          d_uuid d = None -> factory d = Raise KeyError)).
Proof.
  unfold factory, factory_with. split; [intros ->; reflexivity|].
  intros ->. cbn [dict_item mbind result_bind]. split; [|split].
  - intros Hnot. unfold default_node.
    repeat (destruct (decide _) as [->|_]; [exfalso; apply Hnot; set_solver|]).
    reflexivity.
  - intros ->.
    change (default_node "reference") with (Some (ReferenceDataNode 0 [] None)).
    cbv beta iota. rewrite read_node_unfold. reflexivity.
  - intros Hin Hu.
    repeat (apply elem_of_cons in Hin as [->|Hin]);
      [| | | | | | |apply elem_of_nil in Hin; contradiction];
      match goal with
      | |- context [default_node ?s] =>
          let n0 := eval vm_compute in (default_node s) in
          change (default_node s) with n0
      end;
      cbv beta iota; rewrite read_node_unfold, Hu; reflexivity.
Qed.

Lemma variable_nodes_without_type (uuid4 : nat -> Z)
    (variable_map : list (string * gmap string pyvalue)) :
  (exists name o, (name, o) ∈ variable_map /\ o !! "type" = None) ->
  forall i, variable_nodes uuid4 i variable_map = Raise KeyError.
Proof.
  intros (name & o & Hin & Hnone).
  induction variable_map as [|[name' o'] rest IH]; intros i;
    [apply elem_of_nil in Hin; contradiction|].
  cbn [variable_nodes]. unfold reference_node.
  destruct (o' !! "type") as [t|] eqn:Ht; [|reflexivity].
  apply elem_of_cons in Hin as [Heq|Hin]; [congruence|].
  rewrite (IH Hin (S i)).
  destruct (bool_decide (t = PyStr "data_item")); reflexivity.
Qed.

(** X28.  When the specifier of a variable has no ["type"] entry,
    [parse_expression] raises KeyError before the expression is run: this
    error is not absorbed, and [Computation.parse_expression] lets it
    through and leaves the computation as it was. *)
Theorem X28_variable_without_type_raises
    (resolve_object_specifier : specifier -> option string -> option BoundItem)
    (exec : string -> list (string * DataNode) -> exec_outcome)
    (uuid4 : nat -> Z) (expression : string)
    (variable_map : list (string * gmap string pyvalue))
    (name : string) (o : gmap string pyvalue) (c : Computation) :
  (name, o) ∈ variable_map ->
  o !! "type" = None ->
  parse_expression exec uuid4 expression variable_map = Raise KeyError
  /\ Computation_parse_expression resolve_object_specifier exec uuid4
       expression variable_map c = (Raise KeyError, c).
Proof.
  intros Hin Hnone.
  assert (Hparse : parse_expression exec uuid4 expression variable_map
                   = Raise KeyError).
  { unfold parse_expression.
    rewrite (variable_nodes_without_type uuid4 variable_map) by eauto.
    reflexivity. }
  split; [exact Hparse|].
  unfold Computation_parse_expression. rewrite Hparse. reflexivity.
Qed.

Lemma X28_witness :
  let variable_map := [("a", data_item_specifier 100);
                       ("b", {[ "uuid" := PyInt 7 ]})] in
  let c := established a_plus_2 (Build_NodeDict None None None None None None
                                   None None None) in
  parse_expression (fun _ _ => ExecResult a_plus_2) (fun _ => 0) "a + b"
    variable_map = Raise KeyError
  /\ Computation_parse_expression resolve_nothing
       (fun _ _ => ExecResult a_plus_2) (fun _ => 0) "a + b" variable_map c
     = (Raise KeyError, c).
Proof.
  apply (X28_variable_without_type_raises resolve_nothing
           (fun _ _ => ExecResult a_plus_2) (fun _ => 0) "a + b"
           [("a", data_item_specifier 100); ("b", {[ "uuid" := PyInt 7 ]})]
           "b" {[ "uuid" := PyInt 7 ]}).
  - set_solver.
  - reflexivity.
Defined.

End Expressions.

(** * Reloading a computation, and data held in memory *)

Section Reload.

(** X29.  [Computation.read_from_dict] rebuilds the data node from the
    stored record: for a tree of operation, data and property nodes that
    [parse_expression] has written, the rebuilt data node is the tree that
    was written; the bound items are not touched.  Without a stored record
    it raises TypeError and keeps the data node it had. *)
Theorem X29_read_from_dict_rebuilds_the_tree (n : DataNode) (d : NodeDict)
    (c : Computation) :
  operations_only n = true ->
  write n = Ok d ->
  Computation_read_from_dict (Some d) c =
    (Ok (), {| node := Some d; bound_items := bound_items c;
               bound_item_listeners := bound_item_listeners c;
               data_node := Some n |})
  /\ (Computation_read_from_dict None c).1 = Raise TypeError
  /\ data_node (Computation_read_from_dict None c).2 = data_node c.
Proof.
  intros Hok Hw.
  destruct (operations_only_round_trips n Hok) as (d' & Hw' & Hf & _).
  rewrite Hw in Hw'. injection Hw' as <-.
  unfold Computation_read_from_dict. rewrite Hf. repeat split.
Qed.

Lemma X29_witness :
  let n := UnaryOperationDataNode 1
             [DataItemDataNode 2 [] (Some (data_item_specifier 100)) None]
             (Some "neg") ∅ in
  let d := operation_dict "unary" 1
             [set_object_specifier (Some (data_item_specifier 100))
                (set_data_node_type "data" (base_dict 2 []))]
             (Some "neg") ∅ in
  let c := {| node := None; bound_items := ∅; bound_item_listeners := ∅;
              data_node := None |} in
  Computation_read_from_dict (Some d) c =
    (Ok (), {| node := Some d; bound_items := bound_items c;
               bound_item_listeners := bound_item_listeners c;
               data_node := Some n |})
  /\ (Computation_read_from_dict None c).1 = Raise TypeError
  /\ data_node (Computation_read_from_dict None c).2 = data_node c.
Proof.
  apply (X29_read_from_dict_rebuilds_the_tree
           (UnaryOperationDataNode 1
              [DataItemDataNode 2 [] (Some (data_item_specifier 100)) None]
              (Some "neg") ∅)); reflexivity.
Defined.

End Reload.

Section HeldData.
Context `{Image : ImageModule}.

(** X30.  On an item without data source, "while a reference is held,
    master data that lives in a datastore is in memory" is kept by
    acquiring, by releasing a held reference and by [__get_data]; and the
    first acquire establishes it. *)
Theorem X30_held_data_stays_loaded (d : DataItem) :
  data_source d = None ->
  0 <= data_ref_count d ->
  (0 < data_ref_count d -> has_master_data d = true -> datastore d <> None ->
   is_data_loaded d = true) ->
  let held (x : DataItem) :=
    0 <= data_ref_count x
    /\ (0 < data_ref_count x -> has_master_data x = true ->
        datastore x <> None -> is_data_loaded x = true) in
  held (increment_data_ref_count d).1
  /\ (0 < data_ref_count d -> held (decrement_data_ref_count d).1)
  /\ held (get_data d).1.2.
Proof.
  intros Hs Hcount Hloaded. cbn zeta. unfold is_data_loaded in *.
  split; [|split].
  - rewrite increment_unfold, Hs. cbn zeta.
    destruct (Z.eqb_spec (data_ref_count d) 0) as [Hz|Hnz].
    + unfold load_master_data.
      destruct d as [u cl md mds mdt hm ds ops cd cdd rc cc chg cal st tc dr].
      cbn in *. subst.
      destruct st as [store|], md as [a|], hm; cbn;
        (split; [lia|]); intros _ Hhas Hst;
        first [ reflexivity
              | discriminate
              | exfalso; apply Hst; reflexivity
              | apply bool_decide_eq_true_2; discriminate ].
    + destruct d as [u cl md mds mdt hm ds ops cd cdd rc cc chg cal st tc dr].
      cbn in *. split; [lia|]. intros _. apply Hloaded. lia.
  - intros Hpos. rewrite decrement_unfold, Hs. cbn zeta.
    destruct d as [u cl md mds mdt hm ds ops cd cdd rc cc chg cal st tc dr].
    cbn in *.
    destruct (Z.eqb_spec (rc - 1) 0) as [Hz|Hnz].
    + unfold unload_master_data. cbn.
      destruct ((tc =? 0) && hm && bool_decide (st <> None)); cbn;
        (split; [lia|]); intros Hlt; lia.
    + cbn. split; [lia|]. intros _. apply Hloaded. lia.
  - rewrite get_data_unfold. unfold get_data_body.
    destruct (_ || _); [|split; assumption].
    cbn zeta. unfold root_data. rewrite Hs.
    destruct (if has_master_data d then master_data d else None) as [a|];
      cbn [fst snd]; unfold store_cached_data;
      rewrite get_data_range_for_data_snd;
      destruct d as [u cl md mds mdt hm ds ops cd cdd rc cc chg cal st tc dr];
      cbn in *; split; assumption.
Qed.

End HeldData.

Lemma X30_witness :
  let d := stored_item 1 (array_of 7) in
  let held (x : DataItem) :=
    0 <= data_ref_count x
    /\ (0 < data_ref_count x -> has_master_data x = true ->
        datastore x <> None -> is_data_loaded x = true) in
  held (increment_data_ref_count d).1
  /\ (0 < data_ref_count d -> held (decrement_data_ref_count d).1)
  /\ held (@get_data Image_plain d).1.2.
Proof.
  apply (@X30_held_data_stays_loaded Image_plain (stored_item 1 (array_of 7))).
  - reflexivity.
  - vm_compute. discriminate.
  - intros _ _ _. reflexivity.
Defined.
